(** * Node bootstrap and command dispatch (server/node.go)

    A shallow embedding of the node of server/node.go: the ID allocators,
    the bootstrap of a new cluster, the initialisation and validation of
    the stores, the gossip handshake and the command dispatcher.

    The node's collaborators (key/value client, storage engines, store
    registry, gossip, stopper, tracer, event feed) are declared in other
    packages.  Each one is modelled as a small state machine that follows
    the interface the specification gives for it; what such a collaborator
    answers (a failure, an iteration order, a routing result) is scripted
    in its state, so that every function of node.go below is executable. *)

From Stdlib Require Import ZArith List String Bool Lia Permutation.
Import ListNotations.

Open Scope string_scope.
Open Scope list_scope.
Open Scope Z_scope.

(** ** Integers *)

(** Go's [int64]: a value of [Z] between [min_int64] and [max_int64];
    arithmetic wraps around. *)
Definition min_int64 : Z := - 2 ^ 63.
Definition max_int64 : Z := 2 ^ 63 - 1.

Definition in_int64 (x : Z) : Prop := min_int64 <= x <= max_int64.

Definition wrap64 (x : Z) : Z := (x + 2 ^ 63) mod 2 ^ 64 - 2 ^ 63.

(** Go's [int32], the type under roachpb.NodeID and roachpb.StoreID. *)
Definition min_int32 : Z := - 2 ^ 31.
Definition max_int32 : Z := 2 ^ 31 - 1.

Definition in_int32 (x : Z) : Prop := min_int32 <= x <= max_int32.

Definition wrap32 (x : Z) : Z := (x + 2 ^ 31) mod 2 ^ 32 - 2 ^ 31.

(** Modelled from the spec: roachpb.NodeID and roachpb.StoreID are declared
    in package roachpb; the data model gives both as integers with 0 for
    "unassigned".  Both are 32-bit integers there, so the conversions
    [roachpb.NodeID(x)] and [roachpb.StoreID(x)] of an int64 or an int
    keep the low 32 bits, and [++] on an ID wraps around at 32 bits. *)
Definition NodeID := Z.
Definition StoreID := Z.

Definition toNodeID (x : Z) : NodeID := wrap32 x.
Definition toStoreID (x : Z) : StoreID := wrap32 x.

(** roachpb.StoreIdent, as node.go builds it. *)
Record StoreIdent := mkStoreIdent {
  siClusterID : string;
  siNodeID : NodeID;
  siStoreID : StoreID
}.

Definition zeroIdent : StoreIdent := mkStoreIdent "" 0 0.

(** util.UnresolvedAddr: compared with [==] in initStores. *)
Record UnresolvedAddr := mkUnresolvedAddr {
  NetworkField : string;
  AddressField : string
}.

Definition UnresolvedAddr_eqb (a b : UnresolvedAddr) : bool :=
  String.eqb (NetworkField a) (NetworkField b)
  && String.eqb (AddressField a) (AddressField b).

(** A net.Addr is an interface value; initStores asks whether its dynamic
    type is *util.UnresolvedAddr. *)
Inductive NetAddr :=
| AddrUnresolved (a : UnresolvedAddr)
| AddrOther (network addr : string).

(** roachpb.NodeDescriptor. *)
Record NodeDescriptor := mkNodeDescriptor {
  dNodeID : NodeID;
  dAddress : UnresolvedAddr;
  dAttrs : list string
}.

(** ** Storage engines and stores *)

Definition KeyValue := (string * string)%type.

(** Modelled from the spec: engine.Engine (package storage/engine).  An
    engine persists at most one StoreIdent ("persisted inside a storage
    engine at bootstrap time") and the key/values written directly into
    it.  The four flags script the failures that the engine's operations
    can report. *)
Record Engine := mkEngine {
  engName : string;
  engIdent : option StoreIdent;
  engData : list KeyValue;
  engCapacity : Z;
  failStart : bool;
  failBootstrap : bool;
  failBootstrapRange : bool;
  failCapacity : bool
}.

(** Modelled from the spec: storage.Store, "a store that can be started,
    bootstrapped, report capacity" with "a readable Ident field".  The
    engine is the one the store was created on. *)
Record Store := mkStore {
  sEngine : Engine;
  sIdent : StoreIdent;
  sStarted : bool
}.

(** ** Errors *)

(** The error values of node.go.  A message built by util.Errorf or
    fmt.Errorf is kept as a constructor with the arguments of its format. *)
#[warnings="-register-all"]
Inductive Error :=
| errNeedsBootstrap
| errCannotJoinSelf
| NotBootstrappedError
| ErrCollaborator (what : string)
| ErrAllocateNodeID (cause : Error)
| ErrAllocateStoreIDs (inc : Z) (nodeID : NodeID) (cause : Error)
| ErrAlreadyInCluster (clusterID : string)
| ErrNodeIDAllocator (expected got : NodeID) (cause : option Error)
| ErrStoreIDAllocator (expected got : StoreID) (cause : option Error)
| ErrNoEngines
| ErrFailedToStartStore (cause : Error)
| ErrUnidentifiedStore (s : Store)
| ErrStoreCapacity (cause : Error)
| ErrClusterIDMismatch (s : Store) (nodeCluster : string)
| ErrNodeIDMismatch (s : Store) (nodeID : NodeID)
| ErrGossipInterface (cause : Error)
| ErrUnmarshalTrace (cause : Error)
| ErrNodeStopped (nodeID : NodeID).

Inductive result (A : Type) :=
| Ok (a : A)
| Err (e : Error).
Arguments Ok {A} a.
Arguments Err {A} e.

(** ** The key/value client *)

Inductive Key := NodeIDGenerator | StoreIDGenerator.

(** Modelled from the spec: client.DB, of which node.go uses
    "Increment(counterKey, delta) -> newValue | error", an "atomic
    increment of a dedicated counter key".  The two counters hold int64
    values.  [dbOutages] scripts the calls that fail: each call consumes
    one flag, [true] is a failed increment; [dbCalls] records the
    increments asked for, oldest first. *)
Record DB := mkDB {
  nodeIDCounter : Z;
  storeIDCounter : Z;
  dbOutages : list bool;
  dbCalls : list (Key * Z)
}.

Definition counter (db : DB) (k : Key) : Z :=
  match k with
  | NodeIDGenerator => nodeIDCounter db
  | StoreIDGenerator => storeIDCounter db
  end.

Definition setCounter (db : DB) (k : Key) (v : Z) : DB :=
  match k with
  | NodeIDGenerator =>
      mkDB v (storeIDCounter db) (dbOutages db) (dbCalls db)
  | StoreIDGenerator =>
      mkDB (nodeIDCounter db) v (dbOutages db) (dbCalls db)
  end.

Definition Inc (db : DB) (k : Key) (delta : Z) : DB * result Z :=
  let logged :=
    mkDB (nodeIDCounter db) (storeIDCounter db)
         (tl (dbOutages db)) (dbCalls db ++ [(k, delta)]) in
  match dbOutages db with
  | true :: _ => (logged, Err (ErrCollaborator "increment failed"))
  | _ =>
      let v := wrap64 (counter db k + delta) in
      (setCounter logged k v, Ok v)
  end.

(** ** The ID allocators *)

(** allocateNodeID, node.go lines 91-97: the conversion to roachpb.NodeID
    narrows the int64 that Inc returns. *)
Definition allocateNodeID (db : DB) : DB * (NodeID * option Error) :=
  match Inc db NodeIDGenerator 1 with
  | (db', Err err) => (db', (0, Some (ErrAllocateNodeID err)))
  | (db', Ok r) => (db', (toNodeID r, None))
  end.

(** allocateStoreIDs, node.go lines 102-108: [r.ValueInt() - inc + 1] is
    int64 arithmetic, and the conversion to roachpb.StoreID narrows its
    result. *)
Definition allocateStoreIDs (nodeID : NodeID) (inc : Z) (db : DB)
  : DB * (StoreID * option Error) :=
  match Inc db StoreIDGenerator inc with
  | (db', Err err) => (db', (0, Some (ErrAllocateStoreIDs inc nodeID err)))
  | (db', Ok r) => (db', (toStoreID (wrap64 (wrap64 (r - inc) + 1)), None))
  end.

(** ** Operations of a store *)

(** Modelled from the spec: storage.NewStore.  The new handle shows the
    StoreIdent its engine carries (bootstrapCluster reads [s.Ident] right
    after NewStore to see whether "the engine already carries a non-empty
    ClusterID"). *)
Definition NewStore (e : Engine) : Store :=
  mkStore e (match engIdent e with Some id => id | None => zeroIdent end)
          false.

Definition setEngine (s : Store) (e : Engine) : Store :=
  mkStore e (sIdent s) (sStarted s).

(** Modelled from the spec: Store.Start, "Start(stopSignal) -> ok |
    NotBootstrapped | error": an engine without a StoreIdent is "not yet
    identified". *)
Definition StoreStart (s : Store) : Store * option Error :=
  if failStart (sEngine s) then
    (s, Some (ErrCollaborator "store start failed"))
  else
    match engIdent (sEngine s) with
    | None => (s, Some NotBootstrappedError)
    | Some id => (mkStore (sEngine s) id true, None)
    end.

(** Modelled from the spec: Store.Bootstrap, "Persist the StoreIdent into
    the engine"; "once persisted, never changes". *)
Definition StoreBootstrap (s : Store) (ident : StoreIdent)
  : Store * option Error :=
  let e := sEngine s in
  if failBootstrap e then
    (s, Some (ErrCollaborator "store bootstrap failed"))
  else
    match engIdent e with
    | Some _ => (s, Some (ErrCollaborator "store already bootstrapped"))
    | None =>
        (mkStore (mkEngine (engName e) (Some ident) (engData e)
                           (engCapacity e) (failStart e) (failBootstrap e)
                           (failBootstrapRange e) (failCapacity e))
                 ident (sStarted s), None)
    end.

(** Modelled from the spec: Store.BootstrapRange writes "an initial
    key/value seed set (schema/metadata) directly into the engine". *)
Definition StoreBootstrapRange (s : Store) (initialValues : list KeyValue)
  : Store * option Error :=
  let e := sEngine s in
  if failBootstrapRange e then
    (s, Some (ErrCollaborator "bootstrap range failed"))
  else
    (setEngine s (mkEngine (engName e) (engIdent e)
                           (engData e ++ initialValues)
                           (engCapacity e) (failStart e) (failBootstrap e)
                           (failBootstrapRange e) (failCapacity e)), None).

(** Modelled from the spec: Store.Capacity, "Capacity() -> capacityInfo |
    error". *)
Definition StoreCapacity (s : Store) : result Z :=
  if failCapacity (sEngine s) then
    Err (ErrCollaborator "capacity unavailable")
  else Ok (engCapacity (sEngine s)).

(** ** Bootstrap of a new cluster *)

(** What bootstrapCluster builds for itself: the key/value client over
    its own store registry. *)
Record BootstrapCtx := mkBootstrapCtx {
  bcDB : DB;
  bcStores : list Store
}.

(** One iteration of the loop of bootstrapCluster (node.go lines
    136-182) on the engine at index [i].  The engine is returned as the
    iteration leaves it, also when the iteration ends with an error.
    ([i + 1] is an addition of Go's int on an index of the slice: it
    cannot overflow; the conversion to roachpb.StoreID narrows it.) *)
Definition bootstrapEngine (clusterID : string)
  (initialValues : list KeyValue) (i : nat) (eng : Engine)
  (c : BootstrapCtx) : Engine * BootstrapCtx * option Error :=
  let ident := mkStoreIdent clusterID 1 (toStoreID (Z.of_nat i + 1)) in
  let s := NewStore eng in
  if (0 <? String.length (siClusterID (sIdent s)))%nat then
    (eng, c, Some (ErrAlreadyInCluster (siClusterID (sIdent s))))
  else
    match StoreBootstrap s ident with
    | (s, Some err) => (sEngine s, c, Some err)
    | (s, None) =>
        let '(s, rangeErr) :=
          if (i =? 0)%nat then StoreBootstrapRange s initialValues
          else (s, None) in
        match rangeErr with
        | Some err => (sEngine s, c, Some err)
        | None =>
            match StoreStart s with
            | (s, Some err) => (sEngine s, c, Some err)
            | (s, None) =>
                let c := mkBootstrapCtx (bcDB c) (bcStores c ++ [s]) in
                let '(c, nodeErr) :=
                  if (i =? 0)%nat then
                    let '(db, (nodeID, err)) := allocateNodeID (bcDB c) in
                    let c := mkBootstrapCtx db (bcStores c) in
                    if negb (nodeID =? siNodeID ident)
                       || match err with Some _ => true | None => false end
                    then (c, Some (ErrNodeIDAllocator
                                     (siNodeID ident) nodeID err))
                    else (c, None)
                  else (c, None) in
                match nodeErr with
                | Some err => (sEngine s, c, Some err)
                | None =>
                    let '(db, (storeID, err)) :=
                      allocateStoreIDs (siNodeID ident) 1 (bcDB c) in
                    let c := mkBootstrapCtx db (bcStores c) in
                    if negb (storeID =? siStoreID ident)
                       || match err with Some _ => true | None => false end
                    then (sEngine s, c,
                          Some (ErrStoreIDAllocator
                                  (siStoreID ident) storeID err))
                    else (sEngine s, c, None)
                end
            end
        end
    end.

(** The loop [for i, eng := range engines], from index [i] on. *)
Fixpoint bootstrapEngines (clusterID : string)
  (initialValues : list KeyValue) (i : nat) (engines : list Engine)
  (c : BootstrapCtx) : list Engine * BootstrapCtx * option Error :=
  match engines with
  | [] => ([], c, None)
  | eng :: rest =>
      match bootstrapEngine clusterID initialValues i eng c with
      | (eng', c', Some err) => (eng' :: rest, c', Some err)
      | (eng', c', None) =>
          let '(rest', c'', err) :=
            bootstrapEngines clusterID initialValues (S i) rest c' in
          (eng' :: rest', c'', err)
      end
  end.

(** bootstrapCluster, node.go lines 122-184.  [uuid] is the string of
    uuid.NewUUID4(), [initialValues] the result of
    GetBootstrapSchema().GetInitialValues(), and [db] the state of the
    key/value client that client.NewDB(sender) creates.  Next to the
    source's pair (cluster ID, error) the function gives the engines as
    the call leaves them. *)
Definition bootstrapCluster (uuid : string) (initialValues : list KeyValue)
  (db : DB) (engines : list Engine)
  : list Engine * (string * option Error) :=
  let clusterID := uuid in
  match bootstrapEngines clusterID initialValues 0 engines
                         (mkBootstrapCtx db []) with
  | (engines', _, Some err) => (engines', ("", Some err))
  | (engines', _, None) => (engines', (clusterID, None))
  end.

(** ** Gossip, stopper, tracer, store registry and event feed *)

(** Modelled from the spec: resolver.Resolver, whose GetAddress gives a
    net.Addr or an error. *)
Record Resolver := mkResolver {
  GetAddress : result NetAddr
}.

(** Modelled from the spec: gossip.Gossip, "a key/value broadcast medium
    with a connectivity signal".  [gConnected] says whether the Connected
    channel is ever closed, [gClusterID] what GetInfo(KeyClusterID)
    answers (the bytes as a string); the two [fail] flags script the
    failures of SetStorage and SetNodeDescriptor. *)
Record Gossip := mkGossip {
  gResolvers : list Resolver;
  gConnected : bool;
  gClusterID : result string;
  gNodeID : NodeID;
  gDescriptor : option NodeDescriptor;
  gHasStorage : bool;
  gStores : list StoreIdent;
  failSetStorage : bool;
  failSetNodeDescriptor : bool
}.

Definition GetResolvers (g : Gossip) : list Resolver := gResolvers g.

Definition SetResolvers (g : Gossip) (resolvers : list Resolver) : Gossip :=
  mkGossip resolvers (gConnected g) (gClusterID g) (gNodeID g)
           (gDescriptor g) (gHasStorage g) (gStores g) (failSetStorage g)
           (failSetNodeDescriptor g).

Definition GetInfo (g : Gossip) : result string := gClusterID g.

Definition SetNodeID (g : Gossip) (id : NodeID) : Gossip :=
  mkGossip (gResolvers g) (gConnected g) (gClusterID g) id (gDescriptor g)
           (gHasStorage g) (gStores g) (failSetStorage g)
           (failSetNodeDescriptor g).

Definition SetNodeDescriptor (g : Gossip) (d : NodeDescriptor)
  : Gossip * option Error :=
  if failSetNodeDescriptor g then
    (g, Some (ErrCollaborator "descriptor not gossiped"))
  else
    (mkGossip (gResolvers g) (gConnected g) (gClusterID g) (gNodeID g)
              (Some d) (gHasStorage g) (gStores g) (failSetStorage g)
              (failSetNodeDescriptor g), None).

Definition SetStorage (g : Gossip) : Gossip * option Error :=
  if failSetStorage g then
    (g, Some (ErrCollaborator "gossip storage refused"))
  else
    (mkGossip (gResolvers g) (gConnected g) (gClusterID g) (gNodeID g)
              (gDescriptor g) true (gStores g) (failSetStorage g)
              (failSetNodeDescriptor g), None).

(** Store.GossipStore broadcasts the store on the gossip network. *)
Definition GossipStore (g : Gossip) (s : Store) : Gossip :=
  mkGossip (gResolvers g) (gConnected g) (gClusterID g) (gNodeID g)
           (gDescriptor g) (gHasStorage g) (gStores g ++ [sIdent s])
           (failSetStorage g) (failSetNodeDescriptor g).

(** Modelled from the spec: stop.Stopper, "scoped task admission" with
    "reject-on-shutdown semantics".  [asyncTasks] holds the pending lists
    handed to RunAsyncTask for bootstrapStores, [workers] the loops
    handed to RunWorker. *)
Inductive Worker := PublishStatusesLoop | GossipLoop.

Record Stopper := mkStopper {
  stopping : bool;
  asyncTasks : list (list Store);
  workers : list Worker
}.

(** Modelled from the spec: the request's trace context and the tracer.
    [trJoin] is what JoinTraceFromBinary makes of the context: an error,
    or a span together with the raw spans that the tracer passes to its
    recorder "when it's done".  [rawEncoded] is what EncodeRawSpan gives
    for a raw span. *)
Record RawSpan := mkRawSpan {
  rawOperation : string;
  rawEncoded : result string
}.

Record Trace := mkTrace {
  trContext : string;
  trAttributes : string;
  trJoin : result (list RawSpan)
}.

Inductive Span :=
| NoopSpan
| JoinedSpan (recorded : list RawSpan).

(** roachpb.Error, the structured error of the routing layer. *)
Definition PError := string.

(** Modelled from the spec: roachpb.BatchRequest and
    roachpb.BatchResponse, with the fields node.go touches (Trace, Error,
    CollectedSpans) and the payload. *)
Record BatchRequest := mkBatchRequest {
  baTrace : option Trace;
  baRequests : list string
}.

Record BatchResponse := mkBatchResponse {
  brError : option PError;
  brCollectedSpans : list string;
  brResponses : list string
}.

(** [&roachpb.BatchResponse{}] *)
Definition emptyResponse : BatchResponse := mkBatchResponse None [] [].

(** What Stores.Send gives back: the two results, either of which can be
    nil, and the time the call took. *)
Record SendResult := mkSendResult {
  srResponse : option BatchResponse;
  srError : option PError;
  srElapsed : Z
}.

(** Modelled from the spec: storage.Stores, the Store Registry.
    [storeMap] holds the registered stores; [iterOrder] is the order in
    which VisitStores ranges over them, "an order that need not be
    deterministic across runs but must visit each exactly once per call";
    [router] is what Send answers to a batch and [sent] the batches
    passed to Send, oldest first. *)
Record Stores := mkStores {
  storeMap : list Store;
  iterOrder : list Store -> list Store;
  router : BatchRequest -> SendResult;
  sent : list BatchRequest
}.

Definition GetStoreCount (ls : Stores) : nat := List.length (storeMap ls).

Definition AddStore (ls : Stores) (s : Store) : Stores :=
  mkStores (storeMap ls ++ [s]) (iterOrder ls) (router ls) (sent ls).

Definition Send (ls : Stores) (ba : BatchRequest) : Stores * SendResult :=
  (mkStores (storeMap ls) (iterOrder ls) (router ls) (sent ls ++ [ba]),
   router ls ba).

(** The events node.go publishes on status.NodeEventFeed. *)
Inductive FeedEvent :=
| StartNode (desc : NodeDescriptor) (startedAt : Z)
| CallComplete (ba : BatchRequest) (elapsed : Z) (pErr : option PError).

(** ** The node *)

(** storage.StoreContext: the fields node.go reads. *)
Record StoreContext := mkStoreContext {
  ctxDB : DB;
  ctxGossip : Gossip
}.

(** type Node struct, node.go lines 78-87; of the status monitor the
    node only keeps whether its feed was started. *)
Record Node := mkNode {
  stopper : Stopper;
  ClusterID : string;
  Descriptor : NodeDescriptor;
  ctx : StoreContext;
  stores : Stores;
  feed : list FeedEvent;
  status : bool;
  startedAt : Z
}.

Definition nodeID (n : Node) : NodeID := dNodeID (Descriptor n).
Definition nodeDB (n : Node) : DB := ctxDB (ctx n).
Definition nodeGossip (n : Node) : Gossip := ctxGossip (ctx n).

Definition setClusterID (n : Node) (c : string) : Node :=
  mkNode (stopper n) c (Descriptor n) (ctx n) (stores n) (feed n)
         (status n) (startedAt n).

Definition setNodeID (n : Node) (id : NodeID) : Node :=
  mkNode (stopper n) (ClusterID n)
         (mkNodeDescriptor id (dAddress (Descriptor n))
                           (dAttrs (Descriptor n)))
         (ctx n) (stores n) (feed n) (status n) (startedAt n).

Definition setDB (n : Node) (db : DB) : Node :=
  mkNode (stopper n) (ClusterID n) (Descriptor n)
         (mkStoreContext db (ctxGossip (ctx n)))
         (stores n) (feed n) (status n) (startedAt n).

Definition setGossip (n : Node) (g : Gossip) : Node :=
  mkNode (stopper n) (ClusterID n) (Descriptor n)
         (mkStoreContext (ctxDB (ctx n)) g)
         (stores n) (feed n) (status n) (startedAt n).

Definition setStores (n : Node) (ls : Stores) : Node :=
  mkNode (stopper n) (ClusterID n) (Descriptor n) (ctx n) ls (feed n)
         (status n) (startedAt n).

Definition publish (n : Node) (ev : FeedEvent) : Node :=
  mkNode (stopper n) (ClusterID n) (Descriptor n) (ctx n) (stores n)
         (feed n ++ [ev]) (status n) (startedAt n).

Definition RunAsyncTask (n : Node) (bootstraps : list Store) : Node :=
  mkNode (mkStopper (stopping (stopper n))
                    (asyncTasks (stopper n) ++ [bootstraps])
                    (workers (stopper n)))
         (ClusterID n) (Descriptor n) (ctx n) (stores n) (feed n)
         (status n) (startedAt n).

(** Why the process stops inside a function: log.Fatal and log.Fatalf
    exit the process, panic unwinds it. *)
Inductive Halt :=
| FatalNegativeNodeID
| FatalNodeIDAlreadySet (id o : NodeID)
| FatalError (err : Error)
| FatalIllegalNodeID
| FatalGossipDescriptor (id : NodeID) (err : Error)
| FatalClusterIDUnknown (err : Error)
| FatalWrongCluster (id : NodeID) (own gossiped : string)
| FatalRegister (err : Error)
| PanicClusterIDMissing
| PanicErrorUnexpectedlySet (br : BatchResponse)
| PanicEncodeSpan (err : Error)
| PanicNilDereference.

Definition isFatal (h : Halt) : bool :=
  match h with
  | PanicClusterIDMissing | PanicErrorUnexpectedlySet _
  | PanicEncodeSpan _ | PanicNilDereference => false
  | _ => true
  end.

(** What a method of the node does: it returns with the node in a new
    state, it halts the process, or it blocks for ever. *)
Inductive Outcome (A : Type) :=
| Returns (n : Node) (a : A)
| Halts (n : Node) (h : Halt)
| Blocks (n : Node).
Arguments Returns {A} n a.
Arguments Halts {A} n h.
Arguments Blocks {A} n.

Definition bind {A B : Type} (m : Outcome A) (k : Node -> A -> Outcome B)
  : Outcome B :=
  match m with
  | Returns n a => k n a
  | Halts n h => Halts n h
  | Blocks n => Blocks n
  end.

Notation "'let*' ( n , x ) := m 'in' k" :=
  (bind m (fun n x => k))
  (at level 10, n name, x name, m at level 100, k at level 200).

(** The state of the node when an outcome leaves it. *)
Definition finalNode {A : Type} (o : Outcome A) : Node :=
  match o with
  | Returns n _ => n
  | Halts n _ => n
  | Blocks n => n
  end.

(** ** Identity of the node *)

(** The tail of initNodeID, node.go lines 240-244: store the ID and gossip
    the descriptor. *)
Definition storeNodeID (id : NodeID) (n : Node) : Outcome unit :=
  let n := setNodeID n id in
  match SetNodeDescriptor (nodeGossip n) (Descriptor n) with
  | (_, Some err) => Halts n (FatalGossipDescriptor (nodeID n) err)
  | (g, None) => Returns (setGossip n g) tt
  end.

(** initNodeID, node.go lines 215-245. *)
Definition initNodeID (id : NodeID) (n : Node) : Outcome unit :=
  if id <? 0 then Halts n FatalNegativeNodeID
  else
    let o := nodeID n in
    if 0 <? o then
      if id =? 0 then Returns n tt
      else Halts n (FatalNodeIDAlreadySet id o)
    else if id =? 0 then
      let '(db, (id, err)) := allocateNodeID (nodeDB n) in
      let n := setDB n db in
      match err with
      | Some err => Halts n (FatalError err)
      | None =>
          if id =? 0 then Halts n FatalIllegalNodeID
          else storeNodeID id (setGossip n (SetNodeID (nodeGossip n) id))
      end
    else storeNodeID id n.

(** The visitor that validateStores passes to VisitStores, node.go lines
    392-402. *)
Definition validateStore (s : Store) (n : Node) : Outcome (option Error) :=
  if (ClusterID n =? "")%string then
    let n := setClusterID n (siClusterID (sIdent s)) in
    let* (n, _) := initNodeID (siNodeID (sIdent s)) n in
    Returns n None
  else if negb (ClusterID n =? siClusterID (sIdent s))%string then
    Returns n (Some (ErrClusterIDMismatch s (ClusterID n)))
  else if negb (nodeID n =? siNodeID (sIdent s)) then
    Returns n (Some (ErrNodeIDMismatch s (nodeID n)))
  else Returns n None.

(** Modelled from the spec: Stores.VisitStores calls the visitor on each
    store of the registry once, in [order]; the first error a visitor
    returns ends the visit and is the result. *)
Fixpoint VisitStores (visitor : Store -> Node -> Outcome (option Error))
  (order : list Store) (n : Node) : Outcome (option Error) :=
  match order with
  | [] => Returns n None
  | s :: rest =>
      let* (n, err) := visitor s n in
      match err with
      | Some err => Returns n (Some err)
      | None => VisitStores visitor rest n
      end
  end.


(** validateStores, node.go lines 391-403. *)
Definition validateStores (n : Node) : Outcome (option Error) :=
  VisitStores validateStore
              (iterOrder (stores n) (storeMap (stores n))) n.

(** connectGossip, node.go lines 447-466. *)
Definition connectGossip (n : Node) : Outcome unit :=
  if negb (gConnected (nodeGossip n)) then Blocks n
  else
    match GetInfo (nodeGossip n) with
    | Err err => Halts n (FatalClusterIDUnknown err)
    | Ok bytes =>
        let gossipClusterID := bytes in
        if (ClusterID n =? "")%string then
          Returns (setClusterID n gossipClusterID) tt
        else if negb (ClusterID n =? gossipClusterID)%string then
          Halts n (FatalWrongCluster (nodeID n) (ClusterID n)
                                     gossipClusterID)
        else Returns n tt
    end.

(** ** Bootstrap of the pending stores *)

(** The loop of bootstrapStores, node.go lines 426-440, with [ident] the
    StoreIdent the next store gets; [sIdent.StoreID++] wraps around at
    the width of the ID. *)
Fixpoint bootstrapPending (bootstraps : list Store) (ident : StoreIdent)
  (n : Node) : Outcome unit :=
  match bootstraps with
  | [] => Returns n tt
  | s :: rest =>
      match StoreBootstrap s ident with
      | (_, Some err) => Halts n (FatalError err)
      | (s, None) =>
          match StoreStart s with
          | (_, Some err) => Halts n (FatalError err)
          | (s, None) =>
              let n := setStores n (AddStore (stores n) s) in
              let ident :=
                mkStoreIdent (siClusterID ident) (siNodeID ident)
                             (wrap32 (siStoreID ident + 1)) in
              let n := setGossip n (GossipStore (nodeGossip n) s) in
              bootstrapPending rest ident n
          end
      end
  end.

(** bootstrapStores, node.go lines 409-441. *)
Definition bootstrapStores (bootstraps : list Store) (n : Node)
  : Outcome unit :=
  if (ClusterID n =? "")%string then Halts n PanicClusterIDMissing
  else
    let inc := Z.of_nat (List.length bootstraps) in
    let '(db, (firstID, err)) :=
      allocateStoreIDs (nodeID n) inc (nodeDB n) in
    let n := setDB n db in
    match err with
    | Some err => Halts n (FatalError err)
    | None =>
        bootstrapPending bootstraps
                         (mkStoreIdent (ClusterID n) (nodeID n) firstID) n
    end.

(** ** Initialisation of the stores *)

(** The loop of initStores over the engines, node.go lines 316-337:
    the node with the started stores registered, the bootstraps list, and
    the error that ends initStores, if any. *)
Fixpoint startEngines (engines : list Engine) (bootstraps : list Store)
  (n : Node) : Node * list Store * option Error :=
  match engines with
  | [] => (n, bootstraps, None)
  | e :: rest =>
      let s := NewStore e in
      match StoreStart s with
      | (s, Some NotBootstrappedError) =>
          startEngines rest (bootstraps ++ [s]) n
      | (_, Some err) => (n, bootstraps, Some (ErrFailedToStartStore err))
      | (s, None) =>
          if (siClusterID (sIdent s) =? "")%string
             || (siNodeID (sIdent s) =? 0)
          then (n, bootstraps, Some (ErrUnidentifiedStore s))
          else
            match StoreCapacity s with
            | Err err => (n, bootstraps, Some (ErrStoreCapacity err))
            | Ok _ =>
                startEngines rest bootstraps
                             (setStores n (AddStore (stores n) s))
            end
      end
  end.

(** The check of node.go lines 341-354 on a node without initialized
    stores. *)
Definition bootstrapCheck (n : Node) : option Error :=
  if (GetStoreCount (stores n) =? 0)%nat then
    let resolvers := GetResolvers (nodeGossip n) in
    match resolvers with
    | [] => Some errNeedsBootstrap
    | [r] =>
        match GetAddress r with
        | Ok (AddrUnresolved uaddr) =>
            if UnresolvedAddr_eqb uaddr (dAddress (Descriptor n))
            then Some errCannotJoinSelf
            else None
        | _ => None
        end
    | _ => None
    end
  else None.

(** What initStores does after that check, node.go lines 356-385. *)
Definition joinCluster (bootstraps : list Store) (n : Node)
  : Outcome (option Error) :=
  let* (n, err) := validateStores n in
  match err with
  | Some err => Returns n (Some err)
  | None =>
      match SetStorage (nodeGossip n) with
      | (_, Some err) => Returns n (Some (ErrGossipInterface err))
      | (g, None) =>
          let n := setGossip n g in
          let* (n, _) := connectGossip n in
          let* (n, _) :=
            (if nodeID n =? 0 then initNodeID 0 n else Returns n tt) in
          let n :=
            if (0 <? List.length bootstraps)%nat
            then RunAsyncTask n bootstraps
            else n in
          Returns n None
      end
  end.

(** initStores, node.go lines 310-386. *)
Definition initStores (engines : list Engine) (n : Node)
  : Outcome (option Error) :=
  let bootstraps := [] in
  if (List.length engines =? 0)%nat then Returns n (Some ErrNoEngines)
  else
    match startEngines engines bootstraps n with
    | (n, _, Some err) => Returns n (Some err)
    | (n, bootstraps, None) =>
        match bootstrapCheck n with
        | Some err => Returns n (Some err)
        | None => joinCluster bootstraps n
        end
    end.

(** ** The command dispatcher *)

(** The recorder of the request's tracer, node.go lines 532-538, on the
    response [br] points to. *)
Definition tracingCB (rawSpan : RawSpan) (br : option BatchResponse)
  : option BatchResponse + Halt :=
  match rawEncoded rawSpan with
  | Err err => inr (PanicEncodeSpan err)
  | Ok encSp =>
      match br with
      | None => inr PanicNilDereference
      | Some b =>
          inl (Some (mkBatchResponse (brError b)
                                     (brCollectedSpans b ++ [encSp])
                                     (brResponses b)))
      end
  end.

(** [sp.Finish()]: the tracer hands the span's raw spans to the
    recorder. *)
Fixpoint recordSpans (recorded : list RawSpan) (br : option BatchResponse)
  : option BatchResponse + Halt :=
  match recorded with
  | [] => inl br
  | rawSpan :: rest =>
      match tracingCB rawSpan br with
      | inl br => recordSpans rest br
      | inr h => inr h
      end
  end.

Definition Finish (sp : Span) (br : option BatchResponse)
  : option BatchResponse + Halt :=
  match sp with
  | NoopSpan => inl br
  | JoinedSpan recorded => recordSpans recorded br
  end.

(** node.go lines 530-550: the span of the request. *)
Definition joinSpan (ba : BatchRequest) : result Span :=
  match baTrace ba with
  | None => Ok NoopSpan
  | Some t =>
      match trJoin t with
      | Err err => Err (ErrUnmarshalTrace err)
      | Ok recorded => Ok (JoinedSpan recorded)
      end
  end.

(** The closure [f] of executeCmd, node.go lines 552-568: the node after
    it, the value it leaves in [br], and the panic that ends it, if any.
    (The events logged on the span stay inside the tracer.) *)
Definition dispatch (ba : BatchRequest) (n : Node)
  : Node * option BatchResponse * option Halt :=
  let '(ls, sr) := Send (stores n) ba in
  let n := setStores n ls in
  let pErr := srError sr in
  let br :=
    match pErr with
    | Some _ => Some emptyResponse
    | None => srResponse sr
    end in
  match br with
  | None => (n, br, Some PanicNilDereference)
  | Some b =>
      match brError b with
      | Some _ => (n, br, Some (PanicErrorUnexpectedlySet b))
      | None =>
          let n := publish n (CallComplete ba (srElapsed sr) pErr) in
          (n, Some (mkBatchResponse pErr (brCollectedSpans b)
                                    (brResponses b)), None)
      end
  end.

(** stopper.RunTask(f): [f] runs unless the stopper is stopping. *)
Definition RunTask (f : Node -> Node * option BatchResponse * option Halt)
  (n : Node) : bool * (Node * option BatchResponse * option Halt) :=
  if stopping (stopper n) then (false, (n, None, None))
  else (true, f n).

(** executeCmd, node.go lines 526-574.  The deferred [sp.Finish()] runs
    when the function returns and when it panics. *)
Definition executeCmd (ba : BatchRequest) (n : Node)
  : Outcome (option BatchResponse * option Error) :=
  match joinSpan ba with
  | Err err => Returns n (None, Some err)
  | Ok sp =>
      let '(admitted, (n', br, panicked)) := RunTask (dispatch ba) n in
      match panicked with
      | Some h =>
          match Finish sp br with
          | inl _ => Halts n' h
          | inr h' => Halts n' h'
          end
      | None =>
          match Finish sp br with
          | inr h => Halts n' h
          | inl br =>
              if negb admitted then
                Returns n' (None, Some (ErrNodeStopped (nodeID n)))
              else Returns n' (br, None)
          end
      end
  end.

(** ** Creation of the node *)

(** NewNode, node.go lines 187-194.  [order] and [route] script the
    registry that storage.NewStores creates. *)
Definition NewNode (c : StoreContext) (st : Stopper)
  (order : list Store -> list Store) (route : BatchRequest -> SendResult)
  : Node :=
  mkNode st "" (mkNodeDescriptor 0 (mkUnresolvedAddr "" "") []) c
         (mkStores [] order route []) [] false 0.

(** initDescriptor, node.go lines 203-206, on the network and the string
    of [addr]. *)
Definition initDescriptor (network addr : string) (attrs : list string)
  (n : Node) : Node :=
  mkNode (stopper n) (ClusterID n)
         (mkNodeDescriptor (dNodeID (Descriptor n))
                           (mkUnresolvedAddr network addr) attrs)
         (ctx n) (stores n) (feed n) (status n) (startedAt n).

(** ** Start of the node *)

(** What the world around start answers: the network and string of
    [addr], the UUID, initial values and key/value client of
    bootstrapCluster, the resolver that resolver.NewResolverFromAddress
    makes of [addr], the wall time of the clock and whether the RPC
    server refuses the registration. *)
Record StartEnv := mkStartEnv {
  envNetwork : string;
  envAddress : string;
  envUUID : string;
  envInitialValues : list KeyValue;
  envBootstrapDB : DB;
  envSelfResolver : result Resolver;
  envNow : Z;
  envRegisterFails : bool
}.

Definition StartMonitorFeed (n : Node) : Node :=
  mkNode (stopper n) (ClusterID n) (Descriptor n) (ctx n) (stores n)
         (feed n) true (startedAt n).

Definition RunWorker (n : Node) (w : Worker) : Node :=
  mkNode (mkStopper (stopping (stopper n)) (asyncTasks (stopper n))
                    (workers (stopper n) ++ [w]))
         (ClusterID n) (Descriptor n) (ctx n) (stores n) (feed n)
         (status n) (startedAt n).

(** start once the stores are initialised, node.go lines 282-301. *)
Definition serve (env : StartEnv) (n : Node) : Outcome (option Error) :=
  let n :=
    mkNode (stopper n) (ClusterID n) (Descriptor n) (ctx n) (stores n)
           (feed n) (status n) (envNow env) in
  let n := publish n (StartNode (Descriptor n) (startedAt n)) in
  let n := RunWorker n PublishStatusesLoop in
  let n := RunWorker n GossipLoop in
  if envRegisterFails env then
    Halts n (FatalRegister (ErrCollaborator "registration refused"))
  else Returns n None.

(** start, node.go lines 250-302.  Next to the error the function gives
    the engines as the call leaves them. *)
Definition start (env : StartEnv) (engines : list Engine)
  (attrs : list string) (n : Node)
  : Outcome (list Engine * option Error) :=
  let n := initDescriptor (envNetwork env) (envAddress env) attrs n in
  let n := StartMonitorFeed n in
  let* (n, err) := initStores engines n in
  match err with
  | Some errNeedsBootstrap =>
      match bootstrapCluster (envUUID env) (envInitialValues env)
                             (envBootstrapDB env) engines with
      | (engines, (_, Some err)) => Returns n (engines, Some err)
      | (engines, (_, None)) =>
          match envSelfResolver env with
          | Err err => Returns n (engines, Some err)
          | Ok selfResolver =>
              let n :=
                setGossip n (SetResolvers (nodeGossip n) [selfResolver]) in
              let* (n, err) := initStores engines n in
              match err with
              | Some err => Returns n (engines, Some err)
              | None =>
                  let* (n, err) := serve env n in
                  Returns n (engines, err)
              end
          end
      end
  | Some err => Returns n (engines, Some err)
  | None =>
      let* (n, err) := serve env n in
      Returns n (engines, err)
  end.

(** ** Background gossip *)

(** How a piece of a background worker ends: it is done, it waits in its
    select for an event that does not come, it panics with an error, or
    a function it calls halts the process or blocks. *)
Inductive Work :=
| Done (n : Node)
| Waits (n : Node)
| Panics (n : Node) (err : Error)
| HaltsIn (n : Node) (h : Halt)
| BlocksIn (n : Node).

(** The visitor of gossipStores, node.go lines 488-491. *)
Definition gossipStore (s : Store) (n : Node) : Outcome (option Error) :=
  Returns (setGossip n (GossipStore (nodeGossip n) s)) None.

(** gossipStores, node.go lines 487-494. *)
Definition gossipStores (n : Node) : Work :=
  match VisitStores gossipStore
                    (iterOrder (stores n) (storeMap (stores n))) n with
  | Returns n None => Done n
  | Returns n (Some err) => Panics n err
  | Halts n h => HaltsIn n h
  | Blocks n => BlocksIn n
  end.

(** What the select of a worker receives: a tick of its ticker or the
    signal of the stopper. *)
Inductive LoopEvent := TickerC | ShouldStop.

(** The loop of the worker of startGossip, node.go lines 475-482, on the
    events its select receives. *)
Fixpoint gossipLoop (events : list LoopEvent) (n : Node) : Work :=
  match events with
  | [] => Waits n
  | TickerC :: rest =>
      match gossipStores n with
      | Done n => gossipLoop rest n
      | w => w
      end
  | ShouldStop :: _ => Done n
  end.

(** The function that startGossip hands to RunWorker, node.go lines
    471-483. *)
Definition gossipWorker (events : list LoopEvent) (n : Node) : Work :=
  match gossipStores n with
  | Done n => gossipLoop events n
  | w => w
  end.

(** ** The functions of the node, one after the other *)

(** The node when a piece of a background worker ends. *)
Definition workNode (w : Work) : Node :=
  match w with
  | Done n => n
  | Waits n => n
  | Panics n _ => n
  | HaltsIn n _ => n
  | BlocksIn n => n
  end.

(** A call of one of the functions of node.go that work on the node. *)
Inductive NodeCall :=
| DoInitNodeID (id : NodeID)
| DoValidateStores
| DoConnectGossip
| DoInitStores (engines : list Engine)
| DoBootstrapStores (bootstraps : list Store)
| DoExecuteCmd (ba : BatchRequest)
| DoGossipStores
| DoStart (env : StartEnv) (engines : list Engine) (attrs : list string).

(** The node as a call leaves it, however the call ends. *)
Definition afterCall (c : NodeCall) (n : Node) : Node :=
  match c with
  | DoInitNodeID id => finalNode (initNodeID id n)
  | DoValidateStores => finalNode (validateStores n)
  | DoConnectGossip => finalNode (connectGossip n)
  | DoInitStores engines => finalNode (initStores engines n)
  | DoBootstrapStores bootstraps => finalNode (bootstrapStores bootstraps n)
  | DoExecuteCmd ba => finalNode (executeCmd ba n)
  | DoGossipStores => workNode (gossipStores n)
  | DoStart env engines attrs => finalNode (start env engines attrs n)
  end.

(** The node after the calls of a list, made one after the other. *)
Definition afterCalls (calls : list NodeCall) (n : Node) : Node :=
  fold_left (fun n c => afterCall c n) calls n.

(** ** Predicates of the statements *)

(** An engine that was never formatted and whose operations work. *)
Definition blankEngine (e : Engine) : Prop :=
  engIdent e = None /\ engData e = []
  /\ failStart e = false /\ failBootstrap e = false
  /\ failBootstrapRange e = false.

(** A store of the bootstraps list: Start found no StoreIdent in its
    engine, and the engine accepts Bootstrap. *)
Definition pendingStore (s : Store) : Prop :=
  engIdent (sEngine s) = None
  /\ failStart (sEngine s) = false
  /\ failBootstrap (sEngine s) = false.

(** A store carries the cluster ID and the node ID of [s0]. *)
Definition agrees (s0 s : Store) : Prop :=
  siClusterID (sIdent s) = siClusterID (sIdent s0)
  /\ siNodeID (sIdent s) = siNodeID (sIdent s0).

(** The errors of a store that does not match the node. *)
Definition validationError (err : Error) : Prop :=
  match err with
  | ErrClusterIDMismatch _ _ | ErrNodeIDMismatch _ _ => True
  | _ => False
  end.

(** A store whose StoreIdent is complete, as initStores registers it. *)
Definition identifiedStore (s : Store) : Prop :=
  siClusterID (sIdent s) <> "" /\ siNodeID (sIdent s) <> 0.

(** A store carries the cluster ID and the node ID of the node. *)
Definition matchesNode (n : Node) (s : Store) : Prop :=
  siClusterID (sIdent s) = ClusterID n /\ siNodeID (sIdent s) = nodeID n.

(** An engine that carries a StoreIdent, and the store that Start makes
    of an engine. *)
Definition formattedEngine (e : Engine) : bool :=
  match engIdent e with
  | Some _ => true
  | None => false
  end.

Definition startedStore (e : Engine) : Store :=
  fst (StoreStart (NewStore e)).

(** Two states of gossip that differ at most in the node ID and the
    descriptor of the node. *)
Definition gossipKept (g g' : Gossip) : Prop :=
  gResolvers g' = gResolvers g
  /\ gConnected g' = gConnected g
  /\ gClusterID g' = gClusterID g
  /\ gHasStorage g' = gHasStorage g
  /\ gStores g' = gStores g
  /\ failSetStorage g' = failSetStorage g
  /\ failSetNodeDescriptor g' = failSetNodeDescriptor g.

(** An engine of the node [nid] of the cluster [c] whose store starts
    and reports its capacity. *)
Definition memberEngine (c : string) (nid : NodeID) (e : Engine) : Prop :=
  (exists id,
      engIdent e = Some id /\ siClusterID id = c /\ siNodeID id = nid)
  /\ failStart e = false
  /\ failCapacity e = false.

(** The encodings of the raw spans that can be encoded. *)
Definition encodedSpans (recorded : list RawSpan) : list string :=
  flat_map (fun r => match rawEncoded r with
                     | Ok enc => [enc]
                     | Err _ => []
                     end) recorded.

(** A raw span has an encoding. *)
Definition encodes (r : RawSpan) : Prop :=
  exists enc, rawEncoded r = Ok enc.

(** An engine without StoreIdent whose store reports that on Start. *)
Definition unformattedEngine (e : Engine) : Prop :=
  engIdent e = None /\ failStart e = false.

(** ** Sample data *)

Module Sample.

(** An engine that was never formatted. *)
Definition blank (name : string) : Engine :=
  mkEngine name None [] 100 false false false false.

(** An engine formatted with [ident]. *)
Definition formatted (name : string) (ident : StoreIdent) : Engine :=
  mkEngine name (Some ident) [] 100 false false false false.

Definition initialValues : list KeyValue :=
  [("/system/desc", "1"); ("/system/ns", "2")].

Definition self : UnresolvedAddr := mkUnresolvedAddr "tcp" "10.0.0.1:26257".
Definition peer : UnresolvedAddr := mkUnresolvedAddr "tcp" "10.0.0.2:26257".

(** A gossip network that is connected and carries cluster "c9". *)
Definition gossipOf (resolvers : list Resolver) : Gossip :=
  mkGossip resolvers true (Ok "c9") 0 None false [] false false.

(** A routing layer that answers every batch with an empty response. *)
Definition route (ba : BatchRequest) : SendResult :=
  mkSendResult (Some (mkBatchResponse None [] (baRequests ba))) None 7.

(** A routing layer that reports an error next to a response that
    carries another error. *)
Definition routeBoth (ba : BatchRequest) : SendResult :=
  mkSendResult (Some (mkBatchResponse (Some "inner") [] ["partial"]))
               (Some "outer") 7.

(** A routing layer that reports no error but embeds one. *)
Definition routeEmbedded (ba : BatchRequest) : SendResult :=
  mkSendResult (Some (mkBatchResponse (Some "inner") [] ["partial"]))
               None 7.

(** A node as NewNode and initDescriptor leave it. *)
Definition node (resolvers : list Resolver) (db : DB)
  (route : BatchRequest -> SendResult) : Node :=
  initDescriptor "tcp" "10.0.0.1:26257" []
    (NewNode (mkStoreContext db (gossipOf resolvers)) (mkStopper false [] [])
             (@rev Store) route).

(** The same node after its stopper was told to stop. *)
Definition stopped (n : Node) : Node :=
  mkNode (mkStopper true (asyncTasks (stopper n)) (workers (stopper n)))
         (ClusterID n)
         (Descriptor n) (ctx n) (stores n) (feed n) (status n) (startedAt n).

(** Requests: without trace context, with a trace context that cannot
    be joined, and with one whose span records one raw span. *)
Definition plain : BatchRequest := mkBatchRequest None ["get k"].

Definition badTrace : BatchRequest :=
  mkBatchRequest
    (Some (mkTrace "ctx" "attrs" (Err (ErrCollaborator "bad context"))))
    ["get k"].

Definition traced : BatchRequest :=
  mkBatchRequest
    (Some (mkTrace "ctx" "attrs" (Ok [mkRawSpan "node" (Ok "span1")])))
    ["get k"].

(** Three stores as initStores puts them on the bootstraps list. *)
Definition pendingABC : list Store :=
  [NewStore (blank "A"); NewStore (blank "B"); NewStore (blank "C")].

(** A node of cluster "c9" with NodeID 5, the store ID counter at 9. *)
Definition node5 : Node :=
  setNodeID (setClusterID (node [] (mkDB 5 9 [] []) route) "c9") 5.

(** A started store with the given StoreIdent. *)
Definition started (name : string) (ident : StoreIdent) : Store :=
  fst (StoreStart (NewStore (formatted name ident))).

(** A node whose registry holds two stores of cluster "c9" and one of
    cluster "c7"; VisitStores ranges over them in reverse. *)
Definition mixed : Node :=
  setStores (node [] (mkDB 5 9 [] []) route)
            (mkStores [started "A" (mkStoreIdent "c9" 5 7);
                       started "B" (mkStoreIdent "c9" 5 8);
                       started "C" (mkStoreIdent "c7" 5 9)]
                      (@rev Store) route []).

End Sample.

(** * Properties *)

(** ** int64 arithmetic *)

Lemma wrap64_in_int64 (x : Z) : in_int64 x -> wrap64 x = x.
Proof.
  unfold in_int64, min_int64, max_int64, wrap64. intros H.
  rewrite Z.mod_small by lia. lia.
Qed.

Lemma in_int64_wrap64 (x : Z) : in_int64 (wrap64 x).
Proof.
  unfold in_int64, min_int64, max_int64, wrap64.
  pose proof (Z.mod_pos_bound (x + 2 ^ 63) (2 ^ 64) ltac:(lia)). lia.
Qed.

Lemma wrap64_add_l (x y : Z) : wrap64 (wrap64 x + y) = wrap64 (x + y).
Proof.
  unfold wrap64.
  replace ((x + 2 ^ 63) mod 2 ^ 64 - 2 ^ 63 + y + 2 ^ 63)
    with ((x + 2 ^ 63) mod 2 ^ 64 + y) by lia.
  rewrite Z.add_mod_idemp_l by lia.
  replace (x + 2 ^ 63 + y) with (x + y + 2 ^ 63) by lia. reflexivity.
Qed.

(** ** int32 arithmetic *)

Lemma wrap32_in_int32 (x : Z) : in_int32 x -> wrap32 x = x.
Proof.
  unfold in_int32, min_int32, max_int32, wrap32. intros H.
  rewrite Z.mod_small by lia. lia.
Qed.

Lemma in_int32_wrap32 (x : Z) : in_int32 (wrap32 x).
Proof.
  unfold in_int32, min_int32, max_int32, wrap32.
  pose proof (Z.mod_pos_bound (x + 2 ^ 31) (2 ^ 32) ltac:(lia)). lia.
Qed.

Lemma wrap32_add_l (x y : Z) : wrap32 (wrap32 x + y) = wrap32 (x + y).
Proof.
  unfold wrap32.
  replace ((x + 2 ^ 31) mod 2 ^ 32 - 2 ^ 31 + y + 2 ^ 31)
    with ((x + 2 ^ 31) mod 2 ^ 32 + y) by lia.
  rewrite Z.add_mod_idemp_l by lia.
  replace (x + 2 ^ 31 + y) with (x + y + 2 ^ 31) by lia. reflexivity.
Qed.

(** Narrowing an int64 keeps the low 32 bits: the wrap-around of the
    int64 arithmetic before it does not show. *)
Lemma wrap32_wrap64 (x : Z) : wrap32 (wrap64 x) = wrap32 x.
Proof.
  unfold wrap32, wrap64.
  rewrite (Z.mod_eq (x + 2 ^ 63) (2 ^ 64)) by lia.
  replace (x + 2 ^ 63 - 2 ^ 64 * ((x + 2 ^ 63) / 2 ^ 64) - 2 ^ 63 + 2 ^ 31)
    with (x + 2 ^ 31 + (- 2 ^ 32 * ((x + 2 ^ 63) / 2 ^ 64)) * 2 ^ 32)
    by lia.
  rewrite Z_mod_plus_full. reflexivity.
Qed.

Lemma wrap32_wrap64_add (x y : Z) : wrap32 (wrap64 x + y) = wrap32 (x + y).
Proof.
  rewrite <- (wrap32_wrap64 (wrap64 x + y)), wrap64_add_l.
  apply wrap32_wrap64.
Qed.

Lemma wrap32_succ_neq (x : Z) : wrap32 (x + 1) <> wrap32 x.
Proof.
  unfold wrap32. intros H.
  assert (E : (x + 1 + 2 ^ 31) mod 2 ^ 32 = (x + 2 ^ 31) mod 2 ^ 32)
    by lia.
  rewrite (Z.mod_eq (x + 1 + 2 ^ 31)), (Z.mod_eq (x + 2 ^ 31)) in E by lia.
  lia.
Qed.

(** ** The ID allocators *)

(** What a successful allocateStoreIDs computes from the counter. *)
Lemma allocateStoreIDs_ok (nid inc : Z) (db db' : DB) (first : StoreID) :
  allocateStoreIDs nid inc db = (db', (first, None)) ->
  storeIDCounter db' = wrap64 (storeIDCounter db + inc)
  /\ nodeIDCounter db' = nodeIDCounter db
  /\ dbCalls db' = dbCalls db ++ [(StoreIDGenerator, inc)]
  /\ dbOutages db' = tl (dbOutages db)
  /\ first = wrap32 (storeIDCounter db' - inc + 1).
Proof.
  unfold allocateStoreIDs, Inc, toStoreID.
  destruct (dbOutages db) as [|[|] outages] eqn:E; simpl; intros H;
    inversion H; subst; clear H; simpl;
    repeat split; try reflexivity;
    rewrite wrap32_wrap64; apply wrap32_wrap64_add.
Qed.

(** Every call of allocateStoreIDs is one increment of the store ID
    counter by [inc], whether it succeeds or not. *)
Lemma allocateStoreIDs_calls (nid inc : Z) (db : DB) :
  dbCalls (fst (allocateStoreIDs nid inc db))
  = dbCalls db ++ [(StoreIDGenerator, inc)].
Proof.
  unfold allocateStoreIDs, Inc.
  destruct (dbOutages db) as [|[|] outages]; reflexivity.
Qed.

(** C5: allocateStoreIDs returns [result - inc + 1], computed in int64
    and narrowed to the 32-bit StoreID, where [result] is the counter
    after the increment: that is [result - inc + 1] itself whenever this
    number is within the range of the StoreID.  Of two successful calls
    in a row with counts [k] and [m], the second returns [first + k] in
    the wrap-around arithmetic of the StoreID, and as long as [first + k]
    is within the range of the StoreID the second is exactly [first + k]
    and no ID lies in both [first, first + k) and [second, second + m). *)
Theorem allocateStoreIDs_contiguous
  (n1 n2 k m : Z) (db db1 db2 : DB) (first second : StoreID) :
  allocateStoreIDs n1 k db = (db1, (first, None)) ->
  allocateStoreIDs n2 m db1 = (db2, (second, None)) ->
  first = toStoreID (wrap64 (wrap64 (storeIDCounter db1 - k) + 1))
  /\ second = toStoreID (wrap64 (wrap64 (storeIDCounter db2 - m) + 1))
  /\ (in_int32 (storeIDCounter db1 - k + 1) ->
      first = storeIDCounter db1 - k + 1)
  /\ second = wrap32 (first + k)
  /\ (in_int32 (first + k) ->
      second = first + k
      /\ forall x, first <= x < first + k -> ~ (second <= x < second + m)).
Proof.
  intros H1 H2.
  apply allocateStoreIDs_ok in H1. destruct H1 as (C1 & _ & _ & _ & F1).
  apply allocateStoreIDs_ok in H2. destruct H2 as (C2 & _ & _ & _ & F2).
  assert (S : second = wrap32 (first + k)).
  { rewrite F2, C2, F1, wrap32_add_l.
    replace (wrap64 (storeIDCounter db1 + m) - m + 1)
      with (wrap64 (storeIDCounter db1 + m) + (- m + 1)) by lia.
    rewrite wrap32_wrap64_add. f_equal. lia. }
  unfold toStoreID. rewrite !wrap32_wrap64, !wrap32_wrap64_add.
  repeat split; try assumption.
  - intros R. rewrite F1. apply wrap32_in_int32. exact R.
  - rewrite S. apply wrap32_in_int32. assumption.
  - intros x Hx Hy. rewrite S, (wrap32_in_int32 _ H) in Hy. lia.
Qed.

(** C5 on a counter at 9: counts 3 and 2 reserve 10..12 and 13..14. *)
Lemma allocateStoreIDs_contiguous_witness :
  let db := mkDB 1 9 [] [] in
  let db1 := fst (allocateStoreIDs 5 3 db) in
  let db2 := fst (allocateStoreIDs 5 2 db1) in
  (10 = toStoreID (wrap64 (wrap64 (storeIDCounter db1 - 3) + 1))
   /\ 13 = toStoreID (wrap64 (wrap64 (storeIDCounter db2 - 2) + 1))
   /\ (in_int32 (storeIDCounter db1 - 3 + 1) ->
       10 = storeIDCounter db1 - 3 + 1)
   /\ 13 = wrap32 (10 + 3)
   /\ (in_int32 (10 + 3) ->
       13 = 10 + 3
       /\ forall x, 10 <= x < 10 + 3 -> ~ (13 <= x < 13 + 2))).
Proof.
  intros db db1 db2.
  apply (allocateStoreIDs_contiguous 5 5 3 2 db db1 db2 10 13);
    reflexivity.
Defined.

(** C5 as stated fails: with the store ID counter at 2147483646, a
    first call with count 1 returns 2147483647, the largest
    StoreID, and the next call with count 1 returns -2147483648 and not
    2147483647 + 1, although both calls succeed and the int64 counter
    goes on to 2147483648. *)
Lemma allocateStoreIDs_second_wraps :
  let db := mkDB 1 2147483646 [] [] in
  let db1 := mkDB 1 2147483647 [] [(StoreIDGenerator, 1)] in
  let db2 :=
    mkDB 1 2147483648 [] [(StoreIDGenerator, 1); (StoreIDGenerator, 1)] in
  allocateStoreIDs 5 1 db = (db1, (2147483647, None))
  /\ allocateStoreIDs 5 1 db1 = (db2, (-2147483648, None))
  /\ -2147483648 <> 2147483647 + 1.
Proof. repeat split. discriminate. Qed.

(** ** Bootstrap of a new cluster *)

Ltac break_hyp H :=
  repeat match type of H with
         | context [match ?x with _ => _ end] => destruct x eqn:?
         | context [if ?b then _ else _] => destruct b eqn:?
         end.

(** An iteration of the loop that ends without error found the engine
    without StoreIdent and leaves it with the StoreIdent of its index;
    only the engine at index 0 gets the initial values. *)
Lemma bootstrapEngine_ok (cid : string) (iv : list KeyValue) (i : nat)
  (eng eng' : Engine) (c c' : BootstrapCtx) :
  bootstrapEngine cid iv i eng c = (eng', c', None) ->
  engIdent eng = None
  /\ engIdent eng'
     = Some (mkStoreIdent cid 1 (toStoreID (Z.of_nat i + 1)))
  /\ engData eng' = engData eng ++ (if (i =? 0)%nat then iv else [])
  /\ engName eng' = engName eng.
Proof.
  unfold bootstrapEngine, NewStore, StoreBootstrap, StoreBootstrapRange,
    StoreStart, setEngine.
  destruct eng as [name ident data cap fs fb fr fc]; simpl.
  destruct ident as [id|]; simpl.
  - destruct (0 <? String.length (siClusterID id))%nat; [discriminate|].
    destruct fb; discriminate.
  - destruct fb; simpl; [discriminate|].
    destruct (i =? 0)%nat eqn:Ei; simpl.
    + destruct fr; simpl; [discriminate|].
      destruct fs; simpl; [discriminate|].
      intros H; break_hyp H; inversion H; subst; simpl; auto.
    + destruct fs; simpl; [discriminate|].
      intros H; break_hyp H; inversion H; subst; simpl.
      rewrite app_nil_r; auto.
Qed.

Lemma bootstrapEngines_length (cid : string) (iv : list KeyValue)
  (engines : list Engine) :
  forall i c engines' c' err,
    bootstrapEngines cid iv i engines c = (engines', c', err) ->
    List.length engines' = List.length engines.
Proof.
  induction engines as [|eng rest IH]; simpl; intros i c engines' c' err H.
  - inversion H; reflexivity.
  - destruct (bootstrapEngine cid iv i eng c) as [[eng1 c1] [e1|]].
    + inversion H; reflexivity.
    + destruct (bootstrapEngines cid iv (S i) rest c1)
        as [[rest' c2] err'] eqn:E.
      inversion H; subst. simpl. f_equal. eapply IH; eauto.
Qed.

Lemma bootstrapEngines_ok (cid : string) (iv : list KeyValue)
  (engines : list Engine) :
  forall i c engines' c',
    bootstrapEngines cid iv i engines c = (engines', c', None) ->
    forall j e,
      nth_error engines j = Some e ->
      exists e',
        nth_error engines' j = Some e'
        /\ engIdent e = None
        /\ engIdent e'
           = Some (mkStoreIdent cid 1 (toStoreID (Z.of_nat (i + j) + 1)))
        /\ engData e' = engData e ++ (if (i + j =? 0)%nat then iv else [])
        /\ engName e' = engName e.
Proof.
  induction engines as [|eng rest IH]; simpl; intros i c engines' c' H j e Hj.
  - destruct j; discriminate.
  - destruct (bootstrapEngine cid iv i eng c) as [[eng1 c1] [e1|]] eqn:E1;
      [discriminate|].
    destruct (bootstrapEngines cid iv (S i) rest c1)
      as [[rest' c2] err'] eqn:E2.
    inversion H; subst; clear H.
    destruct j as [|j]; simpl in *.
    + inversion Hj; subst; clear Hj.
      exists eng1. rewrite Nat.add_0_r.
      apply bootstrapEngine_ok in E1. tauto.
    + destruct (IH _ _ _ _ E2 j e Hj) as (e' & N & P).
      exists e'. split; [exact N|].
      replace (i + S j)%nat with (S i + j)%nat by lia. exact P.
Qed.

Lemma bootstrapEngine_blank (cid : string) (iv : list KeyValue) (i : nat)
  (eng : Engine) (c : BootstrapCtx) :
  blankEngine eng ->
  dbOutages (bcDB c) = [] ->
  storeIDCounter (bcDB c) = Z.of_nat i ->
  (i = 0%nat -> nodeIDCounter (bcDB c) = 0) ->
  Z.of_nat i + 1 <= max_int64 ->
  exists eng' c',
    bootstrapEngine cid iv i eng c = (eng', c', None)
    /\ dbOutages (bcDB c') = []
    /\ storeIDCounter (bcDB c') = Z.of_nat (S i).
Proof.
  intros (HI & _ & HS & HB & HR) HO HC HN HM.
  assert (W : wrap64 (wrap64 (wrap64 (Z.of_nat i + 1) - 1) + 1)
              = Z.of_nat i + 1).
  { assert (R : in_int64 (Z.of_nat i + 1))
      by (unfold in_int64, min_int64, max_int64 in *; lia).
    rewrite (wrap64_in_int64 _ R).
    replace (Z.of_nat i + 1 - 1) with (Z.of_nat i) by lia.
    rewrite (wrap64_in_int64 (Z.of_nat i))
      by (unfold in_int64, min_int64, max_int64 in *; lia).
    apply wrap64_in_int64; exact R. }
  unfold bootstrapEngine, NewStore, StoreBootstrap, StoreBootstrapRange,
    StoreStart, setEngine, allocateNodeID, allocateStoreIDs, Inc,
    toStoreID, toNodeID.
  destruct eng as [name ident data cap fs fb fr fc]; simpl in *.
  subst ident fs fb fr. destruct c as [[nc sc outs calls] sts]; simpl in *.
  subst outs sc. simpl.
  destruct (i =? 0)%nat eqn:Ei; simpl.
  - apply Nat.eqb_eq in Ei. subst i. rewrite (HN eq_refl). simpl.
    do 2 eexists. split; [reflexivity|]. simpl. split; reflexivity.
  - rewrite W. rewrite Z.eqb_refl. simpl.
    do 2 eexists. split; [reflexivity|]. simpl. split; [reflexivity|].
    assert (R : in_int64 (Z.of_nat i + 1))
      by (unfold in_int64, min_int64, max_int64 in *; lia).
    rewrite (wrap64_in_int64 _ R). lia.
Qed.

Lemma bootstrapEngines_blank (cid : string) (iv : list KeyValue)
  (engines : list Engine) :
  forall i c,
    Forall blankEngine engines ->
    dbOutages (bcDB c) = [] ->
    storeIDCounter (bcDB c) = Z.of_nat i ->
    (i = 0%nat -> nodeIDCounter (bcDB c) = 0) ->
    Z.of_nat (i + List.length engines) <= max_int64 ->
    exists engines' c',
      bootstrapEngines cid iv i engines c = (engines', c', None).
Proof.
  induction engines as [|eng rest IH]; simpl; intros i c HF HO HC HN HM.
  - do 2 eexists; reflexivity.
  - inversion HF as [|? ? HB HF']; subst.
    destruct (bootstrapEngine_blank cid iv i eng c HB HO HC HN)
      as (eng' & c1 & E & HO1 & HC1); [lia|].
    rewrite E.
    destruct (IH (S i) c1 HF' HO1 HC1) as (rest' & c2 & E2);
      [discriminate | lia |].
    rewrite E2. do 2 eexists; reflexivity.
Qed.

(** On blank engines and a key/value store whose counters are at 0,
    bootstrapCluster succeeds. *)
Lemma bootstrapCluster_succeeds (uuid : string) (iv : list KeyValue)
  (calls : list (Key * Z)) (engines : list Engine) :
  Forall blankEngine engines ->
  Z.of_nat (List.length engines) <= max_int64 ->
  snd (bootstrapCluster uuid iv (mkDB 0 0 [] calls) engines)
  = (uuid, None).
Proof.
  intros HF HM. unfold bootstrapCluster.
  destruct (bootstrapEngines_blank uuid iv engines 0
              (mkBootstrapCtx (mkDB 0 0 [] calls) []) HF)
    as (es & c & E); simpl; auto.
  rewrite E. reflexivity.
Qed.

(** C1: on blank engines and a key/value store whose counters are at 0
    bootstrapCluster succeeds; and whenever bootstrapCluster succeeds on
    a list of engines, the cluster ID it returns is the generated UUID,
    every engine persists a StoreIdent with that cluster ID, NodeID 1 and
    StoreID index + 1, in the order of the list, and the initial
    key/values are written into the first engine only.  The StoreID is
    index + 1 converted to roachpb.StoreID: the number itself at every
    index below the largest StoreID. *)
Theorem bootstrapCluster_idents
  (uuid : string) (iv : list KeyValue) (db : DB) (engines : list Engine) :
  (Forall blankEngine engines ->
   nodeIDCounter db = 0 -> storeIDCounter db = 0 -> dbOutages db = [] ->
   Z.of_nat (List.length engines) <= max_int64 ->
   snd (bootstrapCluster uuid iv db engines) = (uuid, None))
  /\ forall engines' cid,
      bootstrapCluster uuid iv db engines = (engines', (cid, None)) ->
      cid = uuid
      /\ List.length engines' = List.length engines
      /\ forall i e,
          nth_error engines i = Some e ->
          exists e',
            nth_error engines' i = Some e'
            /\ engIdent e'
               = Some (mkStoreIdent cid 1 (toStoreID (Z.of_nat i + 1)))
            /\ (Z.of_nat i < max_int32 ->
                engIdent e' = Some (mkStoreIdent cid 1 (Z.of_nat i + 1)))
            /\ engData e' = engData e ++ (if (i =? 0)%nat then iv else [])
            /\ engName e' = engName e.
Proof.
  split.
  - intros HF HN HS HO HM. destruct db as [nc sc outs calls].
    simpl in HN, HS, HO. subst. apply bootstrapCluster_succeeds; assumption.
  - unfold bootstrapCluster. intros engines' cid H.
    destruct (bootstrapEngines uuid iv 0 engines (mkBootstrapCtx db []))
      as [[es c] [err|]] eqn:E; inversion H; subst; clear H.
    split; [reflexivity|]. split.
    + eapply bootstrapEngines_length; eauto.
    + intros i e Hi.
      destruct (bootstrapEngines_ok _ _ _ _ _ _ _ E i e Hi)
        as (e' & N & _ & I & D & M).
      exists e'. simpl in I, D.
      repeat split; auto.
      intros R. rewrite I. unfold toStoreID.
      rewrite wrap32_in_int32; [reflexivity|].
      unfold in_int32, min_int32, max_int32 in *. lia.
Qed.

(** ** Bootstrap of the pending stores *)

(** The loop of bootstrapStores touches neither the key/value client nor
    the identity of the node, however it ends. *)
Lemma bootstrapPending_frame (bootstraps : list Store) :
  forall ident n,
    let n' := finalNode (bootstrapPending bootstraps ident n) in
    nodeDB n' = nodeDB n /\ ClusterID n' = ClusterID n
    /\ Descriptor n' = Descriptor n.
Proof.
  induction bootstraps as [|s rest IH]; simpl; intros ident n.
  - auto.
  - destruct (StoreBootstrap s ident) as [s1 [e1|]]; simpl; auto.
    destruct (StoreStart s1) as [s2 [e2|]]; simpl; auto.
    match goal with
    | |- context [bootstrapPending rest ?i ?m] =>
        destruct (IH i m) as (A & B & C)
    end.
    rewrite A, B, C. auto.
Qed.

Lemma bootstrapPending_ok (bootstraps : list Store) :
  forall ident n,
    Forall pendingStore bootstraps ->
    in_int32 (siStoreID ident) ->
    exists n' added,
      bootstrapPending bootstraps ident n = Returns n' tt
      /\ storeMap (stores n') = storeMap (stores n) ++ added
      /\ List.length added = List.length bootstraps
      /\ forall i s,
          nth_error bootstraps i = Some s ->
          exists s',
            nth_error added i = Some s'
            /\ sIdent s' = mkStoreIdent (siClusterID ident) (siNodeID ident)
                              (wrap32 (siStoreID ident + Z.of_nat i))
            /\ engIdent (sEngine s') = Some (sIdent s')
            /\ engName (sEngine s') = engName (sEngine s)
            /\ sStarted s' = true.
Proof.
  induction bootstraps as [|s rest IH]; simpl; intros ident n HF HR.
  - exists n, []. rewrite app_nil_r. repeat split; auto.
    intros [|i] s H; discriminate.
  - inversion HF as [|? ? (HI & HS & HB) HF']; subst.
    unfold StoreBootstrap, StoreStart. rewrite HB, HI. simpl. rewrite HS.
    match goal with
    | |- context [bootstrapPending rest ?i ?m] =>
        destruct (IH i m HF') as (n' & added & R & M & L & P);
        [apply in_int32_wrap32|]
    end.
    match goal with
    | |- context [AddStore _ ?x] => exists n', (x :: added)
    end.
    split; [exact R|]. split.
    { rewrite M. simpl. rewrite <- app_assoc. reflexivity. }
    split; [simpl; congruence|].
    intros [|i] s0 Hi.
    + cbn [nth_error] in *. inversion Hi; subst. eexists.
      split; [reflexivity|]. cbn [sIdent sEngine engIdent engName sStarted].
      rewrite Z.add_0_r, (wrap32_in_int32 _ HR). destruct ident; auto.
    + cbn [nth_error] in *. destruct (P i s0 Hi) as (s' & N & I & Q).
      exists s'. split; [exact N|]. split; [|exact Q].
      rewrite I. cbn [siClusterID siNodeID siStoreID]. f_equal.
      rewrite wrap32_add_l. f_equal. lia.
Qed.

(** The first ID of a range that allocateStoreIDs returns is a StoreID. *)
Lemma allocateStoreIDs_in_int32 (nid inc : Z) (db db' : DB)
  (first : StoreID) (err : option Error) :
  allocateStoreIDs nid inc db = (db', (first, err)) -> in_int32 first.
Proof.
  unfold allocateStoreIDs, toStoreID.
  destruct (Inc db StoreIDGenerator inc) as [d [r|e]];
    intros H; inversion H; subst.
  - apply in_int32_wrap32.
  - unfold in_int32, min_int32, max_int32. lia.
Qed.

(** C4: on a node with a cluster ID, bootstrapStores asks the allocator
    once, for as many IDs as there are pending stores; when the allocator
    answers [first], the pending stores get the StoreIDs [first],
    [first + 1], ... in the order of the list, counted in the
    wrap-around arithmetic of the StoreID: the store at index [i] gets
    [first + i] itself as long as that number does not exceed the
    largest StoreID.  Each StoreIdent is persisted with the cluster ID and
    node ID of the node, and each store is added to the registry. *)
Theorem bootstrapStores_assigns (bootstraps : list Store) (n : Node) :
  ClusterID n <> "" ->
  let k := Z.of_nat (List.length bootstraps) in
  dbCalls (nodeDB (finalNode (bootstrapStores bootstraps n)))
  = dbCalls (nodeDB n) ++ [(StoreIDGenerator, k)]
  /\ forall db first,
      allocateStoreIDs (nodeID n) k (nodeDB n) = (db, (first, None)) ->
      Forall pendingStore bootstraps ->
      exists n' added,
        bootstrapStores bootstraps n = Returns n' tt
        /\ ClusterID n' = ClusterID n /\ nodeID n' = nodeID n
        /\ nodeDB n' = db
        /\ storeMap (stores n') = storeMap (stores n) ++ added
        /\ List.length added = List.length bootstraps
        /\ forall i s,
            nth_error bootstraps i = Some s ->
            exists s',
              nth_error added i = Some s'
              /\ sIdent s' = mkStoreIdent (ClusterID n) (nodeID n)
                                (wrap32 (first + Z.of_nat i))
              /\ (first + Z.of_nat i <= max_int32 ->
                  sIdent s' = mkStoreIdent (ClusterID n) (nodeID n)
                                           (first + Z.of_nat i))
              /\ engIdent (sEngine s') = Some (sIdent s')
              /\ engName (sEngine s') = engName (sEngine s)
              /\ sStarted s' = true.
Proof.
  intros HC k. apply String.eqb_neq in HC.
  unfold bootstrapStores. rewrite HC. fold k.
  pose proof (allocateStoreIDs_calls (nodeID n) k (nodeDB n)) as Calls.
  destruct (allocateStoreIDs (nodeID n) k (nodeDB n))
    as [db0 [first0 err]] eqn:EA. simpl in Calls.
  split.
  - destruct err as [e|]; simpl; [exact Calls|].
    match goal with
    | |- context [bootstrapPending bootstraps ?i ?m] =>
        destruct (bootstrapPending_frame bootstraps i m) as (A & _ & _)
    end.
    rewrite A. exact Calls.
  - intros db first H HF.
    pose proof (allocateStoreIDs_in_int32 _ _ _ _ _ _ EA) as HR.
    inversion H; subst; clear H.
    match goal with
    | |- context [bootstrapPending bootstraps ?i ?m] =>
        destruct (bootstrapPending_ok bootstraps i m HF HR)
          as (n' & added & R & M & L & P);
        pose proof (bootstrapPending_frame bootstraps i m) as Fr
    end.
    rewrite R in Fr. simpl in Fr. destruct Fr as (A & B & C).
    exists n', added. split; [exact R|].
    unfold nodeID. rewrite C. repeat split; auto.
    intros i s Hi. destruct (P i s Hi) as (s' & N & I & Q).
    exists s'. split; [exact N|]. split; [exact I|]. split; [|exact Q].
    intros Hm. rewrite I. cbn [siClusterID siNodeID siStoreID].
    rewrite wrap32_in_int32; [reflexivity|].
    unfold in_int32, min_int32, max_int32 in *. lia.
Qed.

(** ** The node ID *)

(** With a positive NodeID, initNodeID returns at once for 0 and is fatal
    for every other ID; the node is left as it was. *)
Lemma initNodeID_positive (id : NodeID) (n : Node) :
  0 < nodeID n ->
  (id = 0 -> initNodeID id n = Returns n tt)
  /\ (id <> 0 ->
      exists h, initNodeID id n = Halts n h /\ isFatal h = true).
Proof.
  intros Hpos. unfold initNodeID.
  assert (P : (0 <? nodeID n) = true) by (apply Z.ltb_lt; exact Hpos).
  split.
  - intros ->. simpl. rewrite P. reflexivity.
  - intros Hid. destruct (id <? 0) eqn:Neg.
    + exists FatalNegativeNodeID. auto.
    + rewrite P. apply Z.eqb_neq in Hid. rewrite Hid.
      exists (FatalNodeIDAlreadySet id (nodeID n)). auto.
Qed.

Lemma initNodeID_keeps (id : NodeID) (n : Node) :
  0 < nodeID n -> finalNode (initNodeID id n) = n.
Proof.
  intros Hpos.
  destruct (initNodeID_positive id n Hpos) as (Z0 & NZ).
  destruct (Z.eq_dec id 0) as [E|E].
  - rewrite (Z0 E). reflexivity.
  - destruct (NZ E) as (h & Hh & _). rewrite Hh. reflexivity.
Qed.

Lemma validateStore_keeps (s : Store) (n : Node) :
  0 < nodeID n ->
  Descriptor (finalNode (validateStore s n)) = Descriptor n.
Proof.
  intros Hpos. unfold validateStore.
  destruct (ClusterID n =? "")%string.
  - set (n1 := setClusterID n (siClusterID (sIdent s))).
    assert (H1 : 0 < nodeID n1) by exact Hpos.
    destruct (initNodeID_positive (siNodeID (sIdent s)) n1 H1) as (Z0 & NZ).
    destruct (Z.eq_dec (siNodeID (sIdent s)) 0) as [E|E].
    + rewrite (Z0 E). reflexivity.
    + destruct (NZ E) as (h & Hh & _). rewrite Hh. reflexivity.
  - destruct (negb (ClusterID n =? siClusterID (sIdent s))%string);
      [reflexivity|].
    destruct (negb (nodeID n =? siNodeID (sIdent s))); reflexivity.
Qed.

Lemma VisitStores_keeps (order : list Store) :
  forall n,
    0 < nodeID n ->
    Descriptor (finalNode (VisitStores validateStore order n))
    = Descriptor n.
Proof.
  induction order as [|s rest IH]; simpl; intros n Hpos; [reflexivity|].
  pose proof (validateStore_keeps s n Hpos) as K.
  destruct (validateStore s n) as [n1 [e|]|n1 h|n1]; simpl in *; auto.
  rewrite IH; [exact K|]. unfold nodeID. rewrite K. exact Hpos.
Qed.

Lemma connectGossip_keeps (n : Node) :
  Descriptor (finalNode (connectGossip n)) = Descriptor n
  /\ stores (finalNode (connectGossip n)) = stores n.
Proof.
  unfold connectGossip.
  destruct (negb (gConnected (nodeGossip n))); [auto|].
  destruct (GetInfo (nodeGossip n)) as [bytes|e]; [|auto].
  destruct (ClusterID n =? "")%string; [auto|].
  destruct (negb (ClusterID n =? bytes)%string); auto.
Qed.

Lemma startEngines_frame (engines : list Engine) :
  forall bootstraps n n' bootstraps' err,
    startEngines engines bootstraps n = (n', bootstraps', err) ->
    Descriptor n' = Descriptor n /\ ClusterID n' = ClusterID n
    /\ ctx n' = ctx n /\ stopper n' = stopper n /\ feed n' = feed n.
Proof.
  induction engines as [|e rest IH]; simpl;
    intros bootstraps n n' bootstraps' err H.
  - inversion H; subst; auto.
  - destruct (StoreStart (NewStore e)) as [s [[]|]];
      try (inversion H; subst; auto; fail).
    + eapply IH; eauto.
    + destruct ((siClusterID (sIdent s) =? "")%string
                || (siNodeID (sIdent s) =? 0));
        [inversion H; subst; auto|].
      destruct (StoreCapacity s); [|inversion H; subst; auto].
      apply IH in H. simpl in H. exact H.
Qed.

Lemma joinCluster_keeps (bootstraps : list Store) (n : Node) :
  0 < nodeID n ->
  Descriptor (finalNode (joinCluster bootstraps n)) = Descriptor n.
Proof.
  intros Hpos. unfold joinCluster, validateStores.
  pose proof (VisitStores_keeps
                (iterOrder (stores n) (storeMap (stores n))) n Hpos) as K.
  destruct (VisitStores validateStore _ n) as [n1 [e|]|n1 h|n1];
    simpl in *; auto.
  destruct (SetStorage (nodeGossip n1)) as [g [e|]]; simpl; auto.
  pose proof (connectGossip_keeps (setGossip n1 g)) as (C & _).
  destruct (connectGossip (setGossip n1 g)) as [n2 []|n2 h|n2];
    simpl in *; try congruence.
  assert (P : (nodeID n2 =? 0) = false).
  { apply Z.eqb_neq. unfold nodeID in *. rewrite C, K. lia. }
  rewrite P. simpl.
  destruct (0 <? List.length bootstraps)%nat; simpl; congruence.
Qed.

Lemma initStores_keeps (engines : list Engine) (n : Node) :
  0 < nodeID n ->
  Descriptor (finalNode (initStores engines n)) = Descriptor n.
Proof.
  intros Hpos. unfold initStores.
  destruct (List.length engines =? 0)%nat; [reflexivity|].
  destruct (startEngines engines [] n) as [[n1 bs] err] eqn:E.
  apply startEngines_frame in E. destruct E as (D & _).
  destruct err as [e|]; simpl; [exact D|].
  destruct (bootstrapCheck n1); simpl; [exact D|].
  rewrite joinCluster_keeps; [exact D|].
  unfold nodeID. rewrite D. exact Hpos.
Qed.

Lemma executeCmd_keeps (ba : BatchRequest) (n : Node) :
  Descriptor (finalNode (executeCmd ba n)) = Descriptor n
  /\ ClusterID (finalNode (executeCmd ba n)) = ClusterID n.
Proof.
  unfold executeCmd, RunTask, dispatch, Send.
  destruct (joinSpan ba) as [sp|e]; [|auto].
  destruct (stopping (stopper n)); simpl.
  - destruct (Finish sp None); auto.
  - destruct (srError (router (stores n) ba)).
    + simpl. destruct (Finish sp _); auto.
    + destruct (srResponse (router (stores n) ba)) as [b|]; simpl.
      * destruct (brError b); simpl; destruct (Finish sp _); auto.
      * destruct (Finish sp None); auto.
Qed.

(** C3 (amended): once the NodeID of the node is positive, initNodeID
    with 0 returns without effect, initNodeID with any other ID -- the
    ID the node has or another one -- is fatal, and no function of the
    node changes the NodeID, however it ends. *)
Theorem initNodeID_once_set (n : Node) (id : NodeID) :
  0 < nodeID n ->
  (id = 0 -> initNodeID id n = Returns n tt)
  /\ (id <> 0 ->
      exists h, initNodeID id n = Halts n h /\ isFatal h = true)
  /\ nodeID (finalNode (initNodeID id n)) = nodeID n
  /\ nodeID (finalNode (validateStores n)) = nodeID n
  /\ nodeID (finalNode (connectGossip n)) = nodeID n
  /\ (forall bootstraps,
        nodeID (finalNode (bootstrapStores bootstraps n)) = nodeID n)
  /\ (forall engines,
        nodeID (finalNode (initStores engines n)) = nodeID n)
  /\ (forall ba, nodeID (finalNode (executeCmd ba n)) = nodeID n).
Proof.
  intros Hpos.
  destruct (initNodeID_positive id n Hpos) as (Z0 & NZ).
  split; [exact Z0|]. split; [exact NZ|].
  split; [rewrite initNodeID_keeps by exact Hpos; reflexivity|].
  unfold nodeID.
  split; [unfold validateStores; rewrite VisitStores_keeps by exact Hpos;
          reflexivity|].
  split; [destruct (connectGossip_keeps n) as (D & _); rewrite D;
          reflexivity|].
  split; [|split].
  - intros bootstraps. unfold bootstrapStores.
    destruct (ClusterID n =? "")%string; [reflexivity|].
    destruct (allocateStoreIDs _ _ _) as [db [first [e|]]]; [reflexivity|].
    match goal with
    | |- context [bootstrapPending bootstraps ?i ?m] =>
        destruct (bootstrapPending_frame bootstraps i m) as (_ & _ & D)
    end.
    rewrite D. reflexivity.
  - intros engines. rewrite initStores_keeps by exact Hpos. reflexivity.
  - intros ba. destruct (executeCmd_keeps ba n) as (D & _).
    rewrite D. reflexivity.
Qed.

(** C3 on a node whose NodeID is 5. *)
Lemma initNodeID_once_set_witness :
  let n := setNodeID (Sample.node [] (mkDB 0 0 [] []) Sample.route) 5 in
  (7 = 0 -> initNodeID 7 n = Returns n tt)
  /\ (7 <> 0 ->
      exists h, initNodeID 7 n = Halts n h /\ isFatal h = true)
  /\ nodeID (finalNode (initNodeID 7 n)) = nodeID n
  /\ nodeID (finalNode (validateStores n)) = nodeID n
  /\ nodeID (finalNode (connectGossip n)) = nodeID n
  /\ (forall bootstraps,
        nodeID (finalNode (bootstrapStores bootstraps n)) = nodeID n)
  /\ (forall engines,
        nodeID (finalNode (initStores engines n)) = nodeID n)
  /\ (forall ba, nodeID (finalNode (executeCmd ba n)) = nodeID n).
Proof.
  intros n. apply (initNodeID_once_set n 7). reflexivity.
Defined.

(** C3 as stated fails: the node gets NodeID 5 from a first call of
    initNodeID; a second call with the same ID does not return, it is
    fatal. *)
Lemma initNodeID_same_id_is_fatal :
  let n0 := Sample.node [] (mkDB 0 0 [] []) Sample.route in
  exists n1,
    initNodeID 5 n0 = Returns n1 tt
    /\ nodeID n1 = 5
    /\ initNodeID 5 n1 = Halts n1 (FatalNodeIDAlreadySet 5 5)
    /\ initNodeID 5 n1 <> Returns n1 tt.
Proof.
  intros n0. eexists. split; [reflexivity|]. split; [reflexivity|].
  split; [reflexivity|]. discriminate.
Qed.

(** ** The cluster ID *)

Lemma initNodeID_ClusterID (id : NodeID) (n : Node) :
  ClusterID (finalNode (initNodeID id n)) = ClusterID n
  /\ stores (finalNode (initNodeID id n)) = stores n.
Proof.
  unfold initNodeID, storeNodeID, allocateNodeID.
  destruct (id <? 0); [auto|].
  destruct (0 <? nodeID n).
  - destruct (id =? 0); auto.
  - destruct (id =? 0).
    + destruct (Inc (nodeDB n) NodeIDGenerator 1) as [db [r|e]]; simpl;
        [|auto].
      destruct (toNodeID r =? 0); simpl; [auto|].
      destruct (SetNodeDescriptor _ _) as [g [e|]]; simpl; auto.
    + destruct (SetNodeDescriptor _ _) as [g [e|]]; simpl; auto.
Qed.

(** With a cluster ID in place the visitor of validateStores changes
    nothing. *)
Lemma validateStore_set (s : Store) (n : Node) :
  ClusterID n <> "" ->
  exists err, validateStore s n = Returns n err.
Proof.
  intros HC. apply String.eqb_neq in HC.
  unfold validateStore. rewrite HC.
  destruct (negb (ClusterID n =? siClusterID (sIdent s))%string);
    [eexists; reflexivity|].
  destruct (negb (nodeID n =? siNodeID (sIdent s))); eexists; reflexivity.
Qed.

Lemma VisitStores_set (order : list Store) (n : Node) :
  ClusterID n <> "" ->
  exists err, VisitStores validateStore order n = Returns n err.
Proof.
  intros HC. induction order as [|s rest IH]; simpl.
  - eexists; reflexivity.
  - destruct (validateStore_set s n HC) as (err & E). rewrite E. simpl.
    destruct err as [e|]; [eexists; reflexivity|exact IH].
Qed.

Lemma connectGossip_ClusterID (n : Node) :
  ClusterID n <> "" ->
  ClusterID (finalNode (connectGossip n)) = ClusterID n.
Proof.
  intros HC. apply String.eqb_neq in HC. unfold connectGossip.
  destruct (negb (gConnected (nodeGossip n))); [reflexivity|].
  destruct (GetInfo (nodeGossip n)) as [bytes|e]; [|reflexivity].
  rewrite HC.
  destruct (negb (ClusterID n =? bytes)%string); reflexivity.
Qed.

(** initStores never replaces a cluster ID the node has. *)
Lemma initStores_ClusterID (engines : list Engine) (n : Node) :
  ClusterID n <> "" ->
  ClusterID (finalNode (initStores engines n)) = ClusterID n.
Proof.
  intros HC. unfold initStores.
  destruct (List.length engines =? 0)%nat; [reflexivity|].
  destruct (startEngines engines [] n) as [[n1 bs] err] eqn:E.
  apply startEngines_frame in E. destruct E as (_ & C & _).
  destruct err as [e|]; simpl; [exact C|].
  destruct (bootstrapCheck n1); simpl; [exact C|].
  assert (HC1 : ClusterID n1 <> "") by (rewrite C; exact HC).
  unfold joinCluster, validateStores.
  destruct (VisitStores_set (iterOrder (stores n1) (storeMap (stores n1)))
                            n1 HC1) as (verr & V).
  rewrite V. simpl. destruct verr as [e|]; simpl; [exact C|].
  destruct (SetStorage (nodeGossip n1)) as [g [e|]]; simpl; [exact C|].
  pose proof (connectGossip_ClusterID (setGossip n1 g) HC1) as G.
  destruct (connectGossip (setGossip n1 g)) as [n2 []|n2 h|n2];
    simpl in *; try congruence.
  destruct (nodeID n2 =? 0).
  - pose proof (initNodeID_ClusterID 0 n2) as (I & _).
    destruct (initNodeID 0 n2) as [n3 []|n3 h|n3]; simpl in *;
      try congruence.
    destruct (0 <? List.length bs)%nat; simpl; congruence.
  - simpl. destruct (0 <? List.length bs)%nat; simpl; congruence.
Qed.

(** Gossiping the stores leaves the cluster ID of the node alone. *)
Lemma VisitStores_gossip_ClusterID (order : list Store) :
  forall n,
    ClusterID (finalNode (VisitStores gossipStore order n)) = ClusterID n
    /\ exists n', VisitStores gossipStore order n = Returns n' None.
Proof.
  induction order as [|s rest IH]; intros n; simpl.
  - split; [reflexivity | eexists; reflexivity].
  - destruct (IH (setGossip n (GossipStore (nodeGossip n) s))) as (C & R).
    split; [rewrite C; reflexivity | exact R].
Qed.

(** start never replaces a cluster ID the node has. *)
Lemma start_ClusterID (env : StartEnv) (engines : list Engine)
  (attrs : list string) (n : Node) :
  ClusterID n <> "" ->
  ClusterID (finalNode (start env engines attrs n)) = ClusterID n.
Proof.
  intros HC. unfold start.
  set (n0 := StartMonitorFeed
               (initDescriptor (envNetwork env) (envAddress env) attrs n)).
  assert (C0 : ClusterID n0 = ClusterID n) by reflexivity.
  assert (H0 : ClusterID n0 <> "") by (rewrite C0; exact HC).
  pose proof (initStores_ClusterID engines n0 H0) as I1.
  assert (Serve : forall m,
             ClusterID (finalNode (serve env m)) = ClusterID m
             /\ exists m' err, serve env m = Returns m' err
                               \/ exists h, serve env m = Halts m' h).
  { intros m. unfold serve. destruct (envRegisterFails env).
    - split; [reflexivity|]. eexists. exists None. right. eexists.
      reflexivity.
    - split; [reflexivity|]. eexists. exists None. left. reflexivity. }
  assert (Serve' : forall (es : list Engine) m,
             ClusterID (finalNode
                          (bind (serve env m)
                                (fun n2 err => Returns n2 (es, err))))
             = ClusterID m).
  { intros es m. destruct (Serve m) as (C & m' & err & [R|(h & R)]);
      rewrite R in *; exact C. }
  destruct (initStores engines n0) as [n1 [e|]|n1 h|n1]; cbn [bind];
    cbn [finalNode] in I1; try (cbn [finalNode]; congruence).
  - assert (Other : ClusterID (finalNode
                       (Returns n1 (engines, Some e)
                        : Outcome (list Engine * option Error)))
                    = ClusterID n) by (cbn [finalNode]; congruence).
    destruct e; try exact Other.
    destruct (bootstrapCluster _ _ _ engines) as [es [cid [be|]]];
      [cbn [finalNode]; congruence|].
    destruct (envSelfResolver env) as [r|re];
      [|cbn [finalNode]; congruence].
    set (n2 := setGossip n1 (SetResolvers (nodeGossip n1) [r])).
    assert (H2 : ClusterID n2 <> "")
      by (change (ClusterID n1 <> ""); congruence).
    pose proof (initStores_ClusterID es n2 H2) as I2.
    change (ClusterID n2) with (ClusterID n1) in I2.
    destruct (initStores es n2) as [n3 [e|]|n3 h|n3]; cbn [bind];
      cbn [finalNode] in I2; try (cbn [finalNode]; congruence).
    rewrite (Serve' es n3). congruence.
  - rewrite (Serve' engines n1). congruence.
Qed.

(** No function of the node replaces a cluster ID the node has. *)
Lemma afterCall_ClusterID (c : NodeCall) (n : Node) :
  ClusterID n <> "" -> ClusterID (afterCall c n) = ClusterID n.
Proof.
  intros HC. destruct c; cbn [afterCall].
  - apply initNodeID_ClusterID.
  - unfold validateStores.
    destruct (VisitStores_set
                (iterOrder (stores n) (storeMap (stores n))) n HC)
      as (err & V).
    rewrite V. reflexivity.
  - apply connectGossip_ClusterID. exact HC.
  - apply initStores_ClusterID. exact HC.
  - unfold bootstrapStores.
    destruct (ClusterID n =? "")%string; [reflexivity|].
    destruct (allocateStoreIDs _ _ _) as [db [first [e|]]]; [reflexivity|].
    match goal with
    | |- context [bootstrapPending bootstraps ?i ?m] =>
        destruct (bootstrapPending_frame bootstraps i m) as (_ & C & _)
    end.
    rewrite C. reflexivity.
  - apply executeCmd_keeps.
  - unfold gossipStores.
    destruct (VisitStores_gossip_ClusterID
                (iterOrder (stores n) (storeMap (stores n))) n)
      as (C & n' & R).
    rewrite R in *. exact C.
  - apply start_ClusterID. exact HC.
Qed.

Lemma afterCalls_ClusterID (calls : list NodeCall) :
  forall n,
    ClusterID n <> "" -> ClusterID (afterCalls calls n) = ClusterID n.
Proof.
  unfold afterCalls.
  induction calls as [|c rest IH]; intros n HC; [reflexivity|].
  cbn [fold_left].
  pose proof (afterCall_ClusterID c n HC) as K.
  rewrite IH; [exact K|]. rewrite K. exact HC.
Qed.

(** C7: connectGossip adopts the cluster ID read from gossip when the
    node has none: it returns, and the cluster ID of the node is then
    the one of gossip.  When the node has a cluster ID and gossip carries
    another, the process halts with a fatal error and the node still has
    its own.  And once the node has a cluster ID, it keeps it for good:
    no function of node.go replaces it with another, however the function
    ends, so no sequence of calls does; whatever the calls made on a
    node, the cluster ID it has after some of them is the one it has
    after all of them. *)
Theorem connectGossip_cluster (n : Node) :
  (forall gid,
      gConnected (nodeGossip n) = true ->
      GetInfo (nodeGossip n) = Ok gid ->
      ClusterID n = "" ->
      exists n',
        connectGossip n = Returns n' tt
        /\ ClusterID n' = gid
        /\ n' = setClusterID n gid)
  /\ (forall gid,
        gConnected (nodeGossip n) = true ->
        GetInfo (nodeGossip n) = Ok gid ->
        ClusterID n <> "" ->
        ClusterID n <> gid ->
        exists n' h,
          connectGossip n = Halts n' h /\ isFatal h = true
          /\ ClusterID n' = ClusterID n /\ ClusterID n' <> gid)
  /\ (ClusterID n <> "" ->
      ClusterID (finalNode (connectGossip n)) = ClusterID n
      /\ (forall c, ClusterID (afterCall c n) = ClusterID n)
      /\ (forall calls, ClusterID (afterCalls calls n) = ClusterID n))
  /\ (forall calls more,
        ClusterID (afterCalls calls n) <> "" ->
        ClusterID (afterCalls (calls ++ more) n)
        = ClusterID (afterCalls calls n)).
Proof.
  split; [|split; [|split]].
  - intros gid HG HI HC. unfold connectGossip. rewrite HG, HI, HC.
    eexists. split; [reflexivity|]. split; reflexivity.
  - intros gid HG HI HC HD. unfold connectGossip. rewrite HG, HI. simpl.
    pose proof HD as HD'.
    apply String.eqb_neq in HC, HD. rewrite HC, HD. simpl.
    do 2 eexists. repeat split; auto.
  - intros HC. split; [apply connectGossip_ClusterID; exact HC|].
    split; [intros c; apply afterCall_ClusterID; exact HC|].
    intros calls. apply afterCalls_ClusterID. exact HC.
  - intros calls more HC.
    replace (afterCalls (calls ++ more) n)
      with (afterCalls more (afterCalls calls n))
      by (unfold afterCalls; rewrite fold_left_app; reflexivity).
    apply afterCalls_ClusterID. exact HC.
Qed.

(** ** Validation of the stores *)

(** The node once the first visited store [s0] has given it its
    identity: what the visitor makes of a node without cluster ID and
    node ID. *)
Lemma validateStore_first (s0 : Store) (n : Node) :
  ClusterID n = "" ->
  nodeID n = 0 ->
  0 < siNodeID (sIdent s0) ->
  failSetNodeDescriptor (nodeGossip n) = false ->
  exists n1,
    validateStore s0 n = Returns n1 None
    /\ ClusterID n1 = siClusterID (sIdent s0)
    /\ nodeID n1 = siNodeID (sIdent s0)
    /\ stores n1 = stores n.
Proof.
  intros HC HN HP HF.
  unfold validateStore, initNodeID, storeNodeID, SetNodeDescriptor.
  rewrite HC. simpl.
  assert (A : (siNodeID (sIdent s0) <? 0) = false) by (apply Z.ltb_ge; lia).
  assert (B : (siNodeID (sIdent s0) =? 0) = false) by (apply Z.eqb_neq; lia).
  rewrite A.
  replace (nodeID (setClusterID n (siClusterID (sIdent s0)))) with 0
    by (symmetry; exact HN).
  simpl. rewrite B. simpl.
  unfold nodeGossip in *. simpl. rewrite HF. simpl.
  eexists. split; [reflexivity|]. simpl. auto.
Qed.

Section SeededNode.

(** The node [n1] has the cluster ID and the node ID of the store [s0]. *)
Variables (s0 : Store) (n1 : Node).
Hypothesis cluster_set : ClusterID n1 <> "".
Hypothesis cluster_seed : ClusterID n1 = siClusterID (sIdent s0).
Hypothesis node_seed : nodeID n1 = siNodeID (sIdent s0).


Lemma VisitStores_mismatch (rest : list Store) :
  Exists (fun s => ~ agrees s0 s) rest ->
  exists s err,
    VisitStores validateStore rest n1 = Returns n1 (Some err)
    /\ In s rest /\ ~ agrees s0 s
    /\ (err = ErrClusterIDMismatch s (siClusterID (sIdent s0))
        \/ err = ErrNodeIDMismatch s (siNodeID (sIdent s0))).
Proof.
  intros HX.
  pose proof cluster_set as HE. apply String.eqb_neq in HE.
  pose proof cluster_seed as HC. pose proof node_seed as HN.
  induction rest as [|s rest IH]; [inversion HX|].
  simpl. unfold validateStore at 1. rewrite HE, HC, HN.
  destruct (siClusterID (sIdent s0) =? siClusterID (sIdent s))%string
    eqn:EC; simpl.
  - destruct (siNodeID (sIdent s0) =? siNodeID (sIdent s)) eqn:EN; simpl.
    + apply String.eqb_eq in EC. apply Z.eqb_eq in EN.
      inversion HX as [? ? Hs|? ? Hr]; subst.
      * exfalso. apply Hs. split; congruence.
      * destruct (IH Hr) as (s' & err & V & I & D & K).
        exists s', err. simpl. auto.
    + apply Z.eqb_neq in EN.
      exists s, (ErrNodeIDMismatch s (siNodeID (sIdent s0))).
      split; [reflexivity|]. split; [left; reflexivity|].
      split; [|right; reflexivity].
      intros (_ & AN). congruence.
  - apply String.eqb_neq in EC.
    exists s, (ErrClusterIDMismatch s (siClusterID (sIdent s0))).
    split; [reflexivity|]. split; [left; reflexivity|].
    split; [|left; reflexivity].
    intros (AC & _). congruence.
Qed.




End SeededNode.


(** ** Initialisation of the stores *)

Lemma UnresolvedAddr_eqb_eq (a b : UnresolvedAddr) :
  UnresolvedAddr_eqb a b = true <-> a = b.
Proof.
  unfold UnresolvedAddr_eqb. destruct a as [n1 a1], b as [n2 a2]; simpl.
  rewrite andb_true_iff, !String.eqb_eq. split.
  - intros (-> & ->). reflexivity.
  - intros H. inversion H. auto.
Qed.

Lemma VisitStores_errors (order : list Store) :
  forall n n' err,
    VisitStores validateStore order n = Returns n' (Some err) ->
    validationError err.
Proof.
  induction order as [|s rest IH]; simpl; intros n n' err H;
    [discriminate|].
  destruct (validateStore s n) as [n1 [e|]|n1 h|n1] eqn:V; simpl in H;
    try discriminate.
  - inversion H; subst; clear H.
    unfold validateStore in V.
    destruct (ClusterID n =? "")%string.
    + destruct (initNodeID _ _) as [? []|? ?|?]; discriminate.
    + destruct (negb (ClusterID n =? siClusterID (sIdent s))%string);
        [inversion V; exact I|].
      destruct (negb (nodeID n =? siNodeID (sIdent s)));
        [inversion V; exact I|discriminate].
  - eapply IH; eauto.
Qed.

(** After the check, initStores reports no error but those of the
    validation and of the gossip storage. *)
Lemma joinCluster_errors (bootstraps : list Store) (n n' : Node)
  (err : Error) :
  joinCluster bootstraps n = Returns n' (Some err) ->
  validationError err \/ exists cause, err = ErrGossipInterface cause.
Proof.
  unfold joinCluster, validateStores. intros H.
  destruct (VisitStores validateStore _ n) as [n1 [e|]|n1 h|n1] eqn:V;
    simpl in H; try discriminate.
  - inversion H; subst. left. eapply VisitStores_errors; eauto.
  - destruct (SetStorage (nodeGossip n1)) as [g [e|]].
    + inversion H; subst. right. eexists; reflexivity.
    + destruct (connectGossip (setGossip n1 g)) as [n2 []|n2 h|n2];
        simpl in H; try discriminate.
      destruct (if nodeID n2 =? 0 then initNodeID 0 n2 else Returns n2 tt)
        as [n3 []|n3 h|n3]; simpl in H; discriminate.
Qed.

(** C2: when the loop of initStores over the engines ends with no store
    in the registry, an empty resolver list makes initStores fail with
    errNeedsBootstrap; a single resolver whose address is the node's own
    makes it fail with errCannotJoinSelf; with two resolvers or more, or
    with one resolver whose address is not the node's own, initStores
    goes on after the check and returns neither of the two errors. *)
Theorem initStores_zero_stores (engines : list Engine) (n n1 : Node)
  (bootstraps : list Store) :
  engines <> [] ->
  startEngines engines [] n = (n1, bootstraps, None) ->
  GetStoreCount (stores n1) = 0%nat ->
  let resolvers := GetResolvers (nodeGossip n) in
  (resolvers = [] ->
   initStores engines n = Returns n1 (Some errNeedsBootstrap))
  /\ (forall r,
        resolvers = [r] ->
        GetAddress r = Ok (AddrUnresolved (dAddress (Descriptor n))) ->
        initStores engines n = Returns n1 (Some errCannotJoinSelf))
  /\ ((2 <= List.length resolvers)%nat
      \/ (exists r,
            resolvers = [r]
            /\ GetAddress r
               <> Ok (AddrUnresolved (dAddress (Descriptor n)))) ->
      initStores engines n = joinCluster bootstraps n1
      /\ forall n',
          initStores engines n <> Returns n' (Some errNeedsBootstrap)
          /\ initStores engines n <> Returns n' (Some errCannotJoinSelf)).
Proof.
  intros HE HL HZ resolvers.
  pose proof (startEngines_frame _ _ _ _ _ _ HL) as (D & _ & C & _).
  assert (L : (List.length engines =? 0)%nat = false).
  { destruct engines; [contradiction|reflexivity]. }
  assert (R : GetResolvers (nodeGossip n1) = resolvers).
  { unfold resolvers, nodeGossip. rewrite C. reflexivity. }
  unfold initStores. rewrite L, HL. unfold bootstrapCheck.
  rewrite HZ, R, D. simpl.
  split; [|split].
  - intros ->. reflexivity.
  - intros r -> HA. rewrite HA.
    replace (UnresolvedAddr_eqb _ _) with true; [reflexivity|].
    symmetry. apply UnresolvedAddr_eqb_eq. reflexivity.
  - intros HR.
    assert (J : match resolvers with
                | [] => Some errNeedsBootstrap
                | [r] =>
                    match GetAddress r with
                    | Ok (AddrUnresolved uaddr) =>
                        if UnresolvedAddr_eqb uaddr (dAddress (Descriptor n))
                        then Some errCannotJoinSelf
                        else None
                    | _ => None
                    end
                | _ => None
                end = None).
    { destruct HR as [HR|(r & -> & HR)].
      - destruct resolvers as [|r1 [|r2 rs]]; simpl in HR; try lia.
        reflexivity.
      - destruct (GetAddress r) as [[a|]|]; try reflexivity.
        destruct (UnresolvedAddr_eqb a (dAddress (Descriptor n))) eqn:Q;
          [|reflexivity].
        apply UnresolvedAddr_eqb_eq in Q. subst a. contradiction. }
    rewrite J. split; [reflexivity|].
    intros n'. split; intros X;
      apply joinCluster_errors in X; destruct X as [X|(c & X)];
      try exact X; discriminate.
Qed.

(** C10: on an empty list of engines initStores returns the "no engines"
    error and leaves the node as it was: no store was started, the
    registry and the resolvers were not looked at.  The error is neither
    errNeedsBootstrap nor errCannotJoinSelf, and start returns it without
    calling bootstrapCluster: the node is as initDescriptor and
    StartMonitorFeed left it. *)
Theorem initStores_no_engines (n : Node) :
  initStores [] n = Returns n (Some ErrNoEngines)
  /\ ErrNoEngines <> errNeedsBootstrap
  /\ ErrNoEngines <> errCannotJoinSelf
  /\ forall env attrs,
      start env [] attrs n
      = Returns (StartMonitorFeed
                   (initDescriptor (envNetwork env) (envAddress env)
                                   attrs n))
                ([], Some ErrNoEngines).
Proof.
  split; [reflexivity|]. split; [discriminate|]. split; [discriminate|].
  reflexivity.
Qed.

(** ** The command dispatcher *)

Lemma recordSpans_some (recorded : list RawSpan) :
  forall b br,
    recordSpans recorded (Some b) = inl br ->
    exists spans,
      br = Some (mkBatchResponse (brError b) (brCollectedSpans b ++ spans)
                                 (brResponses b)).
Proof.
  induction recorded as [|r rest IH]; simpl; intros b br H.
  - inversion H; subst. exists []. rewrite app_nil_r.
    destruct b; reflexivity.
  - unfold tracingCB in H. destruct (rawEncoded r) as [enc|e];
      [|discriminate].
    apply IH in H. destruct H as (spans & ->). simpl.
    exists (enc :: spans). rewrite <- app_assoc. reflexivity.
Qed.

Lemma Finish_some (sp : Span) (b : BatchResponse)
  (br : option BatchResponse) :
  Finish sp (Some b) = inl br ->
  exists spans,
    br = Some (mkBatchResponse (brError b) (brCollectedSpans b ++ spans)
                               (brResponses b)).
Proof.
  destruct sp as [|recorded]; simpl.
  - intros H; inversion H; subst. exists []. rewrite app_nil_r.
    destruct b; reflexivity.
  - apply recordSpans_some.
Qed.

(** C8 (amended): on a node whose stopper is stopping, executeCmd routes
    nothing and publishes nothing, whatever the request: the node is left
    as it was.  A request without trace context, or whose span records
    nothing when it is finished, gets the "node stopped" error; a request
    whose trace context cannot be joined gets the error of the trace,
    before the admission is asked for. *)
Theorem executeCmd_stopped (ba : BatchRequest) (n : Node) :
  stopping (stopper n) = true ->
  finalNode (executeCmd ba n) = n
  /\ sent (stores (finalNode (executeCmd ba n))) = sent (stores n)
  /\ feed (finalNode (executeCmd ba n)) = feed n
  /\ (forall sp,
        joinSpan ba = Ok sp ->
        Finish sp None = inl None ->
        executeCmd ba n
        = Returns n (None, Some (ErrNodeStopped (nodeID n))))
  /\ (baTrace ba = None ->
      executeCmd ba n = Returns n (None, Some (ErrNodeStopped (nodeID n))))
  /\ (forall t cause,
        baTrace ba = Some t ->
        trJoin t = Err cause ->
        executeCmd ba n = Returns n (None, Some (ErrUnmarshalTrace cause))).
Proof.
  intros HS.
  assert (F : finalNode (executeCmd ba n) = n).
  { unfold executeCmd, RunTask. rewrite HS.
    destruct (joinSpan ba) as [sp|e]; [|reflexivity].
    destruct (Finish sp None); reflexivity. }
  split; [exact F|]. rewrite F.
  split; [reflexivity|]. split; [reflexivity|].
  assert (G : forall sp,
             joinSpan ba = Ok sp ->
             Finish sp None = inl None ->
             executeCmd ba n
             = Returns n (None, Some (ErrNodeStopped (nodeID n)))).
  { intros sp J Fi. unfold executeCmd, RunTask. rewrite J, HS, Fi.
    reflexivity. }
  split; [exact G|]. split.
  - intros HT. apply (G NoopSpan); [|reflexivity].
    unfold joinSpan. rewrite HT. reflexivity.
  - intros t cause HT HJ. unfold executeCmd, joinSpan.
    rewrite HT, HJ. reflexivity.
Qed.

(** C9 (amended): on a node that admits the request, when the routing
    call reports an error the response that executeCmd returns is the
    empty response with that error attached (and the spans the tracer
    collected): nothing of the response of the routing layer is in it,
    also when that response carried an error of its own.  When the
    routing call reports no error and its response carries an embedded
    error, executeCmd panics. *)
Theorem executeCmd_routing_error (ba : BatchRequest) (n : Node)
  (sp : Span) :
  stopping (stopper n) = false ->
  joinSpan ba = Ok sp ->
  let sr := router (stores n) ba in
  (forall pErr,
      srError sr = Some pErr ->
      (forall n' br err,
          executeCmd ba n = Returns n' (br, err) ->
          err = None
          /\ (exists spans,
                br = Some (mkBatchResponse (Some pErr) spans []))
          /\ feed n' = feed n ++ [CallComplete ba (srElapsed sr) (Some pErr)])
      /\ (sp = NoopSpan ->
          exists n',
            executeCmd ba n
            = Returns n' (Some (mkBatchResponse (Some pErr) [] []), None)))
  /\ (forall b embedded,
        srError sr = None ->
        srResponse sr = Some b ->
        brError b = Some embedded ->
        exists h, executeCmd ba n = Halts (setStores n (fst (Send (stores n) ba))) h
                  /\ isFatal h = false).
Proof.
  intros HS HJ sr. split.
  - intros pErr HE. split.
    + intros n' br err. unfold executeCmd, RunTask, dispatch, Send.
      rewrite HJ, HS. fold sr. rewrite HE. simpl.
      destruct (Finish sp _) as [br1|h] eqn:Fi; [|discriminate].
      intros H. inversion H; subst; clear H.
      apply Finish_some in Fi. destruct Fi as (spans & ->). simpl.
      split; [reflexivity|]. split; [|reflexivity].
      exists spans. reflexivity.
    + intros ->. unfold executeCmd, RunTask, dispatch, Send.
      rewrite HJ, HS. fold sr. rewrite HE. simpl.
      eexists. reflexivity.
  - intros b embedded HE HR HB.
    unfold executeCmd, RunTask, dispatch, Send.
    rewrite HJ, HS. fold sr. rewrite HE, HR, HB. simpl.
    destruct (Finish sp (Some b)) as [br1|h] eqn:Fi.
    + eexists. split; reflexivity.
    + exists h. split; [reflexivity|].
      destruct sp as [|recorded]; simpl in Fi; [discriminate|].
      clear - Fi. revert b Fi.
      induction recorded as [|r rest IH]; simpl; intros b Fi;
        [discriminate|].
      unfold tracingCB in Fi.
      destruct (rawEncoded r) as [enc|e].
      * eapply IH; eauto.
      * inversion Fi; reflexivity.
Qed.

(** * The properties on sample data *)

(** C1 on three blank engines and the generated cluster ID "c1". *)
Lemma bootstrapCluster_idents_witness :
  let engines := [Sample.blank "a"; Sample.blank "b"; Sample.blank "c"] in
  let r := bootstrapCluster "c1" Sample.initialValues (mkDB 0 0 [] [])
                            engines in
  snd r = ("c1", None)
  /\ List.length (fst r) = List.length engines
  /\ forall i e,
      nth_error engines i = Some e ->
      exists e',
        nth_error (fst r) i = Some e'
        /\ engIdent e'
           = Some (mkStoreIdent "c1" 1 (toStoreID (Z.of_nat i + 1)))
        /\ (Z.of_nat i < max_int32 ->
            engIdent e' = Some (mkStoreIdent "c1" 1 (Z.of_nat i + 1)))
        /\ engData e'
           = engData e ++ (if (i =? 0)%nat then Sample.initialValues else [])
        /\ engName e' = engName e.
Proof.
  intros engines r.
  destruct (bootstrapCluster_idents "c1" Sample.initialValues
                                    (mkDB 0 0 [] []) engines)
    as (Succeeds & Idents).
  split.
  - apply Succeeds; try reflexivity.
    + repeat constructor.
    + unfold max_int64. simpl. lia.
  - apply (Idents (fst r) "c1"). reflexivity.
Defined.

Example bootstrapCluster_three :
  let r := bootstrapCluster "c1" Sample.initialValues (mkDB 0 0 [] [])
             [Sample.blank "a"; Sample.blank "b"; Sample.blank "c"] in
  map engIdent (fst r)
  = [Some (mkStoreIdent "c1" 1 1); Some (mkStoreIdent "c1" 1 2);
     Some (mkStoreIdent "c1" 1 3)]
  /\ map engData (fst r) = [Sample.initialValues; []; []]
  /\ snd r = ("c1", None).
Proof. repeat split. Qed.

(** An engine that already belongs to a cluster stops bootstrapCluster;
    the engines before it keep what was written. *)
Example bootstrapCluster_refuses_formatted :
  let r := bootstrapCluster "c1" Sample.initialValues (mkDB 0 0 [] [])
             [Sample.blank "a";
              Sample.formatted "b" (mkStoreIdent "c0" 4 2)] in
  snd r = ("", Some (ErrAlreadyInCluster "c0"))
  /\ map engIdent (fst r)
     = [Some (mkStoreIdent "c1" 1 1); Some (mkStoreIdent "c0" 4 2)].
Proof. repeat split. Qed.

(** C2 on one blank engine and a node without resolvers. *)
Lemma initStores_zero_stores_witness :
  let engines := [Sample.blank "a"] in
  let n := Sample.node [] (mkDB 0 0 [] []) Sample.route in
  initStores engines n = Returns n (Some errNeedsBootstrap).
Proof.
  intros engines n.
  apply (initStores_zero_stores engines n n [NewStore (Sample.blank "a")]);
    [discriminate | reflexivity | reflexivity | reflexivity].
Defined.

Example initStores_cannot_join_self :
  let n := Sample.node [mkResolver (Ok (AddrUnresolved Sample.self))]
                       (mkDB 0 0 [] []) Sample.route in
  initStores [Sample.blank "a"] n = Returns n (Some errCannotJoinSelf).
Proof. reflexivity. Qed.

(** With a peer to join, a node without stores takes the cluster ID from
    gossip, allocates its node ID and leaves its stores to the
    asynchronous bootstrap. *)
Example initStores_joins_peer :
  let n := Sample.node [mkResolver (Ok (AddrUnresolved Sample.peer))]
                       (mkDB 5 7 [] []) Sample.route in
  let o := initStores [Sample.blank "A"; Sample.blank "B"] n in
  (exists n', o = Returns n' None)
  /\ ClusterID (finalNode o) = "c9"
  /\ nodeID (finalNode o) = 6
  /\ storeMap (stores (finalNode o)) = []
  /\ asyncTasks (stopper (finalNode o))
     = [[NewStore (Sample.blank "A"); NewStore (Sample.blank "B")]].
Proof. repeat split. eexists. reflexivity. Qed.

(** Stores that already carry the identity of one node: initStores
    succeeds without a call of the allocator. *)
Example initStores_identified :
  let n := Sample.node [] (mkDB 5 8 [] []) Sample.route in
  let o := initStores [Sample.formatted "A" (mkStoreIdent "c9" 5 7);
                       Sample.formatted "B" (mkStoreIdent "c9" 5 8)] n in
  (exists n', o = Returns n' None)
  /\ ClusterID (finalNode o) = "c9"
  /\ nodeID (finalNode o) = 5
  /\ dbCalls (nodeDB (finalNode o)) = [].
Proof. repeat split. eexists. reflexivity. Qed.

(** C4 on the stores A, B, C of a node with NodeID 5 when the allocator
    answers 10. *)
Lemma bootstrapStores_assigns_witness :
  let n := Sample.node5 in
  dbCalls (nodeDB (finalNode (bootstrapStores Sample.pendingABC n)))
  = dbCalls (nodeDB n) ++ [(StoreIDGenerator, 3)]
  /\ exists n' added,
      bootstrapStores Sample.pendingABC n = Returns n' tt
      /\ ClusterID n' = "c9" /\ nodeID n' = 5
      /\ nodeDB n' = mkDB 5 12 [] [(StoreIDGenerator, 3)]
      /\ storeMap (stores n') = storeMap (stores n) ++ added
      /\ List.length added = 3%nat
      /\ forall i s,
          nth_error Sample.pendingABC i = Some s ->
          exists s',
            nth_error added i = Some s'
            /\ sIdent s' = mkStoreIdent "c9" 5 (wrap32 (10 + Z.of_nat i))
            /\ (10 + Z.of_nat i <= max_int32 ->
                sIdent s' = mkStoreIdent "c9" 5 (10 + Z.of_nat i))
            /\ engIdent (sEngine s') = Some (sIdent s')
            /\ engName (sEngine s') = engName (sEngine s)
            /\ sStarted s' = true.
Proof.
  intros n.
  destruct (bootstrapStores_assigns Sample.pendingABC n) as (Calls & Assign);
    [discriminate|].
  split; [exact Calls|].
  apply (Assign (mkDB 5 12 [] [(StoreIDGenerator, 3)]) 10); [reflexivity|].
  repeat constructor.
Defined.

(** C4 as stated fails: on a node whose store ID counter is at
    2147483646, the allocator answers the call for two IDs with
    2147483647, the largest StoreID; bootstrapStores returns, the first
    pending store gets 2147483647 and the second gets -2147483648, not
    2147483647 + 1. *)
Lemma bootstrapStores_store_id_wraps :
  let n :=
    setNodeID
      (setClusterID
         (Sample.node [] (mkDB 5 2147483646 [] []) Sample.route) "c9") 5 in
  let pending := [NewStore (Sample.blank "A"); NewStore (Sample.blank "B")] in
  snd (allocateStoreIDs (nodeID n) 2 (nodeDB n)) = (2147483647, None)
  /\ (exists n', bootstrapStores pending n = Returns n' tt)
  /\ map sIdent (storeMap (stores (finalNode (bootstrapStores pending n))))
     = [mkStoreIdent "c9" 5 2147483647; mkStoreIdent "c9" 5 (-2147483648)]
  /\ -2147483648 <> 2147483647 + 1.
Proof.
  vm_compute. repeat split; [eexists; reflexivity | discriminate].
Qed.

Example bootstrapStores_ABC :
  map sIdent
      (storeMap (stores (finalNode
                           (bootstrapStores Sample.pendingABC Sample.node5))))
  = [mkStoreIdent "c9" 5 10; mkStoreIdent "c9" 5 11; mkStoreIdent "c9" 5 12].
Proof. reflexivity. Qed.



(** C7 on a node without cluster ID and a gossip network of cluster
    "c9". *)
Lemma connectGossip_cluster_witness :
  let n := Sample.node [] (mkDB 0 0 [] []) Sample.route in
  (exists n',
      connectGossip n = Returns n' tt
      /\ ClusterID n' = "c9"
      /\ n' = setClusterID n "c9")
  /\ ClusterID (afterCalls [DoValidateStores; DoInitNodeID 0;
                            DoInitStores [Sample.blank "a"];
                            DoExecuteCmd Sample.plain; DoConnectGossip]
                           (setClusterID n "c7"))
     = "c7".
Proof.
  intros n. split.
  - destruct (connectGossip_cluster n) as (Adopt & _).
    apply Adopt; reflexivity.
  - destruct (connectGossip_cluster (setClusterID n "c7"))
      as (_ & _ & Keeps & _).
    destruct Keeps as (_ & _ & All); [discriminate|].
    apply All.
Defined.

Example connectGossip_wrong_cluster :
  let n := setClusterID (Sample.node [] (mkDB 0 0 [] []) Sample.route) "c7" in
  connectGossip n = Halts n (FatalWrongCluster 0 "c7" "c9").
Proof. reflexivity. Qed.

(** C8 on a stopped node and a request without trace context. *)
Lemma executeCmd_stopped_witness :
  let n := Sample.stopped Sample.node5 in
  executeCmd Sample.plain n = Returns n (None, Some (ErrNodeStopped 5))
  /\ sent (stores (finalNode (executeCmd Sample.plain n))) = []
  /\ feed (finalNode (executeCmd Sample.plain n)) = [].
Proof.
  intros n.
  destruct (executeCmd_stopped Sample.plain n) as (_ & S & F & _ & P & _);
    [reflexivity|].
  split; [apply P; reflexivity|]. split; [exact S | exact F].
Defined.

(** C8 as stated fails: the stopper of the node is stopping, the trace
    context of the request cannot be joined, and executeCmd returns the
    error of the trace, not the "node stopped" error. *)
Lemma executeCmd_stopped_bad_trace :
  let n := Sample.stopped Sample.node5 in
  stopping (stopper n) = true
  /\ executeCmd Sample.badTrace n
     = Returns n (None, Some (ErrUnmarshalTrace
                                (ErrCollaborator "bad context")))
  /\ forall n' br id,
      executeCmd Sample.badTrace n
      <> Returns n' (br, Some (ErrNodeStopped id)).
Proof.
  intros n. split; [reflexivity|]. split; [reflexivity|].
  intros n' br id H. discriminate H.
Qed.

(** C9 on a routing layer that reports "outer" next to a response. *)
Lemma executeCmd_routing_error_witness :
  let n := Sample.node [] (mkDB 0 0 [] []) Sample.routeBoth in
  exists n',
    executeCmd Sample.plain n
    = Returns n' (Some (mkBatchResponse (Some "outer") [] []), None).
Proof.
  intros n.
  destruct (executeCmd_routing_error Sample.plain n NoopSpan)
    as (Reset & _); [reflexivity | reflexivity |].
  destruct (Reset "outer") as (_ & Plain); [reflexivity|].
  apply Plain. reflexivity.
Defined.

Example executeCmd_embedded_error_panics :
  let n := Sample.node [] (mkDB 0 0 [] []) Sample.routeEmbedded in
  exists n',
    executeCmd Sample.plain n
    = Halts n' (PanicErrorUnexpectedlySet
                  (mkBatchResponse (Some "inner") [] ["partial"])).
Proof. eexists. reflexivity. Qed.

(** C9 as stated fails: the routing layer returns a response that
    carries the error "inner" and reports the error "outer"; executeCmd
    does not halt, it returns the empty response with "outer". *)
Lemma executeCmd_distinct_errors_returned :
  let n := Sample.node [] (mkDB 0 0 [] []) Sample.routeBoth in
  let sr := router (stores n) Sample.plain in
  stopping (stopper n) = false
  /\ srError sr = Some "outer"
  /\ (exists b, srResponse sr = Some b /\ brError b = Some "inner")
  /\ "inner" <> "outer"
  /\ (exists n',
        executeCmd Sample.plain n
        = Returns n' (Some (mkBatchResponse (Some "outer") [] []), None))
  /\ forall n' h, executeCmd Sample.plain n <> Halts n' h.
Proof.
  intros n sr. split; [reflexivity|]. split; [reflexivity|].
  split; [eexists; split; reflexivity|]. split; [discriminate|].
  split; [eexists; reflexivity|]. intros n' h H. discriminate H.
Qed.

(** The first scenario of the specification: one blank engine and no
    resolver.  start bootstraps the cluster, adds the node as resolver
    and initialises the store of the engine on the second attempt. *)
Example start_bootstraps_cluster :
  let env :=
    mkStartEnv "tcp" "10.0.0.1:26257" "c9" Sample.initialValues
               (mkDB 0 0 [] [])
               (Ok (mkResolver (Ok (AddrUnresolved Sample.self))))
               1000 false in
  let n := NewNode (mkStoreContext (mkDB 1 1 [] []) (Sample.gossipOf []))
                   (mkStopper false [] []) (@rev Store) Sample.route in
  let o := start env [Sample.blank "a"] [] n in
  (exists n' engines, o = Returns n' (engines, None))
  /\ ClusterID (finalNode o) = "c9"
  /\ nodeID (finalNode o) = 1
  /\ map sIdent (storeMap (stores (finalNode o)))
     = [mkStoreIdent "c9" 1 1]
  /\ GetResolvers (nodeGossip (finalNode o))
     = [mkResolver (Ok (AddrUnresolved Sample.self))].
Proof. vm_compute. repeat split. do 2 eexists. reflexivity. Qed.

(** The second scenario: engine A carries an identity, engine B is
    blank, and there is a peer to join.  A gives the node its identity,
    B waits on the bootstraps list and gets the next store ID. *)
Example initStores_then_bootstrapStores :
  let n := Sample.node [mkResolver (Ok (AddrUnresolved Sample.peer))]
                       (mkDB 5 7 [] []) Sample.route in
  let n1 := finalNode
              (initStores [Sample.formatted "A" (mkStoreIdent "c9" 5 7);
                           Sample.blank "B"] n) in
  let n2 := finalNode (bootstrapStores [NewStore (Sample.blank "B")] n1) in
  asyncTasks (stopper n1) = [[NewStore (Sample.blank "B")]]
  /\ ClusterID n1 = "c9" /\ nodeID n1 = 5
  /\ map sIdent (storeMap (stores n2))
     = [mkStoreIdent "c9" 5 7; mkStoreIdent "c9" 5 8].
Proof. repeat split. Qed.

(** The guard of initNodeID is [o > 0]: a node ID below zero, which only
    an allocator whose counter is below zero hands out, does not count as
    set. *)
Example initNodeID_negative_not_set :
  let n0 := Sample.node [] (mkDB (-4) 0 [] []) Sample.route in
  let n1 := finalNode (initNodeID 0 n0) in
  nodeID n1 = -3 /\ nodeID (finalNode (initNodeID 7 n1)) = 7.
Proof. split; reflexivity. Qed.

(** * Further properties *)

(** ** The ID allocators, one after the other *)

Lemma allocateNodeID_ok (db db' : DB) (id : NodeID) :
  allocateNodeID db = (db', (id, None)) ->
  nodeIDCounter db' = wrap64 (nodeIDCounter db + 1)
  /\ storeIDCounter db' = storeIDCounter db
  /\ dbCalls db' = dbCalls db ++ [(NodeIDGenerator, 1)]
  /\ dbOutages db' = tl (dbOutages db)
  /\ id = toNodeID (nodeIDCounter db').
Proof.
  unfold allocateNodeID, Inc.
  destruct (dbOutages db) as [|[|] outages] eqn:E; simpl; intros H;
    inversion H; subst; clear H; simpl; repeat split; reflexivity.
Qed.

(** allocateNodeID never touches the counter of the store IDs, whether it
    succeeds or not. *)
Lemma allocateNodeID_storeIDCounter (db : DB) :
  storeIDCounter (fst (allocateNodeID db)) = storeIDCounter db.
Proof.
  unfold allocateNodeID, Inc.
  destruct (dbOutages db) as [|[|] outages]; reflexivity.
Qed.

(** X1: two calls of allocateNodeID that succeed one after the other
    return different node IDs: the second is the first plus one in the
    wrap-around arithmetic of the NodeID, and exactly the first plus one
    unless the first is the largest NodeID. *)
Theorem allocateNodeID_consecutive (db db1 db2 : DB) (a b : NodeID) :
  allocateNodeID db = (db1, (a, None)) ->
  allocateNodeID db1 = (db2, (b, None)) ->
  b = wrap32 (a + 1)
  /\ b <> a
  /\ (a <> max_int32 -> b = a + 1).
Proof.
  intros H1 H2.
  apply allocateNodeID_ok in H1. destruct H1 as (C1 & _ & _ & _ & A).
  apply allocateNodeID_ok in H2. destruct H2 as (C2 & _ & _ & _ & B).
  unfold toNodeID in A, B.
  assert (R : in_int32 a) by (rewrite A; apply in_int32_wrap32).
  assert (E : b = wrap32 (a + 1)).
  { rewrite B, C2, A, wrap32_wrap64, wrap32_add_l. reflexivity. }
  split; [exact E|]. split.
  - rewrite E. rewrite <- (wrap32_in_int32 a R) at 2.
    apply wrap32_succ_neq.
  - intros NM. rewrite E. apply wrap32_in_int32.
    unfold in_int32, min_int32, max_int32 in *. lia.
Qed.

Lemma allocateNodeID_consecutive_witness :
  let db := mkDB 4 9 [] [] in
  let r1 := allocateNodeID db in
  let r2 := allocateNodeID (fst r1) in
  snd r1 = (5, None) /\ snd r2 = (6, None)
  /\ 6 = wrap32 (5 + 1) /\ 6 <> 5 /\ (5 <> max_int32 -> 6 = 5 + 1).
Proof.
  intros db r1 r2.
  split; [reflexivity|]. split; [reflexivity|].
  apply (allocateNodeID_consecutive db (fst r1) (fst r2) 5 6); reflexivity.
Defined.

(** X2: a call of allocateNodeID between two successful calls of
    allocateStoreIDs takes nothing from the store IDs, whether it
    succeeds or fails: the second range still starts where the first
    ends, in the wrap-around arithmetic of the StoreID, and exactly
    there when the end of the first range is within the range of the
    StoreID. *)
Theorem allocateStoreIDs_interleaved
  (n1 n2 k m : Z) (db db1 db2 db3 : DB) (first second : StoreID)
  (node : NodeID * option Error) :
  allocateStoreIDs n1 k db = (db1, (first, None)) ->
  allocateNodeID db1 = (db2, node) ->
  allocateStoreIDs n2 m db2 = (db3, (second, None)) ->
  second = wrap32 (first + k)
  /\ (in_int32 (first + k) -> second = first + k).
Proof.
  intros H1 HN H2.
  apply allocateStoreIDs_ok in H1. destruct H1 as (C1 & _ & _ & _ & F1).
  apply allocateStoreIDs_ok in H2. destruct H2 as (C2 & _ & _ & _ & F2).
  pose proof (allocateNodeID_storeIDCounter db1) as K.
  rewrite HN in K. simpl in K.
  assert (S : second = wrap32 (first + k)).
  { rewrite F2, C2, K, F1, wrap32_add_l.
    replace (wrap64 (storeIDCounter db1 + m) - m + 1)
      with (wrap64 (storeIDCounter db1 + m) + (- m + 1)) by lia.
    rewrite wrap32_wrap64_add. f_equal. lia. }
  split; [exact S|]. intros R. rewrite S. apply wrap32_in_int32. exact R.
Qed.

Lemma allocateStoreIDs_interleaved_witness :
  let db := mkDB 1 9 [false; true] [] in
  let r1 := allocateStoreIDs 5 3 db in
  let rn := allocateNodeID (fst r1) in
  let r2 := allocateStoreIDs 5 2 (fst rn) in
  snd r1 = (10, None)
  /\ snd rn
     = (0, Some (ErrAllocateNodeID (ErrCollaborator "increment failed")))
  /\ snd r2 = (13, None)
  /\ 13 = wrap32 (10 + 3) /\ (in_int32 (10 + 3) -> 13 = 10 + 3).
Proof.
  intros db r1 rn r2.
  split; [reflexivity|]. split; [reflexivity|]. split; [reflexivity|].
  apply (allocateStoreIDs_interleaved 5 5 3 2 db (fst r1) (fst rn) (fst r2)
           10 13 (snd rn));
    reflexivity.
Defined.

(** ** bootstrapCluster when it fails *)

Ltac break_goal :=
  repeat match goal with
         | |- context [if ?b then _ else _] => destruct b
         | |- context [match ?x with _ => _ end] => destruct x
         end.

(** Whatever an iteration of the loop does, the engine keeps its name,
    its capacity and its behaviour. *)
Lemma bootstrapEngine_kept (cid : string) (iv : list KeyValue) (i : nat)
  (eng : Engine) (c : BootstrapCtx) :
  let eng' := fst (fst (bootstrapEngine cid iv i eng c)) in
  engName eng' = engName eng
  /\ engCapacity eng' = engCapacity eng
  /\ failStart eng' = failStart eng
  /\ failBootstrap eng' = failBootstrap eng
  /\ failBootstrapRange eng' = failBootstrapRange eng
  /\ failCapacity eng' = failCapacity eng.
Proof.
  unfold bootstrapEngine, NewStore, StoreBootstrap, StoreBootstrapRange,
    StoreStart, setEngine.
  destruct eng as [name ident data cap fs fb fr fc]; simpl.
  destruct ident as [id|]; simpl.
  - destruct (0 <? String.length (siClusterID id))%nat; simpl;
      [repeat split; reflexivity|].
    destruct fb; simpl; repeat split; reflexivity.
  - destruct fb; simpl; [repeat split; reflexivity|].
    destruct (i =? 0)%nat; simpl.
    + destruct fr; simpl; [repeat split; reflexivity|].
      destruct fs; simpl; [repeat split; reflexivity|].
      break_goal; simpl; repeat split; reflexivity.
    + destruct fs; simpl; [repeat split; reflexivity|].
      break_goal; simpl; repeat split; reflexivity.
Qed.

Lemma bootstrapEngines_names (cid : string) (iv : list KeyValue)
  (engines : list Engine) :
  forall i c,
    map engName (fst (fst (bootstrapEngines cid iv i engines c)))
    = map engName engines.
Proof.
  induction engines as [|eng rest IH]; simpl; intros i c; [reflexivity|].
  pose proof (bootstrapEngine_kept cid iv i eng c) as (N & _).
  destruct (bootstrapEngine cid iv i eng c) as [[eng1 c1] [e1|]]; simpl in *.
  - rewrite N. reflexivity.
  - specialize (IH (S i) c1).
    destruct (bootstrapEngines cid iv (S i) rest c1) as [[rest' c2] err'].
    simpl in *. rewrite N, IH. reflexivity.
Qed.

(** A loop that ends with an error has bootstrapped the engines before
    some index and has not touched the engines after it. *)
Lemma bootstrapEngines_failed (cid : string) (iv : list KeyValue)
  (engines : list Engine) :
  forall i0 c engines' c' err,
    bootstrapEngines cid iv i0 engines c = (engines', c', Some err) ->
    exists j,
      (j < List.length engines)%nat
      /\ (forall i e e',
             (i < j)%nat ->
             nth_error engines i = Some e ->
             nth_error engines' i = Some e' ->
             engIdent e = None
             /\ engIdent e'
                = Some (mkStoreIdent cid 1
                          (toStoreID (Z.of_nat (i0 + i) + 1))))
      /\ (forall i, (j < i)%nat ->
                    nth_error engines' i = nth_error engines i).
Proof.
  induction engines as [|eng rest IH]; simpl;
    intros i0 c engines' c' err H; [discriminate|].
  destruct (bootstrapEngine cid iv i0 eng c) as [[eng1 c1] [e1|]] eqn:E1.
  - inversion H; subst; clear H. exists 0%nat.
    split; [lia|]. split; [intros i e e' Hi; lia|].
    intros [|i] Hi; [lia|reflexivity].
  - destruct (bootstrapEngines cid iv (S i0) rest c1)
      as [[rest' c2] err'] eqn:E2.
    inversion H; subst; clear H.
    destruct (IH _ _ _ _ _ E2) as (j & Lt & Before & After).
    exists (S j). split; [lia|]. split.
    + intros [|i] e e' Hi He He'; simpl in *.
      * inversion He; inversion He'; subst.
        apply bootstrapEngine_ok in E1. rewrite Nat.add_0_r. tauto.
      * replace (i0 + S i)%nat with (S i0 + i)%nat by lia.
        apply (Before i e e'); auto; lia.
    + intros [|i] Hi; [lia|]. simpl. apply After. lia.
Qed.

(** The StoreID of an index below the largest StoreID is the index plus
    one. *)
Lemma toStoreID_index (i : nat) :
  Z.of_nat i < max_int32 -> toStoreID (Z.of_nat i + 1) = Z.of_nat i + 1.
Proof.
  intros H. unfold toStoreID. apply wrap32_in_int32.
  unfold in_int32, min_int32, max_int32 in *. lia.
Qed.

(** X3: when bootstrapCluster fails it returns no cluster ID and rolls
    nothing back: the engines keep their names, the engines before the
    one that failed carry the StoreIdent written into them, with index
    + 1 converted to roachpb.StoreID, the number itself below the
    largest StoreID, and the engines after it are as they were. *)
Theorem bootstrapCluster_no_rollback
  (uuid : string) (iv : list KeyValue) (db : DB)
  (engines engines' : list Engine) (cid : string) (err : Error) :
  bootstrapCluster uuid iv db engines = (engines', (cid, Some err)) ->
  cid = ""
  /\ map engName engines' = map engName engines
  /\ exists j,
      (j < List.length engines)%nat
      /\ (forall i e e',
             (i < j)%nat ->
             nth_error engines i = Some e ->
             nth_error engines' i = Some e' ->
             engIdent e = None
             /\ engIdent e'
                = Some (mkStoreIdent uuid 1 (toStoreID (Z.of_nat i + 1)))
             /\ (Z.of_nat i < max_int32 ->
                 engIdent e' = Some (mkStoreIdent uuid 1 (Z.of_nat i + 1))))
      /\ (forall i, (j < i)%nat ->
                    nth_error engines' i = nth_error engines i).
Proof.
  unfold bootstrapCluster. intros H.
  pose proof (bootstrapEngines_names uuid iv engines 0
                                     (mkBootstrapCtx db [])) as N.
  destruct (bootstrapEngines uuid iv 0 engines (mkBootstrapCtx db []))
    as [[es c] [e|]] eqn:E; inversion H; subst; clear H.
  split; [reflexivity|]. split; [exact N|].
  destruct (bootstrapEngines_failed _ _ _ _ _ _ _ _ E)
    as (j & Lt & Before & After).
  exists j. split; [exact Lt|]. split; [|exact After].
  intros i e0 e' Hi He He'.
  destruct (Before i e0 e' Hi He He') as (NI & I). cbn [Nat.add] in I.
  split; [exact NI|]. split; [exact I|].
  intros R. rewrite I, (toStoreID_index i R). reflexivity.
Qed.

(** On blank engines the loop succeeds and leaves the store ID counter
    at the next index. *)
Lemma bootstrapEngines_blank_ctx (cid : string) (iv : list KeyValue)
  (engines : list Engine) :
  forall i c,
    Forall blankEngine engines ->
    dbOutages (bcDB c) = [] ->
    storeIDCounter (bcDB c) = Z.of_nat i ->
    (i = 0%nat -> nodeIDCounter (bcDB c) = 0) ->
    Z.of_nat (i + List.length engines) <= max_int64 ->
    exists engines' c',
      bootstrapEngines cid iv i engines c = (engines', c', None)
      /\ dbOutages (bcDB c') = []
      /\ storeIDCounter (bcDB c') = Z.of_nat (i + List.length engines).
Proof.
  induction engines as [|eng rest IH]; simpl; intros i c HF HO HC HN HM.
  - exists [], c. rewrite Nat.add_0_r. auto.
  - inversion HF as [|? ? HB HF']; subst.
    destruct (bootstrapEngine_blank cid iv i eng c HB HO HC HN)
      as (eng' & c1 & E & HO1 & HC1); [lia|].
    rewrite E.
    destruct (IH (S i) c1 HF' HO1 HC1) as (rest' & c2 & E2 & HO2 & HC2);
      [discriminate | lia |].
    rewrite E2. do 2 eexists. split; [reflexivity|].
    split; [exact HO2|]. rewrite HC2. f_equal. lia.
Qed.

Lemma bootstrapEngines_app (cid : string) (iv : list KeyValue)
  (pre : list Engine) :
  forall i c pre' c' l,
    bootstrapEngines cid iv i pre c = (pre', c', None) ->
    bootstrapEngines cid iv i (pre ++ l) c
    = (let '(l', c'', err) :=
         bootstrapEngines cid iv (i + List.length pre) l c' in
       (pre' ++ l', c'', err)).
Proof.
  induction pre as [|eng rest IH]; simpl; intros i c pre' c' l H.
  - inversion H; subst. rewrite Nat.add_0_r.
    destruct (bootstrapEngines cid iv i l c') as [[l' c''] err].
    reflexivity.
  - destruct (bootstrapEngine cid iv i eng c) as [[eng1 c1] [e1|]];
      [discriminate|].
    destruct (bootstrapEngines cid iv (S i) rest c1)
      as [[rest' c2] err'] eqn:E2.
    inversion H; subst; clear H.
    rewrite (IH _ _ _ _ l E2).
    replace (S i + List.length rest)%nat
      with (i + S (List.length rest))%nat by lia.
    destruct (bootstrapEngines cid iv (i + S (List.length rest)) l c')
      as [[l' c''] err]. reflexivity.
Qed.

Lemma nonempty_length (s : string) :
  s <> "" -> (0 <? String.length s)%nat = true.
Proof. destruct s; [contradiction|reflexivity]. Qed.

(** X4: bootstrapCluster refuses an engine that already carries a
    cluster ID: the blank engines before it are bootstrapped, with index
    + 1 converted to roachpb.StoreID (the number itself below the
    largest StoreID), the call fails with the error that names the
    cluster, and the engine and those after it are not written. *)
Theorem bootstrapCluster_refuses_member
  (uuid : string) (iv : list KeyValue) (calls : list (Key * Z))
  (pre post : list Engine) (e : Engine) (id : StoreIdent) :
  Forall blankEngine pre ->
  Z.of_nat (List.length pre) <= max_int64 ->
  engIdent e = Some id ->
  siClusterID id <> "" ->
  exists pre',
    bootstrapCluster uuid iv (mkDB 0 0 [] calls) (pre ++ e :: post)
    = (pre' ++ e :: post,
       ("", Some (ErrAlreadyInCluster (siClusterID id))))
    /\ List.length pre' = List.length pre
    /\ forall i e',
        nth_error pre' i = Some e' ->
        engIdent e' = Some (mkStoreIdent uuid 1 (toStoreID (Z.of_nat i + 1)))
        /\ (Z.of_nat i < max_int32 ->
            engIdent e' = Some (mkStoreIdent uuid 1 (Z.of_nat i + 1))).
Proof.
  intros HF HM HI HC.
  destruct (bootstrapEngines_blank_ctx uuid iv pre 0
              (mkBootstrapCtx (mkDB 0 0 [] calls) []) HF)
    as (pre' & c' & E & _ & _); simpl; auto.
  exists pre'. unfold bootstrapCluster.
  rewrite (bootstrapEngines_app _ _ _ _ _ _ _ (e :: post) E). simpl.
  unfold bootstrapEngine at 1, NewStore. rewrite HI. cbn [sIdent].
  rewrite (nonempty_length _ HC).
  pose proof (bootstrapEngines_length _ _ _ _ _ _ _ _ E) as L.
  split; [reflexivity|]. split; [exact L|].
  intros i e' Hi.
  assert (Lt : (i < List.length pre)%nat).
  { rewrite <- L. apply nth_error_Some. congruence. }
  destruct (nth_error pre i) as [e0|] eqn:E0;
    [|apply nth_error_None in E0; lia].
  destruct (bootstrapEngines_ok _ _ _ _ _ _ _ E i e0 E0)
    as (e1 & N & _ & I & _).
  rewrite Hi in N. inversion N; subst. cbn [Nat.add] in I.
  split; [exact I|].
  intros R. rewrite I, (toStoreID_index i R). reflexivity.
Qed.

Lemma bootstrapCluster_refuses_member_witness :
  exists pre',
    bootstrapCluster "c1" Sample.initialValues (mkDB 0 0 [] [])
      ([Sample.blank "a"]
       ++ Sample.formatted "b" (mkStoreIdent "c0" 4 2)
       :: [Sample.blank "c"])
    = (pre' ++ Sample.formatted "b" (mkStoreIdent "c0" 4 2)
            :: [Sample.blank "c"],
       ("", Some (ErrAlreadyInCluster "c0")))
    /\ List.length pre' = 1%nat
    /\ forall i e',
        nth_error pre' i = Some e' ->
        engIdent e'
        = Some (mkStoreIdent "c1" 1 (toStoreID (Z.of_nat i + 1)))
        /\ (Z.of_nat i < max_int32 ->
            engIdent e' = Some (mkStoreIdent "c1" 1 (Z.of_nat i + 1))).
Proof.
  apply (bootstrapCluster_refuses_member
           "c1" Sample.initialValues [] [Sample.blank "a"]
           [Sample.blank "c"]
           (Sample.formatted "b" (mkStoreIdent "c0" 4 2))
           (mkStoreIdent "c0" 4 2)).
  - repeat constructor.
  - vm_compute. discriminate.
  - reflexivity.
  - discriminate.
Defined.

Lemma bootstrapCluster_no_rollback_witness :
  let engines := [Sample.blank "a";
                  Sample.formatted "b" (mkStoreIdent "c0" 4 2);
                  Sample.blank "c"] in
  let r := bootstrapCluster "c1" Sample.initialValues (mkDB 0 0 [] [])
                            engines in
  map engName (fst r) = ["a"; "b"; "c"]
  /\ exists j,
      (j < 3)%nat
      /\ (forall i e e',
             (i < j)%nat ->
             nth_error engines i = Some e ->
             nth_error (fst r) i = Some e' ->
             engIdent e = None
             /\ engIdent e'
                = Some (mkStoreIdent "c1" 1 (toStoreID (Z.of_nat i + 1)))
             /\ (Z.of_nat i < max_int32 ->
                 engIdent e' = Some (mkStoreIdent "c1" 1 (Z.of_nat i + 1))))
      /\ (forall i, (j < i)%nat ->
                    nth_error (fst r) i = nth_error engines i).
Proof.
  intros engines r.
  destruct (bootstrapCluster_no_rollback
              "c1" Sample.initialValues (mkDB 0 0 [] []) engines (fst r)
              "" (ErrAlreadyInCluster "c0")) as (_ & N & J);
    [vm_compute; reflexivity|].
  split; [exact N | exact J].
Defined.

Lemma wrap32_succ_neq_1 (x : Z) : in_int32 x -> x <> 0 -> wrap32 (x + 1) <> 1.
Proof.
  unfold in_int32, min_int32, max_int32. intros H N.
  destruct (Z.eq_dec x (2 ^ 31 - 1)) as [E|E].
  - subst x. vm_compute. discriminate.
  - rewrite wrap32_in_int32
      by (unfold in_int32, min_int32, max_int32; lia). lia.
Qed.

(** X5: bootstrapCluster checks the allocators against the IDs it wrote,
    as IDs: the value of the counter after the increment is converted to
    the ID type before it is compared with 1.  When the incremented node
    ID counter does not convert to 1 -- as with every counter within the
    range of the NodeID other than 0 -- the call fails with the error of
    the node ID allocator; when it does and the incremented store ID
    counter does not convert to 1, with the error of the store ID
    allocator; in both cases the first engine keeps the StoreIdent that
    was already written and the other engines are not touched.  When
    both convert to 1, also from counters that are not at 0, the single
    engine is bootstrapped and the cluster is created. *)
Theorem bootstrapCluster_checks_allocator
  (uuid : string) (iv : list KeyValue) (db : DB) (e : Engine)
  (rest : list Engine) :
  blankEngine e ->
  dbOutages db = [] ->
  (toNodeID (nodeIDCounter db + 1) <> 1 ->
   exists e',
     bootstrapCluster uuid iv db (e :: rest)
     = (e' :: rest,
        ("", Some (ErrNodeIDAllocator
                     1 (toNodeID (nodeIDCounter db + 1)) None)))
     /\ engIdent e' = Some (mkStoreIdent uuid 1 1))
  /\ (toNodeID (nodeIDCounter db + 1) = 1 ->
      toStoreID (storeIDCounter db + 1) <> 1 ->
      exists e',
        bootstrapCluster uuid iv db (e :: rest)
        = (e' :: rest,
           ("", Some (ErrStoreIDAllocator
                        1 (toStoreID (storeIDCounter db + 1)) None)))
        /\ engIdent e' = Some (mkStoreIdent uuid 1 1))
  /\ (toNodeID (nodeIDCounter db + 1) = 1 ->
      toStoreID (storeIDCounter db + 1) = 1 ->
      exists e',
        bootstrapCluster uuid iv db [e] = ([e'], (uuid, None))
        /\ engIdent e' = Some (mkStoreIdent uuid 1 1))
  /\ (in_int32 (nodeIDCounter db) -> nodeIDCounter db <> 0 ->
      toNodeID (nodeIDCounter db + 1) <> 1)
  /\ (in_int32 (storeIDCounter db) -> storeIDCounter db <> 0 ->
      toStoreID (storeIDCounter db + 1) <> 1).
Proof.
  intros (HI & _ & HS & HB & HR) HO.
  destruct e as [name ident data cap fs fb fr fc]; simpl in *.
  subst ident fs fb fr.
  destruct db as [nc sc outs calls]; simpl in *. subst outs.
  assert (EN : toNodeID (wrap64 (nc + 1)) = toNodeID (nc + 1))
    by apply wrap32_wrap64.
  assert (ES : toStoreID (wrap64 (wrap64 (wrap64 (sc + 1) - 1) + 1))
               = toStoreID (sc + 1)).
  { unfold toStoreID. rewrite wrap32_wrap64, wrap32_wrap64_add.
    replace (wrap64 (sc + 1) - 1 + 1) with (wrap64 (sc + 1)) by lia.
    apply wrap32_wrap64. }
  assert (E1 : toStoreID (Z.of_nat 0 + 1) = 1) by reflexivity.
  unfold bootstrapCluster. cbn [bootstrapEngines].
  unfold bootstrapEngine, NewStore, StoreBootstrap, StoreBootstrapRange,
    StoreStart, setEngine, allocateNodeID, allocateStoreIDs, Inc.
  cbn [engIdent sIdent siClusterID zeroIdent String.length Nat.ltb Nat.leb
       sEngine failBootstrap failBootstrapRange failStart Nat.eqb
       dbOutages bcDB counter nodeIDCounter storeIDCounter setCounter
       siNodeID siStoreID bcStores engName engData engCapacity
       failCapacity dbCalls tl].
  rewrite EN, E1.
  split; [|split; [|split; [|split]]].
  - intros NZ. apply Z.eqb_neq in NZ. rewrite NZ. cbn [negb orb].
    eexists. split; reflexivity.
  - intros N1 NZ. rewrite N1. apply Z.eqb_neq in NZ.
    cbn [negb orb Z.eqb Pos.eqb bcDB bcStores dbOutages counter
         nodeIDCounter storeIDCounter setCounter dbCalls tl].
    rewrite ES, NZ. cbn [negb orb]. eexists. split; reflexivity.
  - intros N1 S1. rewrite N1.
    cbn [negb orb Z.eqb Pos.eqb bcDB bcStores dbOutages counter
         nodeIDCounter storeIDCounter setCounter dbCalls tl].
    rewrite ES, S1. cbn [negb orb Z.eqb Pos.eqb].
    eexists. split; reflexivity.
  - intros R NZ. apply wrap32_succ_neq_1; assumption.
  - intros R NZ. apply wrap32_succ_neq_1; assumption.
Qed.

Lemma bootstrapCluster_checks_allocator_witness :
  (exists e',
      bootstrapCluster "c1" Sample.initialValues (mkDB 3 0 [] [])
                       [Sample.blank "a"; Sample.blank "b"]
      = ([e'; Sample.blank "b"],
         ("", Some (ErrNodeIDAllocator 1 (toNodeID (3 + 1)) None)))
      /\ engIdent e' = Some (mkStoreIdent "c1" 1 1))
  /\ (exists e',
        bootstrapCluster "c1" Sample.initialValues
                         (mkDB 4294967296 0 [] []) [Sample.blank "a"]
        = ([e'], ("c1", None))
        /\ engIdent e' = Some (mkStoreIdent "c1" 1 1)).
Proof.
  split.
  - destruct (bootstrapCluster_checks_allocator
                "c1" Sample.initialValues (mkDB 3 0 [] [])
                (Sample.blank "a") [Sample.blank "b"]) as (Node & _).
    + repeat split.
    + reflexivity.
    + apply Node. vm_compute. discriminate.
  - destruct (bootstrapCluster_checks_allocator
                "c1" Sample.initialValues (mkDB 4294967296 0 [] [])
                (Sample.blank "a") []) as (_ & _ & Created & _).
    + repeat split.
    + reflexivity.
    + apply Created; reflexivity.
Defined.

(** ** initNodeID when it returns *)

(** X6: whenever initNodeID returns, the node has a NodeID other than 0,
    and its cluster ID and its stores are untouched.  On a node that had
    a positive NodeID nothing changed at all; otherwise the descriptor
    that gossip holds is the descriptor of the node with the new NodeID:
    the given ID, stored without a call of the allocator, or for 0 the
    value of the node ID counter converted to NodeID, which is also
    handed to gossip; that is the value of the counter itself when it is
    within the range of the NodeID. *)
Theorem initNodeID_returned (id : NodeID) (n n' : Node) :
  initNodeID id n = Returns n' tt ->
  nodeID n' <> 0
  /\ ClusterID n' = ClusterID n
  /\ stores n' = stores n
  /\ (0 < nodeID n -> n' = n)
  /\ (nodeID n <= 0 ->
      gDescriptor (nodeGossip n') = Some (Descriptor n')
      /\ (id <> 0 -> nodeID n' = id /\ nodeDB n' = nodeDB n)
      /\ (id = 0 ->
          gNodeID (nodeGossip n') = nodeID n'
          /\ nodeID n' = toNodeID (nodeIDCounter (nodeDB n'))
          /\ (in_int32 (nodeIDCounter (nodeDB n')) ->
              nodeID n' = nodeIDCounter (nodeDB n')))).
Proof.
  unfold initNodeID, storeNodeID, SetNodeDescriptor, allocateNodeID, Inc,
    toNodeID.
  destruct (id <? 0) eqn:Neg; [discriminate|].
  apply Z.ltb_ge in Neg.
  destruct (0 <? nodeID n) eqn:Pos.
  - apply Z.ltb_lt in Pos.
    destruct (id =? 0) eqn:Z0; [|discriminate].
    intros H; inversion H; subst. repeat split; auto; lia.
  - apply Z.ltb_ge in Pos.
    destruct (id =? 0) eqn:Z0.
    + apply Z.eqb_eq in Z0. subst id.
      destruct (dbOutages (nodeDB n)) as [|[|] outs]; simpl;
        try discriminate;
        destruct (wrap32 (wrap64 (nodeIDCounter (nodeDB n) + 1)) =? 0) eqn:W;
        try discriminate; apply Z.eqb_neq in W;
        unfold nodeGossip; simpl;
        destruct (failSetNodeDescriptor (ctxGossip (ctx n)));
        try discriminate;
        intros H; inversion H; subst; clear H; simpl;
        (repeat split; auto; try lia; try (intros; exfalso; lia);
         try (intros R; apply wrap32_in_int32; exact R)).
    + apply Z.eqb_neq in Z0.
      unfold nodeGossip; simpl.
      destruct (failSetNodeDescriptor (ctxGossip (ctx n)));
        try discriminate.
      intros H; inversion H; subst; clear H; simpl.
      repeat split; auto; try lia; try (intros; exfalso; lia).
Qed.


Lemma initNodeID_returned_witness :
  let n := Sample.node [] (mkDB 5 7 [] []) Sample.route in
  let n' := finalNode (initNodeID 0 n) in
  nodeID n' = 6
  /\ gNodeID (nodeGossip n') = 6
  /\ gDescriptor (nodeGossip n') = Some (Descriptor n').
Proof.
  intros n n'.
  destruct (initNodeID_returned 0 n n')
    as (_ & _ & _ & _ & Unset); [reflexivity|].
  destruct Unset as (D & _ & Alloc); [vm_compute; discriminate|].
  destruct (Alloc eq_refl) as (G & _).
  split; [reflexivity|]. split; [reflexivity | exact D].
Defined.

(** The conversion to roachpb.NodeID shows at the ends of its range:
    from a counter at 2147483647 the node gets the NodeID -2147483648,
    and from a counter at 4294967295 the allocator's 4294967296 converts
    to 0, which is fatal. *)
Example initNodeID_narrows :
  let node := fun c => Sample.node [] (mkDB c 0 [] []) Sample.route in
  (exists n',
      initNodeID 0 (node 2147483647) = Returns n' tt
      /\ nodeID n' = -2147483648
      /\ nodeIDCounter (nodeDB n') = 2147483648)
  /\ (exists n',
        initNodeID 0 (node 4294967295) = Halts n' FatalIllegalNodeID
        /\ nodeIDCounter (nodeDB n') = 4294967296).
Proof.
  split; eexists; (split; [reflexivity|]); repeat split.
Qed.

(** X7: initNodeID asks the allocator for a node ID only when it is
    called with 0 on a node whose NodeID is not positive, and then
    once; in every other case, and however the call ends, the key/value
    client sees no call. *)
Theorem initNodeID_allocator_calls (id : NodeID) (n : Node) :
  dbCalls (nodeDB (finalNode (initNodeID id n)))
  = dbCalls (nodeDB n)
    ++ (if (id =? 0) && (nodeID n <=? 0) then [(NodeIDGenerator, 1)]
        else []).
Proof.
  unfold initNodeID, storeNodeID, SetNodeDescriptor, allocateNodeID, Inc,
    toNodeID.
  destruct (id <? 0) eqn:Neg.
  { apply Z.ltb_lt in Neg.
    replace (id =? 0) with false by (symmetry; apply Z.eqb_neq; lia).
    simpl. rewrite app_nil_r. reflexivity. }
  destruct (0 <? nodeID n) eqn:Pos.
  { apply Z.ltb_lt in Pos.
    replace (nodeID n <=? 0) with false by (symmetry; apply Z.leb_gt; lia).
    rewrite andb_false_r, app_nil_r. destruct (id =? 0); reflexivity. }
  apply Z.ltb_ge in Pos.
  replace (nodeID n <=? 0) with true by (symmetry; apply Z.leb_le; lia).
  rewrite andb_true_r.
  destruct (id =? 0) eqn:Z0.
  - destruct (dbOutages (nodeDB n)) as [|[|] outs]; simpl;
      try reflexivity;
      destruct (wrap32 (wrap64 (nodeIDCounter (nodeDB n) + 1)) =? 0);
      try reflexivity; unfold nodeGossip; simpl;
      destruct (failSetNodeDescriptor (ctxGossip (ctx n))); reflexivity.
  - unfold nodeGossip; simpl. rewrite app_nil_r.
    destruct (failSetNodeDescriptor (ctxGossip (ctx n))); reflexivity.
Qed.

(** What the other functions need of a call of initNodeID that
    returns. *)
Lemma initNodeID_returns_basic (id : NodeID) (n n' : Node) :
  initNodeID id n = Returns n' tt ->
  nodeID n' <> 0
  /\ ClusterID n' = ClusterID n
  /\ stores n' = stores n
  /\ stopper n' = stopper n
  /\ feed n' = feed n
  /\ gossipKept (nodeGossip n) (nodeGossip n')
  /\ (id <> 0 -> nodeID n' = id /\ nodeDB n' = nodeDB n).
Proof.
  unfold initNodeID, storeNodeID, SetNodeDescriptor, allocateNodeID, Inc,
    toNodeID, gossipKept.
  destruct (id <? 0) eqn:Neg; [discriminate|].
  destruct (0 <? nodeID n) eqn:Pos.
  - apply Z.ltb_lt in Pos.
    destruct (id =? 0) eqn:Z0; [|discriminate]. apply Z.eqb_eq in Z0.
    intros H; inversion H; subst. repeat split; auto; try lia;
      intros; exfalso; lia.
  - destruct (id =? 0) eqn:Z0.
    + apply Z.eqb_eq in Z0. subst id.
      destruct (dbOutages (nodeDB n)) as [|[|] outs]; simpl;
        try discriminate;
        destruct (wrap32 (wrap64 (nodeIDCounter (nodeDB n) + 1)) =? 0) eqn:W;
        try discriminate; apply Z.eqb_neq in W;
        unfold nodeGossip; simpl;
        destruct (failSetNodeDescriptor (ctxGossip (ctx n))) eqn:FD;
        try discriminate;
        intros H; inversion H; subst; clear H; simpl;
        (repeat split; auto; intros; exfalso; lia).
    + apply Z.eqb_neq in Z0. unfold nodeGossip; simpl.
      destruct (failSetNodeDescriptor (ctxGossip (ctx n))) eqn:FD;
        try discriminate.
      intros H; inversion H; subst; clear H; simpl.
      repeat split; auto.
Qed.

(** ** validateStores on a node that has its identity *)

Lemma validateStore_first_returns (s0 : Store) (n n0 : Node)
  (err : option Error) :
  ClusterID n = "" ->
  siNodeID (sIdent s0) <> 0 ->
  validateStore s0 n = Returns n0 err ->
  err = None
  /\ ClusterID n0 = siClusterID (sIdent s0)
  /\ nodeID n0 = siNodeID (sIdent s0)
  /\ stores n0 = stores n
  /\ nodeDB n0 = nodeDB n
  /\ stopper n0 = stopper n
  /\ gossipKept (nodeGossip n) (nodeGossip n0).
Proof.
  intros HC NZ. unfold validateStore. rewrite HC. simpl.
  destruct (initNodeID (siNodeID (sIdent s0))
                       (setClusterID n (siClusterID (sIdent s0))))
    as [n1 []|n1 h|n1] eqn:E; simpl; try discriminate.
  intros H; inversion H; subst; clear H.
  destruct (initNodeID_returns_basic _ _ _ E)
    as (_ & C & S & St & _ & G & Given).
  destruct (Given NZ) as (I & D). repeat split; auto; apply G.
Qed.

Lemma VisitStores_success (order : list Store) (n n1 : Node) :
  ClusterID n <> "" ->
  VisitStores validateStore order n = Returns n1 None ->
  n1 = n /\ Forall (matchesNode n) order.
Proof.
  intros HC. pose proof HC as HE. apply String.eqb_neq in HE.
  induction order as [|s rest IH]; simpl; intros H.
  - inversion H; auto.
  - unfold validateStore at 1 in H. rewrite HE in H.
    destruct (ClusterID n =? siClusterID (sIdent s))%string eqn:EC;
      simpl in H; [|discriminate].
    destruct (nodeID n =? siNodeID (sIdent s)) eqn:EN; simpl in H;
      [|discriminate].
    apply String.eqb_eq in EC. apply Z.eqb_eq in EN.
    destruct (IH H) as (E & F). split; [exact E|].
    constructor; [split; congruence | exact F].
Qed.

Lemma VisitStores_all_match (order : list Store) (n : Node) :
  ClusterID n <> "" ->
  Forall (matchesNode n) order ->
  VisitStores validateStore order n = Returns n None.
Proof.
  intros HC HF. apply String.eqb_neq in HC.
  induction HF as [|s rest (AC & AN) _ IH]; simpl; [reflexivity|].
  unfold validateStore. rewrite HC, AC, AN.
  rewrite String.eqb_refl, Z.eqb_refl. simpl. exact IH.
Qed.

(** X8: on stores with a complete StoreIdent, a validateStores that
    succeeded can be repeated: the second call succeeds too and leaves
    the node as the first call left it. *)
Theorem validateStores_repeatable (n n1 : Node) :
  Forall identifiedStore (iterOrder (stores n) (storeMap (stores n))) ->
  validateStores n = Returns n1 None ->
  stores n1 = stores n
  /\ validateStores n1 = Returns n1 None.
Proof.
  unfold validateStores. intros HI H.
  destruct (String.eqb_spec (ClusterID n) "") as [HC|HC].
  - destruct (iterOrder (stores n) (storeMap (stores n)))
      as [|s0 rest] eqn:O; simpl in H.
    + inversion H; subst. rewrite O. auto.
    + inversion HI as [|? ? (C0 & N0) _]; subst.
      destruct (validateStore s0 n) as [n0 err|n0 h|n0] eqn:V;
        simpl in H; try discriminate.
      destruct (validateStore_first_returns s0 n n0 err HC N0 V)
        as (-> & C & N & S & _).
      assert (HE : ClusterID n0 <> "") by congruence.
      destruct (VisitStores_success rest n0 n1 HE H) as (-> & F).
      split; [exact S|]. rewrite S, O.
      apply VisitStores_all_match; [exact HE|].
      constructor; [split; congruence | exact F].
  - destruct (VisitStores_success _ n n1 HC H) as (-> & F). auto.
Qed.

Lemma validateStores_repeatable_witness :
  let n := setStores (Sample.node [] (mkDB 5 9 [] []) Sample.route)
             (mkStores [Sample.started "A" (mkStoreIdent "c9" 5 7);
                        Sample.started "B" (mkStoreIdent "c9" 5 8)]
                       (@rev Store) Sample.route []) in
  let n1 := finalNode (validateStores n) in
  ClusterID n1 = "c9" /\ nodeID n1 = 5
  /\ validateStores n1 = Returns n1 None.
Proof.
  intros n n1.
  destruct (validateStores_repeatable n n1) as (_ & Again).
  - repeat constructor; discriminate.
  - reflexivity.
  - split; [reflexivity|]. split; [reflexivity | exact Again].
Defined.

(** X9: on a node that has a cluster ID validateStores changes nothing;
    it succeeds exactly when every store of the registry carries the
    cluster ID and the node ID of the node. *)
Theorem validateStores_identified_node (n : Node) :
  ClusterID n <> "" ->
  Permutation (iterOrder (stores n) (storeMap (stores n)))
              (storeMap (stores n)) ->
  (exists err, validateStores n = Returns n err)
  /\ (validateStores n = Returns n None
      <-> forall s, In s (storeMap (stores n)) -> matchesNode n s).
Proof.
  intros HC HP. unfold validateStores.
  split; [apply VisitStores_set; exact HC|]. split.
  - intros H s Hs.
    destruct (VisitStores_success _ n n HC H) as (_ & F).
    rewrite Forall_forall in F. apply F.
    apply (Permutation_in s (Permutation_sym HP)). exact Hs.
  - intros H. apply VisitStores_all_match; [exact HC|].
    apply Forall_forall. intros s Hs. apply H.
    apply (Permutation_in s HP). exact Hs.
Qed.

Lemma validateStores_identified_node_witness :
  let n := setNodeID (setClusterID Sample.mixed "c9") 5 in
  (exists err, validateStores n = Returns n err)
  /\ validateStores n <> Returns n None.
Proof.
  intros n.
  destruct (validateStores_identified_node n) as (Same & Iff).
  - discriminate.
  - apply Permutation_sym, Permutation_rev.
  - split; [exact Same|]. intros H.
    destruct (proj1 Iff H (Sample.started "C" (mkStoreIdent "c7" 5 9)))
      as (C & _).
    + right. right. left. reflexivity.
    + discriminate C.
Defined.

(** ** connectGossip when it returns *)

(** X10: connectGossip returns exactly when gossip gets connected, gives
    a cluster ID, and the node has no cluster ID or has that one.  When
    it returns, the cluster ID of the node is the one of gossip, nothing
    else of the node has changed, and a second call returns at once with
    the node unchanged. *)
Theorem connectGossip_returns (n : Node) :
  ((exists n1, connectGossip n = Returns n1 tt)
   <-> gConnected (nodeGossip n) = true
       /\ exists gid,
           GetInfo (nodeGossip n) = Ok gid
           /\ (ClusterID n = "" \/ ClusterID n = gid))
  /\ forall n1,
      connectGossip n = Returns n1 tt ->
      GetInfo (nodeGossip n1) = Ok (ClusterID n1)
      /\ n1 = setClusterID n (ClusterID n1)
      /\ connectGossip n1 = Returns n1 tt.
Proof.
  unfold connectGossip. split.
  - split.
    + intros (n1 & H).
      destruct (gConnected (nodeGossip n)); simpl in H; [|discriminate].
      split; [reflexivity|].
      destruct (GetInfo (nodeGossip n)) as [gid|e]; [|discriminate].
      exists gid. split; [reflexivity|].
      destruct (String.eqb_spec (ClusterID n) "") as [E|E]; [auto|].
      destruct (String.eqb_spec (ClusterID n) gid) as [G|G]; [auto|].
      discriminate.
    + intros (HG & gid & HI & HC). rewrite HG, HI. simpl.
      destruct (String.eqb_spec (ClusterID n) "") as [E|E];
        [eexists; reflexivity|].
      destruct HC as [HC|HC]; [contradiction|].
      rewrite HC, String.eqb_refl. simpl. eexists; reflexivity.
  - intros n1 H.
    destruct (gConnected (nodeGossip n)) eqn:HG; simpl in H;
      [|discriminate].
    destruct (GetInfo (nodeGossip n)) as [gid|e] eqn:HI; [|discriminate].
    destruct (String.eqb_spec (ClusterID n) "") as [E|E].
    + inversion H; subst; clear H. unfold nodeGossip in *. simpl.
      rewrite HG, HI. simpl. split; [reflexivity|]. split; [reflexivity|].
      destruct (String.eqb_spec gid "") as [G|G].
      * subst gid. destruct n; reflexivity.
      * rewrite String.eqb_refl. reflexivity.
    + destruct (String.eqb_spec (ClusterID n) gid) as [G|G];
        simpl in H; [|discriminate].
      inversion H; subst n1; clear H. rewrite HG, HI. simpl.
      split; [congruence|]. split; [destruct n; reflexivity|].
      apply String.eqb_neq in E. rewrite E.
      rewrite G, String.eqb_refl. reflexivity.
Qed.

Lemma connectGossip_returns_witness :
  let n := Sample.node [] (mkDB 0 0 [] []) Sample.route in
  connectGossip n = Returns (setClusterID n "c9") tt
  /\ connectGossip (setClusterID n "c9")
     = Returns (setClusterID n "c9") tt.
Proof.
  intros n.
  destruct (connectGossip_returns n) as (_ & After).
  destruct (After (setClusterID n "c9") eq_refl) as (_ & _ & Again).
  split; [reflexivity | exact Again].
Defined.

(** ** bootstrapStores, store by store *)

(** What the loop of bootstrapStores has done when it stops, for
    whatever reason: the stores it added to the registry are the stores
    it gossiped, each one started and carrying the persisted StoreIdent
    it was given. *)
Lemma bootstrapPending_added (bootstraps : list Store) :
  forall ident n,
    let n' := finalNode (bootstrapPending bootstraps ident n) in
    exists added,
      storeMap (stores n') = storeMap (stores n) ++ added
      /\ gStores (nodeGossip n')
         = gStores (nodeGossip n) ++ map sIdent added
      /\ (List.length added <= List.length bootstraps)%nat
      /\ Forall (fun s => sStarted s = true
                          /\ engIdent (sEngine s) = Some (sIdent s)
                          /\ siClusterID (sIdent s) = siClusterID ident
                          /\ siNodeID (sIdent s) = siNodeID ident) added.
Proof.
  induction bootstraps as [|s rest IH]; simpl; intros ident n.
  - exists []. simpl. rewrite !app_nil_r. auto.
  - unfold StoreBootstrap.
    destruct (failBootstrap (sEngine s)); simpl.
    { exists []. simpl. rewrite !app_nil_r. repeat split; auto; lia. }
    destruct (engIdent (sEngine s)); simpl.
    { exists []. simpl. rewrite !app_nil_r. repeat split; auto; lia. }
    unfold StoreStart; simpl.
    destruct (failStart (sEngine s)); simpl.
    { exists []. simpl. rewrite !app_nil_r. repeat split; auto; lia. }
    match goal with
    | |- context [bootstrapPending rest ?i ?m] =>
        destruct (IH i m) as (added & M & G & L & F)
    end.
    match goal with
    | |- context [AddStore _ ?x] => exists (x :: added)
    end.
    simpl in M, G |- *. rewrite M, G. rewrite <- !app_assoc. simpl.
    split; [reflexivity|]. split; [reflexivity|]. split; [lia|].
    constructor; [simpl; auto | exact F].
Qed.

(** X11: however bootstrapStores ends, the stores it has added to the
    registry are exactly the stores it has gossiped, in the same order;
    each of them is started and carries, persisted in its engine, a
    StoreIdent with the cluster ID and the node ID of the node. *)
Theorem bootstrapStores_gossips_registered (bootstraps : list Store)
  (n : Node) :
  let n' := finalNode (bootstrapStores bootstraps n) in
  exists added,
    storeMap (stores n') = storeMap (stores n) ++ added
    /\ gStores (nodeGossip n') = gStores (nodeGossip n) ++ map sIdent added
    /\ (List.length added <= List.length bootstraps)%nat
    /\ Forall (fun s => sStarted s = true
                        /\ engIdent (sEngine s) = Some (sIdent s)
                        /\ siClusterID (sIdent s) = ClusterID n
                        /\ siNodeID (sIdent s) = nodeID n) added.
Proof.
  unfold bootstrapStores.
  destruct (ClusterID n =? "")%string; simpl.
  { exists []. simpl. rewrite !app_nil_r. repeat split; auto; lia. }
  destruct (allocateStoreIDs _ _ _) as [db [first [e|]]]; simpl.
  { exists []. simpl. rewrite !app_nil_r. repeat split; auto; lia. }
  match goal with
  | |- context [bootstrapPending bootstraps ?i ?m] =>
      destruct (bootstrapPending_added bootstraps i m)
        as (added & M & G & L & F)
  end.
  exists added. simpl in M, G, F. auto.
Qed.

(** A loop that returns found every store pending. *)
Lemma bootstrapPending_returns (bootstraps : list Store) :
  forall ident n n',
    bootstrapPending bootstraps ident n = Returns n' tt ->
    Forall pendingStore bootstraps
    /\ List.length (storeMap (stores n'))
       = (List.length (storeMap (stores n)) + List.length bootstraps)%nat.
Proof.
  induction bootstraps as [|s rest IH]; simpl; intros ident n n' H.
  - inversion H; subst. split; [constructor | lia].
  - unfold StoreBootstrap in H.
    destruct (failBootstrap (sEngine s)) eqn:FB; simpl in H;
      [discriminate|].
    destruct (engIdent (sEngine s)) eqn:EI; simpl in H; [discriminate|].
    unfold StoreStart in H; simpl in H.
    destruct (failStart (sEngine s)) eqn:FS; simpl in H; [discriminate|].
    apply IH in H. destruct H as (F & L). split.
    + constructor; [repeat split; assumption | exact F].
    + rewrite L. simpl. rewrite length_app. simpl. lia.
Qed.

(** X12: bootstrapStores returns only when nothing was left out: the
    node has a cluster ID, the allocator gave the first ID, every store
    of the list was without StoreIdent and accepted Bootstrap and Start,
    and the registry has grown by the length of the list. *)
Theorem bootstrapStores_returns (bootstraps : list Store) (n n' : Node) :
  bootstrapStores bootstraps n = Returns n' tt ->
  ClusterID n <> ""
  /\ (exists first,
        allocateStoreIDs (nodeID n) (Z.of_nat (List.length bootstraps))
                         (nodeDB n)
        = (nodeDB n', (first, None)))
  /\ Forall pendingStore bootstraps
  /\ List.length (storeMap (stores n'))
     = (List.length (storeMap (stores n)) + List.length bootstraps)%nat.
Proof.
  unfold bootstrapStores.
  destruct (String.eqb_spec (ClusterID n) "") as [E|E]; [discriminate|].
  destruct (allocateStoreIDs _ _ _) as [db [first [e|]]] eqn:A;
    [discriminate|].
  intros H. split; [exact E|].
  match type of H with
  | bootstrapPending bootstraps ?i ?m = _ =>
      pose proof (bootstrapPending_frame bootstraps i m) as (D & _)
  end.
  rewrite H in D. simpl in D.
  apply bootstrapPending_returns in H. destruct H as (F & L).
  split; [exists first; rewrite D; reflexivity|]. auto.
Qed.

Lemma bootstrapStores_returns_witness :
  let n' := finalNode (bootstrapStores Sample.pendingABC Sample.node5) in
  Forall pendingStore Sample.pendingABC
  /\ List.length (storeMap (stores n')) = 3%nat.
Proof.
  intros n'.
  destruct (bootstrapStores_returns Sample.pendingABC Sample.node5 n')
    as (_ & _ & F & L); [reflexivity|].
  split; [exact F | exact L].
Defined.

Lemma bootstrapPending_app (pre : list Store) :
  forall ident n n1 l,
    in_int32 (siStoreID ident) ->
    bootstrapPending pre ident n = Returns n1 tt ->
    bootstrapPending (pre ++ l) ident n
    = bootstrapPending l
        (mkStoreIdent (siClusterID ident) (siNodeID ident)
           (wrap32 (siStoreID ident + Z.of_nat (List.length pre)))) n1.
Proof.
  induction pre as [|s rest IH]; intros ident n n1 l HR H.
  - simpl in H. inversion H; subst. simpl.
    rewrite Z.add_0_r, (wrap32_in_int32 _ HR).
    destruct ident; reflexivity.
  - cbn [bootstrapPending app] in *.
    destruct (StoreBootstrap s ident) as [s1 [e1|]]; [discriminate|].
    destruct (StoreStart s1) as [s2 [e2|]]; [discriminate|].
    erewrite IH; [|cbn [siStoreID]; apply in_int32_wrap32|exact H].
    cbn [siClusterID siNodeID siStoreID List.length].
    f_equal. f_equal. rewrite wrap32_add_l, Nat2Z.inj_succ. f_equal. lia.
Qed.

(** X13: when a store of the list does not accept Bootstrap or Start,
    bootstrapStores is fatal at that store: the pending stores before it
    are registered with the first IDs of the range, counted in the
    wrap-around arithmetic of the StoreID ([first + i] itself as long as
    that number does not exceed the largest StoreID), the store and
    those after it are not registered, and the IDs reserved for them stay
    reserved. *)
Theorem bootstrapStores_stops_at_failure
  (pre post : list Store) (s : Store) (n : Node) (db : DB)
  (first : StoreID) :
  ClusterID n <> "" ->
  allocateStoreIDs (nodeID n)
                   (Z.of_nat (List.length (pre ++ s :: post))) (nodeDB n)
  = (db, (first, None)) ->
  Forall pendingStore pre ->
  ~ pendingStore s ->
  exists n' h added,
    bootstrapStores (pre ++ s :: post) n = Halts n' h
    /\ isFatal h = true
    /\ nodeDB n' = db
    /\ storeMap (stores n') = storeMap (stores n) ++ added
    /\ List.length added = List.length pre
    /\ forall i s',
        nth_error added i = Some s' ->
        sIdent s' = mkStoreIdent (ClusterID n) (nodeID n)
                                 (wrap32 (first + Z.of_nat i))
        /\ (first + Z.of_nat i <= max_int32 ->
            sIdent s' = mkStoreIdent (ClusterID n) (nodeID n)
                                     (first + Z.of_nat i)).
Proof.
  intros HC HA HF HN. apply String.eqb_neq in HC.
  pose proof (allocateStoreIDs_in_int32 _ _ _ _ _ _ HA) as HR.
  unfold bootstrapStores. rewrite HC, HA.
  set (n0 := setDB n db).
  set (ident := mkStoreIdent (ClusterID n0) (nodeID n0) first).
  destruct (bootstrapPending_ok pre ident n0 HF HR)
    as (n1 & added & R & M & L & P).
  pose proof (bootstrapPending_frame pre ident n0) as Fr.
  rewrite R in Fr. simpl in Fr. destruct Fr as (D & _ & _).
  rewrite (bootstrapPending_app pre ident n0 n1 (s :: post) HR R).
  assert (Ids : forall i s',
             nth_error added i = Some s' ->
             sIdent s' = mkStoreIdent (ClusterID n) (nodeID n)
                                      (wrap32 (first + Z.of_nat i))
             /\ (first + Z.of_nat i <= max_int32 ->
                 sIdent s' = mkStoreIdent (ClusterID n) (nodeID n)
                                          (first + Z.of_nat i))).
  { intros i s' Hi.
    assert (Lt : (i < List.length pre)%nat).
    { rewrite <- L. apply nth_error_Some. congruence. }
    destruct (nth_error pre i) as [s0|] eqn:E0;
      [|apply nth_error_None in E0; lia].
    destruct (P i s0 E0) as (s1 & N1 & I & _).
    rewrite Hi in N1. inversion N1; subst.
    split; [exact I|]. intros Hm. rewrite I.
    cbn [ident siClusterID siNodeID siStoreID].
    rewrite wrap32_in_int32; [reflexivity|].
    unfold in_int32, min_int32, max_int32 in *. lia. }
  cbn [bootstrapPending]. unfold StoreBootstrap.
  destruct (failBootstrap (sEngine s)) eqn:FB; simpl.
  { exists n1, (FatalError (ErrCollaborator "store bootstrap failed")),
      added. repeat split; auto; apply Ids; assumption. }
  destruct (engIdent (sEngine s)) eqn:EI; simpl.
  { exists n1, (FatalError (ErrCollaborator "store already bootstrapped")),
      added. repeat split; auto; apply Ids; assumption. }
  unfold StoreStart; simpl.
  destruct (failStart (sEngine s)) eqn:FS; simpl.
  { exists n1, (FatalError (ErrCollaborator "store start failed")),
      added. repeat split; auto; apply Ids; assumption. }
  exfalso. apply HN. repeat split; assumption.
Qed.

Lemma bootstrapStores_stops_at_failure_witness :
  exists n' h added,
    bootstrapStores
      ([NewStore (Sample.blank "A")]
       ++ NewStore (Sample.formatted "B" (mkStoreIdent "c0" 4 2))
       :: [NewStore (Sample.blank "C")]) Sample.node5
    = Halts n' h
    /\ isFatal h = true
    /\ nodeDB n' = mkDB 5 12 [] [(StoreIDGenerator, 3)]
    /\ storeMap (stores n') = storeMap (stores Sample.node5) ++ added
    /\ List.length added = 1%nat
    /\ forall i s',
        nth_error added i = Some s' ->
        sIdent s' = mkStoreIdent "c9" 5 (wrap32 (10 + Z.of_nat i))
        /\ (10 + Z.of_nat i <= max_int32 ->
            sIdent s' = mkStoreIdent "c9" 5 (10 + Z.of_nat i)).
Proof.
  apply (bootstrapStores_stops_at_failure
           [NewStore (Sample.blank "A")] [NewStore (Sample.blank "C")]
           (NewStore (Sample.formatted "B" (mkStoreIdent "c0" 4 2)))
           Sample.node5 (mkDB 5 12 [] [(StoreIDGenerator, 3)]) 10).
  - discriminate.
  - reflexivity.
  - repeat constructor.
  - intros (I & _). discriminate I.
Defined.

(** ** initStores, engine by engine *)

Lemma startEngines_partition (engines : list Engine) :
  forall bootstraps n n1 bootstraps1,
    startEngines engines bootstraps n = (n1, bootstraps1, None) ->
    bootstraps1
    = bootstraps
      ++ map NewStore (filter (fun e => negb (formattedEngine e)) engines)
    /\ stores n1
       = mkStores (storeMap (stores n)
                   ++ map startedStore (filter formattedEngine engines))
                  (iterOrder (stores n)) (router (stores n))
                  (sent (stores n))
    /\ Forall identifiedStore
              (map startedStore (filter formattedEngine engines)).
Proof.
  induction engines as [|e rest IH];
    intros bootstraps n n1 bootstraps1 H.
  - simpl in *. inversion H; subst. rewrite !app_nil_r.
    split; [reflexivity|]. split; [destruct (stores n1); reflexivity|].
    constructor.
  - cbn [startEngines] in H. cbn [filter].
    unfold StoreStart, NewStore in H. cbn [sEngine] in H.
    destruct (failStart e) eqn:FS; [discriminate|].
    destruct (engIdent e) as [id|] eqn:EI.
    + assert (FE : formattedEngine e = true)
        by (unfold formattedEngine; rewrite EI; reflexivity).
      assert (SS : startedStore e = mkStore e id true).
      { unfold startedStore, StoreStart, NewStore. cbn [sEngine].
        rewrite FS, EI. reflexivity. }
      rewrite FE. cbn [negb map]. rewrite SS.
      cbn [sIdent] in H.
      destruct (String.eqb_spec (siClusterID id) "") as [EC|EC];
        [discriminate|].
      destruct (Z.eqb_spec (siNodeID id) 0) as [EN|EN]; [discriminate|].
      cbn [orb] in H.
      unfold StoreCapacity in H. cbn [sEngine] in H.
      destruct (failCapacity e); [discriminate|].
      apply IH in H. destruct H as (B & S & F). cbn in S.
      split; [exact B|]. split.
      * rewrite S. rewrite <- app_assoc. reflexivity.
      * constructor; [split; assumption | exact F].
    + assert (FE : formattedEngine e = false)
        by (unfold formattedEngine; rewrite EI; reflexivity).
      rewrite FE. cbn [negb map].
      apply IH in H. destruct H as (B & S & F).
      split; [|auto]. rewrite B, <- app_assoc.
      unfold NewStore at 2. rewrite EI. reflexivity.
Qed.

(** X14: when the loop of initStores over the engines ends without
    error, it has sorted the engines in two, keeping their order: the
    engines that carry a StoreIdent are started and registered, each
    with a complete StoreIdent, and the engines without one wait on the
    bootstraps list; no engine is left out. *)
Theorem startEngines_sorts (engines : list Engine)
  (bootstraps bootstraps1 : list Store) (n n1 : Node) :
  startEngines engines bootstraps n = (n1, bootstraps1, None) ->
  bootstraps1
  = bootstraps
    ++ map NewStore (filter (fun e => negb (formattedEngine e)) engines)
  /\ storeMap (stores n1)
     = storeMap (stores n)
       ++ map startedStore (filter formattedEngine engines)
  /\ Forall identifiedStore
            (map startedStore (filter formattedEngine engines))
  /\ (List.length (storeMap (stores n1)) + List.length bootstraps1
      = List.length (storeMap (stores n)) + List.length bootstraps
        + List.length engines)%nat.
Proof.
  intros H. apply startEngines_partition in H.
  destruct H as (B & S & F).
  split; [exact B|]. rewrite S. simpl. split; [reflexivity|].
  split; [exact F|].
  rewrite B, !length_app, !length_map.
  pose proof (filter_length formattedEngine engines) as L. lia.
Qed.

Lemma startEngines_sorts_witness :
  let engines := [Sample.blank "X";
                  Sample.formatted "A" (mkStoreIdent "c9" 5 7);
                  Sample.blank "Y"] in
  let n := Sample.node [] (mkDB 5 7 [] []) Sample.route in
  let r := startEngines engines [] n in
  snd (fst r) = [NewStore (Sample.blank "X"); NewStore (Sample.blank "Y")]
  /\ storeMap (stores (fst (fst r)))
     = [Sample.started "A" (mkStoreIdent "c9" 5 7)].
Proof.
  intros engines n r.
  destruct (startEngines_sorts engines [] (snd (fst r)) n (fst (fst r)))
    as (B & S & _); [reflexivity|].
  split; [exact B | exact S].
Defined.

Lemma startEngines_app (pre : list Engine) :
  forall bootstraps n n1 bootstraps1 l,
    startEngines pre bootstraps n = (n1, bootstraps1, None) ->
    startEngines (pre ++ l) bootstraps n = startEngines l bootstraps1 n1.
Proof.
  induction pre as [|e rest IH]; simpl;
    intros bootstraps n n1 bootstraps1 l H.
  - inversion H; reflexivity.
  - destruct (StoreStart (NewStore e)) as [s [[]|]];
      try discriminate; try (eapply IH; eassumption).
    destruct ((siClusterID (sIdent s) =? "")%string
              || (siNodeID (sIdent s) =? 0)); [discriminate|].
    destruct (StoreCapacity s); [|discriminate].
    eapply IH; eassumption.
Qed.

(** X15: an engine that cannot be initialised ends initStores with its
    error, after the engines before it: an engine whose Start fails for
    another reason than a missing StoreIdent gives the "failed to start
    store" error, an engine whose StoreIdent lacks the cluster ID or the
    node ID the "unidentified store" error, and an identified engine
    whose capacity cannot be read the "store capacity" error.  The
    stores of the engines before it stay registered, and nothing after
    the loop is run. *)
Theorem initStores_store_errors
  (pre post : list Engine) (e : Engine) (n n1 : Node)
  (bootstraps : list Store) :
  startEngines pre [] n = (n1, bootstraps, None) ->
  (failStart e = true ->
   exists cause,
     initStores (pre ++ e :: post) n
     = Returns n1 (Some (ErrFailedToStartStore cause)))
  /\ (forall id,
        failStart e = false ->
        engIdent e = Some id ->
        siClusterID id = "" \/ siNodeID id = 0 ->
        initStores (pre ++ e :: post) n
        = Returns n1 (Some (ErrUnidentifiedStore (startedStore e))))
  /\ (forall id,
        failStart e = false ->
        engIdent e = Some id ->
        siClusterID id <> "" ->
        siNodeID id <> 0 ->
        failCapacity e = true ->
        exists cause,
          initStores (pre ++ e :: post) n
          = Returns n1 (Some (ErrStoreCapacity cause))).
Proof.
  intros H.
  assert (L : (List.length (pre ++ e :: post) =? 0)%nat = false).
  { rewrite length_app. simpl. apply Nat.eqb_neq. lia. }
  unfold initStores. rewrite L.
  rewrite (startEngines_app pre [] n n1 bootstraps (e :: post) H).
  simpl. unfold startedStore, StoreStart, NewStore, StoreCapacity. simpl.
  split; [|split].
  - intros FS. rewrite FS. eexists. reflexivity.
  - intros id FS EI Bad. rewrite FS, EI. simpl.
    replace ((siClusterID id =? "")%string || (siNodeID id =? 0))
      with true; [reflexivity|].
    symmetry. apply orb_true_iff.
    destruct Bad as [B|B]; [left; apply String.eqb_eq
                           | right; apply Z.eqb_eq]; exact B.
  - intros id FS EI C N FC. rewrite FS, EI. simpl.
    apply String.eqb_neq in C. apply Z.eqb_neq in N.
    rewrite C, N, FC. simpl. eexists. reflexivity.
Qed.

Lemma initStores_store_errors_witness :
  let n := Sample.node [] (mkDB 5 7 [] []) Sample.route in
  let e := Sample.formatted "B" (mkStoreIdent "" 5 8) in
  exists n1,
    initStores ([Sample.formatted "A" (mkStoreIdent "c9" 5 7)]
                ++ e :: [Sample.blank "C"]) n
    = Returns n1 (Some (ErrUnidentifiedStore (startedStore e)))
    /\ storeMap (stores n1) = [Sample.started "A" (mkStoreIdent "c9" 5 7)].
Proof.
  intros n e.
  exists (fst (fst (startEngines
                      [Sample.formatted "A" (mkStoreIdent "c9" 5 7)] [] n))).
  split; [|reflexivity].
  destruct (initStores_store_errors
              [Sample.formatted "A" (mkStoreIdent "c9" 5 7)]
              [Sample.blank "C"] e n
              (fst (fst (startEngines
                           [Sample.formatted "A" (mkStoreIdent "c9" 5 7)]
                           [] n))) [])
    as (_ & Unidentified & _); [reflexivity|].
  apply (Unidentified (mkStoreIdent "" 5 8));
    [reflexivity | reflexivity | left; reflexivity].
Defined.

(** ** initStores on stores that have their identity *)

(** The tail of initStores on a node that the validation has left with
    the cluster ID of gossip and a node ID. *)
Lemma joinCluster_settled (bootstraps : list Store) (n1 n2 : Node)
  (c : string) :
  validateStores n1 = Returns n2 None ->
  ClusterID n2 = c -> c <> "" -> nodeID n2 <> 0 ->
  gConnected (nodeGossip n2) = true ->
  GetInfo (nodeGossip n2) = Ok c ->
  failSetStorage (nodeGossip n2) = false ->
  exists g,
    SetStorage (nodeGossip n2) = (g, None)
    /\ joinCluster bootstraps n1
       = Returns (if (0 <? List.length bootstraps)%nat
                  then RunAsyncTask (setGossip n2 g) bootstraps
                  else setGossip n2 g) None.
Proof.
  intros V C HC HN GC GI FS.
  unfold joinCluster. rewrite V. cbn [bind].
  unfold SetStorage. rewrite FS.
  eexists. split; [reflexivity|].
  unfold connectGossip, GetInfo, nodeGossip in *.
  cbn [setGossip ctx ctxGossip gConnected gClusterID ClusterID].
  rewrite GC, GI. cbn [negb].
  apply String.eqb_neq in HC. rewrite C, HC, String.eqb_refl.
  cbn [negb bind].
  apply Z.eqb_neq in HN.
  change (nodeID (setGossip n2 ?g)) with (nodeID n2).
  rewrite HN. cbn [bind]. reflexivity.
Qed.

Lemma validateStore_feed (s : Store) (n n' : Node) (err : option Error) :
  validateStore s n = Returns n' err ->
  feed n' = feed n /\ status n' = status n.
Proof.
  unfold validateStore, initNodeID, storeNodeID, SetNodeDescriptor,
    allocateNodeID, Inc.
  destruct (ClusterID n =? "")%string.
  - cbn. repeat match goal with
         | |- context [if ?b then _ else _] => destruct b; cbn
         | |- context [match ?x with _ => _ end] => destruct x; cbn
         end; intros H; inversion H; auto.
  - destruct (negb (ClusterID n =? siClusterID (sIdent s))%string);
      [intros H; inversion H; auto|].
    destruct (negb (nodeID n =? siNodeID (sIdent s)));
      intros H; inversion H; auto.
Qed.

Lemma VisitStores_feed (order : list Store) :
  forall n n' err,
    VisitStores validateStore order n = Returns n' err ->
    feed n' = feed n /\ status n' = status n.
Proof.
  induction order as [|s rest IH]; intros n n' err V; simpl in V.
  - inversion V; auto.
  - destruct (validateStore s n) as [m [e|]|m h|m] eqn:VS;
      simpl in V; try discriminate;
      apply validateStore_feed in VS; destruct VS as (F' & T').
    + inversion V; subst; auto.
    + apply IH in V. destruct V as (F & T). split; congruence.
Qed.

Lemma startedStore_member (c : string) (nid : NodeID) (e : Engine) :
  memberEngine c nid e ->
  exists id,
    engIdent e = Some id /\ startedStore e = mkStore e id true
    /\ siClusterID id = c /\ siNodeID id = nid.
Proof.
  intros ((id & EI & C & N) & FS & _). exists id.
  unfold startedStore, StoreStart, NewStore. cbn [sEngine].
  rewrite FS, EI. auto.
Qed.

Lemma startEngines_members (c : string) (nid : NodeID)
  (engines : list Engine) :
  c <> "" -> nid <> 0 ->
  Forall (memberEngine c nid) engines ->
  forall bootstraps n,
    startEngines engines bootstraps n
    = (setStores n (mkStores (storeMap (stores n)
                              ++ map startedStore engines)
                             (iterOrder (stores n)) (router (stores n))
                             (sent (stores n))),
       bootstraps, None).
Proof.
  intros HC HN HF. apply String.eqb_neq in HC. apply Z.eqb_neq in HN.
  induction HF as [|e rest HM _ IH]; intros bootstraps n.
  - simpl. rewrite app_nil_r. destruct n as [? ? ? ? []]; reflexivity.
  - destruct (startedStore_member c nid e HM) as (id & EI & SS & C & N).
    destruct HM as (_ & FS & FC).
    cbn [startEngines map]. rewrite SS.
    unfold StoreStart, NewStore, StoreCapacity. cbn [sEngine].
    rewrite FS, EI. cbn [sIdent sEngine]. rewrite C, N, HC, HN, FC.
    cbn [orb]. rewrite IH. cbn. rewrite <- app_assoc. reflexivity.
Qed.

(** What initStores makes of a node without identity whose engines all
    carry the StoreIdent of one node of the cluster of gossip. *)
Lemma initStores_members_run
  (c : string) (nid : NodeID) (engines : list Engine) (n : Node) :
  engines <> [] ->
  c <> "" -> 0 < nid ->
  Forall (memberEngine c nid) engines ->
  ClusterID n = "" -> nodeID n = 0 -> storeMap (stores n) = [] ->
  (forall l, Permutation (iterOrder (stores n) l) l) ->
  gConnected (nodeGossip n) = true ->
  GetInfo (nodeGossip n) = Ok c ->
  failSetStorage (nodeGossip n) = false ->
  failSetNodeDescriptor (nodeGossip n) = false ->
  exists n',
    initStores engines n = Returns n' None
    /\ ClusterID n' = c /\ nodeID n' = nid
    /\ nodeDB n' = nodeDB n
    /\ storeMap (stores n') = map startedStore engines
    /\ stopper n' = stopper n
    /\ feed n' = feed n
    /\ status n' = status n
    /\ gResolvers (nodeGossip n') = gResolvers (nodeGossip n)
    /\ GetInfo (nodeGossip n') = Ok c
    /\ gHasStorage (nodeGossip n') = true.
Proof.
  intros HE HC HN HF C0 N0 S0 HP GC GI FSt FD.
  assert (NZ : nid <> 0) by lia.
  assert (L : (List.length engines =? 0)%nat = false).
  { destruct engines; [contradiction|reflexivity]. }
  unfold initStores. rewrite L.
  rewrite (startEngines_members c nid engines HC NZ HF [] n).
  rewrite S0. cbn [app].
  set (n1 := setStores n _).
  assert (Cnt : (GetStoreCount (stores n1) =? 0)%nat = false).
  { unfold n1, GetStoreCount. cbn. rewrite length_map. exact L. }
  unfold bootstrapCheck. rewrite Cnt.
  assert (Perm : Permutation (iterOrder (stores n1) (storeMap (stores n1)))
                             (map startedStore engines))
    by (unfold n1; cbn; apply HP).
  assert (All : forall s,
             In s (iterOrder (stores n1) (storeMap (stores n1))) ->
             siClusterID (sIdent s) = c /\ siNodeID (sIdent s) = nid).
  { intros s Hs. apply (Permutation_in s Perm) in Hs.
    apply in_map_iff in Hs. destruct Hs as (e & <- & He).
    rewrite Forall_forall in HF.
    destruct (startedStore_member c nid e (HF e He))
      as (id & _ & -> & C & N). auto. }
  assert (V : exists n2,
             validateStores n1 = Returns n2 None
             /\ ClusterID n2 = c /\ nodeID n2 = nid
             /\ stores n2 = stores n1 /\ nodeDB n2 = nodeDB n1
             /\ stopper n2 = stopper n1
             /\ gossipKept (nodeGossip n1) (nodeGossip n2)).
  { unfold validateStores.
    destruct (iterOrder (stores n1) (storeMap (stores n1)))
      as [|s0 rest] eqn:O.
    { apply Permutation_length in Perm. rewrite length_map in Perm.
      destruct engines; [contradiction|discriminate]. }
    destruct (All s0 (or_introl eq_refl)) as (C1 & N1).
    destruct (validateStore_first s0 n1) as (n2 & V & C2 & N2 & S2);
      try assumption; try (rewrite N1; exact HN).
    destruct (validateStore_first_returns s0 n1 n2 None)
      as (_ & _ & _ & _ & D2 & St2 & G2);
      try assumption; try (rewrite N1; exact NZ).
    assert (E2 : ClusterID n2 <> "") by congruence.
    exists n2. cbn [VisitStores]. rewrite V. cbn [bind].
    rewrite (VisitStores_all_match rest n2 E2).
    - split; [reflexivity|]. split; [congruence|]. split; [congruence|].
      split; [exact S2|]. split; [exact D2|]. split; [exact St2 | exact G2].
    - apply Forall_forall. intros s Hs.
      destruct (All s (or_intror Hs)) as (Cs & Ns).
      split; congruence. }
  destruct V as (n2 & V & C2 & N2 & S2 & D2 & St2 & G2).
  pose proof G2 as G2'.
  destruct G2 as (_ & GC2 & GI2 & _ & _ & FS2 & _).
  destruct (joinCluster_settled [] n1 n2 c V C2 HC) as (g & SS & J).
  - congruence.
  - rewrite GC2. exact GC.
  - unfold GetInfo in *. rewrite GI2. exact GI.
  - rewrite FS2. exact FSt.
  - rewrite J. cbn [List.length Nat.ltb Nat.leb].
    exists (setGossip n2 g). split; [reflexivity|].
    assert (FS2' : failSetStorage (nodeGossip n2) = false)
      by (rewrite FS2; exact FSt).
    unfold SetStorage in SS. rewrite FS2' in SS.
    inversion SS; subst g; clear SS.
    pose proof (VisitStores_feed _ _ _ _ V) as F2.
    destruct F2 as (F2 & T2). destruct G2' as (GR2 & _).
    unfold GetInfo, nodeDB, nodeGossip in *. subst n1. cbn in *.
    repeat split; try assumption; try congruence.
    rewrite S2. reflexivity.
Qed.

(** X16: a node without identity whose engines all carry the StoreIdent
    of one node of the cluster that gossip carries: initStores succeeds,
    the node takes the cluster ID and the node ID of its stores, every
    engine is registered as a started store, no store is left for the
    asynchronous bootstrap, and the allocator is not called: the
    key/value client is as it was. *)
Theorem initStores_members
  (c : string) (nid : NodeID) (engines : list Engine) (n : Node) :
  engines <> [] ->
  c <> "" -> 0 < nid ->
  Forall (memberEngine c nid) engines ->
  ClusterID n = "" -> nodeID n = 0 -> storeMap (stores n) = [] ->
  (forall l, Permutation (iterOrder (stores n) l) l) ->
  gConnected (nodeGossip n) = true ->
  GetInfo (nodeGossip n) = Ok c ->
  failSetStorage (nodeGossip n) = false ->
  failSetNodeDescriptor (nodeGossip n) = false ->
  exists n',
    initStores engines n = Returns n' None
    /\ ClusterID n' = c /\ nodeID n' = nid
    /\ dbCalls (nodeDB n') = dbCalls (nodeDB n)
    /\ nodeDB n' = nodeDB n
    /\ storeMap (stores n') = map startedStore engines
    /\ asyncTasks (stopper n') = asyncTasks (stopper n).
Proof.
  intros HE HC HN HF C0 N0 S0 HP GC GI FSt FD.
  destruct (initStores_members_run c nid engines n)
    as (n' & R & C & N & D & S & St & _); try assumption.
  exists n'. split; [exact R|]. split; [exact C|]. split; [exact N|].
  split; [rewrite D; reflexivity|]. split; [exact D|].
  split; [exact S|]. rewrite St. reflexivity.
Qed.

Lemma initStores_members_witness :
  let engines := [Sample.formatted "A" (mkStoreIdent "c9" 5 7);
                  Sample.formatted "B" (mkStoreIdent "c9" 5 8)] in
  let n := Sample.node [] (mkDB 5 8 [] []) Sample.route in
  exists n',
    initStores engines n = Returns n' None
    /\ ClusterID n' = "c9" /\ nodeID n' = 5
    /\ dbCalls (nodeDB n') = []
    /\ storeMap (stores n') = map startedStore engines.
Proof.
  intros engines n.
  destruct (initStores_members "c9" 5 engines n)
    as (n' & R & C & N & Calls & _ & S & _);
    try reflexivity; try discriminate.
  - repeat constructor; eexists; repeat split; reflexivity.
  - intros l. apply Permutation_sym, Permutation_rev.
  - exists n'. auto.
Defined.

(** ** initStores when it succeeds *)

Lemma validateStore_frame (s : Store) (n n' : Node) (err : option Error) :
  validateStore s n = Returns n' err ->
  stopper n' = stopper n /\ stores n' = stores n.
Proof.
  unfold validateStore.
  destruct (ClusterID n =? "")%string.
  - destruct (initNodeID _ _) as [n1 []|n1 h|n1] eqn:E; simpl;
      try discriminate.
    intros H; inversion H; subst; clear H.
    destruct (initNodeID_returns_basic _ _ _ E) as (_ & _ & S & St & _).
    auto.
  - destruct (negb (ClusterID n =? siClusterID (sIdent s))%string);
      [intros H; inversion H; auto|].
    destruct (negb (nodeID n =? siNodeID (sIdent s)));
      intros H; inversion H; auto.
Qed.

Lemma VisitStores_frame (order : list Store) :
  forall n n' err,
    VisitStores validateStore order n = Returns n' err ->
    stopper n' = stopper n /\ stores n' = stores n.
Proof.
  induction order as [|s rest IH]; simpl; intros n n' err H.
  - inversion H; auto.
  - destruct (validateStore s n) as [n1 [e|]|n1 h|n1] eqn:V; simpl in H;
      try discriminate; apply validateStore_frame in V;
      destruct V as (St & S).
    + inversion H; subst. auto.
    + apply IH in H. destruct H as (St' & S'). split; congruence.
Qed.

Lemma connectGossip_returns_inv (n n1 : Node) :
  connectGossip n = Returns n1 tt ->
  gConnected (nodeGossip n) = true
  /\ GetInfo (nodeGossip n1) = Ok (ClusterID n1)
  /\ nodeGossip n1 = nodeGossip n
  /\ stopper n1 = stopper n /\ stores n1 = stores n
  /\ nodeID n1 = nodeID n.
Proof.
  unfold connectGossip.
  destruct (gConnected (nodeGossip n)); simpl; [|discriminate].
  destruct (GetInfo (nodeGossip n)) as [gid|e] eqn:HI; [|discriminate].
  destruct (ClusterID n =? "")%string.
  - intros H; inversion H; subst; clear H. repeat split; auto.
  - destruct (String.eqb_spec (ClusterID n) gid) as [G|G]; simpl;
      [|discriminate].
    intros H; inversion H; subst; clear H. repeat split; auto.
Qed.

(** What a successful initStores has done. *)
Lemma initStores_returns_inv (engines : list Engine) (n n' : Node) :
  initStores engines n = Returns n' None ->
  engines <> []
  /\ nodeID n' <> 0
  /\ gConnected (nodeGossip n') = true
  /\ GetInfo (nodeGossip n') = Ok (ClusterID n')
  /\ gHasStorage (nodeGossip n') = true
  /\ exists n1 bootstraps,
      startEngines engines [] n = (n1, bootstraps, None)
      /\ stores n' = stores n1
      /\ asyncTasks (stopper n')
         = asyncTasks (stopper n)
           ++ (if (0 <? List.length bootstraps)%nat then [bootstraps]
               else []).
Proof.
  unfold initStores.
  destruct engines as [|e0 engines0]; [discriminate|].
  set (engines := e0 :: engines0). cbn [List.length Nat.eqb].
  destruct (startEngines engines [] n) as [[n1 bs] [e|]] eqn:SE;
    [discriminate|].
  destruct (bootstrapCheck n1); [discriminate|].
  pose proof (startEngines_frame _ _ _ _ _ _ SE) as (_ & _ & _ & St1 & _).
  unfold joinCluster, validateStores.
  destruct (VisitStores validateStore _ n1) as [n2 [e|]|n2 h|n2] eqn:V;
    cbn [bind]; try discriminate.
  apply VisitStores_frame in V. destruct V as (St2 & S2).
  unfold SetStorage.
  destruct (failSetStorage (nodeGossip n2)); [discriminate|].
  match goal with
  | |- context [connectGossip ?m] => set (n3 := m)
  end.
  destruct (connectGossip n3) as [n4 []|n4 h|n4] eqn:CG; cbn [bind];
    try discriminate.
  apply connectGossip_returns_inv in CG.
  destruct CG as (GC & GI & G4 & St4 & S4 & N4).
  assert (Ready : forall n5,
             nodeID n5 <> 0 -> ClusterID n5 = ClusterID n4 ->
             stores n5 = stores n4 -> stopper n5 = stopper n4 ->
             gossipKept (nodeGossip n4) (nodeGossip n5) ->
             Returns (if (0 <? List.length bs)%nat
                      then RunAsyncTask n5 bs else n5) (@None Error)
             = Returns n' None ->
             e0 :: engines0 <> []
             /\ nodeID n' <> 0
             /\ gConnected (nodeGossip n') = true
             /\ GetInfo (nodeGossip n') = Ok (ClusterID n')
             /\ gHasStorage (nodeGossip n') = true
             /\ exists n1' bootstraps,
                 (n1, bs, @None Error) = (n1', bootstraps, None)
                 /\ stores n' = stores n1'
                 /\ asyncTasks (stopper n')
                    = asyncTasks (stopper n)
                      ++ (if (0 <? List.length bootstraps)%nat
                          then [bootstraps] else [])).
  { intros n5 NZ C5 S5 St5 (_ & GC5 & GI5 & GH5 & _) H.
    assert (St : stopper n5 = stopper n).
    { rewrite St5, St4. unfold n3. cbn. congruence. }
    assert (S : stores n5 = stores n1).
    { rewrite S5, S4. unfold n3. cbn. exact S2. }
    assert (GH : gHasStorage (nodeGossip n5) = true).
    { rewrite GH5, G4. reflexivity. }
    assert (GCn : gConnected (nodeGossip n5) = true).
    { rewrite GC5, G4. exact GC. }
    assert (GIn : GetInfo (nodeGossip n5) = Ok (ClusterID n5)).
    { unfold GetInfo in *. rewrite GI5, C5. exact GI. }
    split; [discriminate|].
    destruct (0 <? List.length bs)%nat eqn:LB; inversion H; subst n';
      clear H;
      (split; [exact NZ|]); (split; [exact GCn|]); (split; [exact GIn|]);
      (split; [exact GH|]); exists n1, bs; rewrite LB;
      (split; [reflexivity|]); (split; [exact S|]);
      unfold RunAsyncTask; cbn [stopper asyncTasks];
      rewrite St; try rewrite app_nil_r; reflexivity. }
  destruct (nodeID n4 =? 0) eqn:Z4.
  - destruct (initNodeID 0 n4) as [n5 []|n5 h|n5] eqn:IN; cbn [bind];
      try discriminate.
    destruct (initNodeID_returns_basic _ _ _ IN)
      as (NZ & C5 & S5 & St5 & _ & G5 & _).
    apply Ready; assumption.
  - cbn [bind]. apply Z.eqb_neq in Z4.
    apply Ready; auto. unfold gossipKept. repeat split; reflexivity.
Qed.

(** X17: when initStores succeeds the node is ready: there was at least
    one engine, the node has a NodeID other than 0, gossip is connected,
    uses the registry as storage and carries the cluster ID of the node,
    the registry holds the stores the loop over the engines registered,
    and the stores of the bootstraps list, if there are any, were handed
    over as one asynchronous task. *)
Theorem initStores_succeeded (engines : list Engine) (n n' : Node) :
  initStores engines n = Returns n' None ->
  engines <> []
  /\ nodeID n' <> 0
  /\ gConnected (nodeGossip n') = true
  /\ GetInfo (nodeGossip n') = Ok (ClusterID n')
  /\ gHasStorage (nodeGossip n') = true
  /\ exists n1 bootstraps,
      startEngines engines [] n = (n1, bootstraps, None)
      /\ stores n' = stores n1
      /\ asyncTasks (stopper n')
         = asyncTasks (stopper n)
           ++ (if (0 <? List.length bootstraps)%nat then [bootstraps]
               else []).
Proof.
  intros H.
  destruct (initStores_returns_inv engines n n' H)
    as (NE & NZ & GC & GI & GH & n1 & bootstraps & SE & S & A).
  split; [exact NE|]. split; [exact NZ|]. split; [exact GC|].
  split; [exact GI|]. split; [exact GH|].
  exists n1, bootstraps. split; [exact SE|]. split; [exact S | exact A].
Qed.

Lemma initStores_succeeded_witness :
  let n := Sample.node [mkResolver (Ok (AddrUnresolved Sample.peer))]
                       (mkDB 5 7 [] []) Sample.route in
  let n' := finalNode
              (initStores [Sample.formatted "A" (mkStoreIdent "c9" 5 7);
                           Sample.blank "B"] n) in
  nodeID n' <> 0
  /\ GetInfo (nodeGossip n') = Ok (ClusterID n')
  /\ gHasStorage (nodeGossip n') = true.
Proof.
  intros n n'.
  destruct (initStores_succeeded
              [Sample.formatted "A" (mkStoreIdent "c9" 5 7);
               Sample.blank "B"] n n')
    as (_ & NZ & _ & GI & GH & _); [vm_compute; reflexivity|].
  split; [exact NZ|]. split; [exact GI | exact GH].
Defined.

(** ** executeCmd on a node that admits the request *)

Lemma recordSpans_encoded (recorded : list RawSpan) :
  Forall encodes recorded ->
  forall b,
    recordSpans recorded (Some b)
    = inl (Some (mkBatchResponse (brError b)
                   (brCollectedSpans b ++ encodedSpans recorded)
                   (brResponses b))).
Proof.
  induction 1 as [|r rest (enc & E) _ IH]; intros b; simpl.
  - rewrite app_nil_r. destruct b; reflexivity.
  - unfold tracingCB. rewrite E. rewrite IH. simpl.
    rewrite <- app_assoc. reflexivity.
Qed.

Lemma recordSpans_not_encoded (recorded : list RawSpan) :
  Exists (fun r => ~ encodes r) recorded ->
  forall b, exists err,
    recordSpans recorded (Some b) = inr (PanicEncodeSpan err).
Proof.
  induction recorded as [|r rest IH]; intros HX b; [inversion HX|].
  simpl. unfold tracingCB.
  destruct (rawEncoded r) as [enc|e] eqn:E.
  - apply IH. inversion HX as [? ? Hr|? ? Hr]; subst; [|exact Hr].
    exfalso. apply Hr. exists enc. exact E.
  - exists e. reflexivity.
Qed.

(** X18: a command that succeeds.  On a node that admits the request,
    when the routing call reports no error and its response carries
    none, every return of executeCmd hands back that response, with no
    error field and with the spans of the tracer after its own, together
    with a nil error, and the event feed has got one completion event
    with the request, the duration and no error; without trace context
    executeCmd does return, and the response is the one of the routing
    call. *)
Theorem executeCmd_success (ba : BatchRequest) (n : Node) (sp : Span)
  (b : BatchResponse) :
  stopping (stopper n) = false ->
  joinSpan ba = Ok sp ->
  let sr := router (stores n) ba in
  srError sr = None ->
  srResponse sr = Some b ->
  brError b = None ->
  (forall n' r,
      executeCmd ba n = Returns n' r ->
      (exists spans,
          r = (Some (mkBatchResponse None (brCollectedSpans b ++ spans)
                                     (brResponses b)), None))
      /\ feed n' = feed n ++ [CallComplete ba (srElapsed sr) None]
      /\ sent (stores n') = sent (stores n) ++ [ba])
  /\ (sp = NoopSpan ->
      exists n', executeCmd ba n = Returns n' (Some b, None)).
Proof.
  intros HS HJ sr HE HR HB.
  unfold executeCmd, RunTask, dispatch, Send.
  rewrite HJ, HS. fold sr. rewrite HE, HR, HB. cbn.
  split.
  - intros n' r.
    destruct (Finish sp _) as [br1|h] eqn:Fi; [|discriminate].
    intros H. inversion H; subst; clear H.
    apply Finish_some in Fi. destruct Fi as (spans & ->). cbn.
    split; [exists spans; reflexivity|]. split; reflexivity.
  - intros ->. cbn. eexists. destruct b as [e c r]. cbn in HB. subst e.
    reflexivity.
Qed.

Lemma executeCmd_success_witness :
  let n := Sample.node5 in
  exists n',
    executeCmd Sample.plain n
    = Returns n' (Some (mkBatchResponse None [] ["get k"]), None)
    /\ feed n' = [CallComplete Sample.plain 7 None].
Proof.
  intros n.
  destruct (executeCmd_success Sample.plain n NoopSpan
              (mkBatchResponse None [] ["get k"]))
    as (Every & Plain); try reflexivity.
  destruct (Plain eq_refl) as (n' & R). exists n'.
  split; [exact R|]. destruct (Every n' _ R) as (_ & F & _). exact F.
Defined.

(** X19: an admitted request is routed once.  On a node that admits the
    request, however executeCmd ends -- with a response, or with a
    panic -- the batch has been passed to Send exactly once, the stores
    of the registry are the same, and the event feed has got the
    completion event of the request or nothing; it has got the event
    whenever executeCmd returns. *)
Theorem executeCmd_routes_once (ba : BatchRequest) (n : Node) (sp : Span) :
  stopping (stopper n) = false ->
  joinSpan ba = Ok sp ->
  let sr := router (stores n) ba in
  let n' := finalNode (executeCmd ba n) in
  sent (stores n') = sent (stores n) ++ [ba]
  /\ storeMap (stores n') = storeMap (stores n)
  /\ (feed n' = feed n
      \/ feed n' = feed n ++ [CallComplete ba (srElapsed sr) (srError sr)])
  /\ (forall r,
        executeCmd ba n = Returns n' r ->
        feed n' = feed n ++ [CallComplete ba (srElapsed sr) (srError sr)]).
Proof.
  intros HS HJ sr.
  unfold executeCmd, RunTask, dispatch, Send.
  rewrite HJ, HS. fold sr.
  destruct (srError sr) as [pe|]; cbn.
  - destruct (Finish sp _) as [br1|h]; cbn; auto.
  - destruct (srResponse sr) as [b|]; cbn.
    + destruct (brError b) as [e|]; cbn.
      * destruct (Finish sp _) as [br1|h]; cbn;
          (repeat split; auto; intros r H; discriminate H).
      * destruct (Finish sp _) as [br1|h]; cbn; auto.
    + destruct (Finish sp None) as [br1|h]; cbn;
        (repeat split; auto; intros r H; discriminate H).
Qed.

Lemma executeCmd_routes_once_witness :
  let n := Sample.node [] (mkDB 0 0 [] []) Sample.routeEmbedded in
  let n' := finalNode (executeCmd Sample.plain n) in
  sent (stores n') = [Sample.plain] /\ feed n' = [].
Proof.
  intros n n'.
  destruct (executeCmd_routes_once Sample.plain n NoopSpan)
    as (S & _); [reflexivity | reflexivity |].
  split; [exact S | reflexivity].
Defined.

(** X20: the spans of a traced request.  On a node that admits a request
    whose trace context joins, when every raw span of the tracer has an
    encoding, the response carries these encodings after the spans of
    the routing call, or alone next to an error of the routing call;
    when a raw span has no encoding, executeCmd panics with the error of
    the encoder. *)
Theorem executeCmd_collects_spans (ba : BatchRequest) (n : Node)
  (t : Trace) (recorded : list RawSpan) :
  stopping (stopper n) = false ->
  baTrace ba = Some t ->
  trJoin t = Ok recorded ->
  let sr := router (stores n) ba in
  (Forall encodes recorded ->
   (forall pErr,
       srError sr = Some pErr ->
       exists n',
         executeCmd ba n
         = Returns n' (Some (mkBatchResponse (Some pErr)
                               (encodedSpans recorded) []), None))
   /\ (forall b,
         srError sr = None -> srResponse sr = Some b ->
         brError b = None ->
         exists n',
           executeCmd ba n
           = Returns n' (Some (mkBatchResponse None
                                 (brCollectedSpans b
                                  ++ encodedSpans recorded)
                                 (brResponses b)), None)))
  /\ (Exists (fun r => ~ encodes r) recorded ->
      srError sr <> None \/ srResponse sr <> None ->
      exists n' err, executeCmd ba n = Halts n' (PanicEncodeSpan err)).
Proof.
  intros HS HT HJ sr.
  assert (J : joinSpan ba = Ok (JoinedSpan recorded))
    by (unfold joinSpan; rewrite HT, HJ; reflexivity).
  unfold executeCmd, RunTask, dispatch, Send.
  rewrite J, HS. fold sr. split.
  - intros HF. split.
    + intros pErr HE. rewrite HE. cbn.
      rewrite (recordSpans_encoded recorded HF). cbn.
      eexists. reflexivity.
    + intros b HE HR HB. rewrite HE, HR, HB. cbn.
      rewrite (recordSpans_encoded recorded HF). cbn.
      eexists. reflexivity.
  - intros HX Some'.
    destruct (srError sr) as [pe|]; cbn.
    + destruct (recordSpans_not_encoded recorded HX
                  (mkBatchResponse (Some pe) [] [])) as (err & E).
      cbn in E |- *. rewrite E. do 2 eexists. reflexivity.
    + destruct (srResponse sr) as [b|]; cbn;
        [|destruct Some' as [S|S]; contradiction].
      destruct (brError b) as [e|]; cbn.
      * destruct (recordSpans_not_encoded recorded HX b) as (err & E).
        rewrite E. do 2 eexists. reflexivity.
      * destruct (recordSpans_not_encoded recorded HX
                    (mkBatchResponse None (brCollectedSpans b)
                                     (brResponses b))) as (err & E).
        rewrite E. do 2 eexists. reflexivity.
Qed.

Lemma executeCmd_collects_spans_witness :
  exists n',
    executeCmd Sample.traced Sample.node5
    = Returns n' (Some (mkBatchResponse None ([] ++ ["span1"]) ["get k"]),
                  None).
Proof.
  destruct (executeCmd_collects_spans
              Sample.traced Sample.node5
              (mkTrace "ctx" "attrs" (Ok [mkRawSpan "node" (Ok "span1")]))
              [mkRawSpan "node" (Ok "span1")])
    as (Encoded & _); try reflexivity.
  destruct Encoded as (_ & Plain).
  - repeat constructor. exists "span1". reflexivity.
  - apply (Plain (mkBatchResponse None [] ["get k"])); reflexivity.
Defined.

(** ** Background gossip *)

Lemma VisitStores_gossipStore (order : list Store) :
  forall n,
    exists n',
      VisitStores gossipStore order n = Returns n' None
      /\ gStores (nodeGossip n') = gStores (nodeGossip n) ++ map sIdent order
      /\ stores n' = stores n
      /\ ClusterID n' = ClusterID n
      /\ Descriptor n' = Descriptor n
      /\ nodeDB n' = nodeDB n
      /\ stopper n' = stopper n
      /\ feed n' = feed n.
Proof.
  induction order as [|s rest IH]; intros n.
  - exists n. simpl. rewrite app_nil_r. repeat split; reflexivity.
  - cbn [VisitStores]. unfold gossipStore at 1. cbn [bind].
    destruct (IH (setGossip n (GossipStore (nodeGossip n) s)))
      as (n' & V & G & S & C & D & B & St & F).
    exists n'. split; [exact V|]. rewrite G. cbn.
    rewrite <- app_assoc. repeat split; assumption.
Qed.

(** X21: gossipStores never panics.  One call gossips every store of
    the registry once, in the order of the visit, and changes nothing
    else of the node. *)
Theorem gossipStores_each_once (n : Node) :
  Permutation (iterOrder (stores n) (storeMap (stores n)))
              (storeMap (stores n)) ->
  exists n' round,
    gossipStores n = Done n'
    /\ gStores (nodeGossip n') = gStores (nodeGossip n) ++ round
    /\ Permutation round (map sIdent (storeMap (stores n)))
    /\ stores n' = stores n
    /\ ClusterID n' = ClusterID n
    /\ Descriptor n' = Descriptor n
    /\ nodeDB n' = nodeDB n.
Proof.
  intros HP. unfold gossipStores.
  destruct (VisitStores_gossipStore
              (iterOrder (stores n) (storeMap (stores n))) n)
    as (n' & V & G & S & C & D & B & _).
  rewrite V. exists n', (map sIdent (iterOrder (stores n)
                                               (storeMap (stores n)))).
  split; [reflexivity|]. split; [exact G|].
  split; [apply Permutation_map; exact HP|]. auto.
Qed.

Lemma gossipStores_each_once_witness :
  let n := setStores Sample.node5
             (mkStores [Sample.started "A" (mkStoreIdent "c9" 5 7);
                        Sample.started "B" (mkStoreIdent "c9" 5 8)]
                       (@rev Store) Sample.route []) in
  exists n' round,
    gossipStores n = Done n'
    /\ gStores (nodeGossip n') = [] ++ round
    /\ Permutation round [mkStoreIdent "c9" 5 7; mkStoreIdent "c9" 5 8].
Proof.
  intros n.
  destruct (gossipStores_each_once n)
    as (n' & round & R & G & P & _).
  - apply Permutation_sym, Permutation_rev.
  - exists n', round. split; [exact R|]. split; [exact G | exact P].
Defined.

Lemma gossipStores_round (n : Node) :
  exists n',
    gossipStores n = Done n'
    /\ gStores (nodeGossip n')
       = gStores (nodeGossip n)
         ++ map sIdent (iterOrder (stores n) (storeMap (stores n)))
    /\ stores n' = stores n.
Proof.
  unfold gossipStores.
  destruct (VisitStores_gossipStore
              (iterOrder (stores n) (storeMap (stores n))) n)
    as (n' & V & G & S & _).
  rewrite V. exists n'. auto.
Qed.

Lemma gossipLoop_ticks (k : nat) (rest : list LoopEvent) :
  forall n,
    exists n',
      gossipLoop (repeat TickerC k ++ ShouldStop :: rest) n = Done n'
      /\ gossipLoop (repeat TickerC k) n = Waits n'
      /\ gStores (nodeGossip n')
         = gStores (nodeGossip n)
           ++ List.concat (repeat (map sIdent (iterOrder (stores n)
                                            (storeMap (stores n)))) k)
      /\ stores n' = stores n.
Proof.
  induction k as [|k IH]; intros n.
  - exists n. simpl. rewrite app_nil_r. auto.
  - cbn [repeat app gossipLoop List.concat].
    destruct (gossipStores_round n) as (n1 & R & G & S).
    rewrite R.
    destruct (IH n1) as (n' & L & W & G' & S').
    exists n'. rewrite L, W, G', G, S, S'. rewrite <- app_assoc. auto.
Qed.

(** X22: the worker of startGossip gossips the stores once before it
    looks at its ticker and the stopper, and once more for every tick it
    receives; the signal of the stopper ends it, and without that signal
    it does not end.  After [k] ticks, [k + 1] rounds were gossiped, each
    one every store of the registry. *)
Theorem gossipWorker_rounds (k : nat) (rest : list LoopEvent) (n : Node) :
  exists n',
    gossipWorker (repeat TickerC k ++ ShouldStop :: rest) n = Done n'
    /\ gossipWorker (repeat TickerC k) n = Waits n'
    /\ gStores (nodeGossip n')
       = gStores (nodeGossip n)
         ++ List.concat (repeat (map sIdent (iterOrder (stores n)
                                          (storeMap (stores n)))) (S k))
    /\ stores n' = stores n.
Proof.
  unfold gossipWorker.
  destruct (gossipStores_round n) as (n1 & R & G & S).
  rewrite R.
  destruct (gossipLoop_ticks k rest n1) as (n' & L & W & G' & S').
  exists n'. rewrite L, W, G', G, S, S'. cbn [repeat List.concat].
  rewrite <- app_assoc. auto.
Qed.

(** ** start *)

Lemma startEngines_unformatted (engines : list Engine) :
  Forall unformattedEngine engines ->
  forall bootstraps n,
    startEngines engines bootstraps n
    = (n, bootstraps ++ map NewStore engines, None).
Proof.
  induction 1 as [|e rest (EI & FS) _ IH]; intros bootstraps n.
  - simpl. rewrite app_nil_r. reflexivity.
  - assert (SS : StoreStart (NewStore e)
                 = (NewStore e, Some NotBootstrappedError)).
    { unfold StoreStart, NewStore. cbn [sEngine]. rewrite FS, EI.
      reflexivity. }
    cbn [startEngines map]. rewrite SS, IH, <- app_assoc. reflexivity.
Qed.

(** X23: a node without stores that is told to join itself.  When every
    engine is without StoreIdent and the only resolver of gossip has the
    address the node is started on, start returns errCannotJoinSelf: no
    engine is formatted, no ID is allocated, and the node is as
    initDescriptor and StartMonitorFeed left it. *)
Theorem start_cannot_join_self (env : StartEnv) (engines : list Engine)
  (attrs : list string) (n : Node) (r : Resolver) :
  engines <> [] ->
  Forall unformattedEngine engines ->
  storeMap (stores n) = [] ->
  GetResolvers (nodeGossip n) = [r] ->
  GetAddress r
  = Ok (AddrUnresolved (mkUnresolvedAddr (envNetwork env) (envAddress env))) ->
  start env engines attrs n
  = Returns (StartMonitorFeed
               (initDescriptor (envNetwork env) (envAddress env) attrs n))
            (engines, Some errCannotJoinSelf).
Proof.
  intros HE HF S0 HR HA.
  assert (L : (List.length engines =? 0)%nat = false).
  { destruct engines; [contradiction|reflexivity]. }
  unfold start, initStores. rewrite L.
  rewrite (startEngines_unformatted engines HF).
  unfold bootstrapCheck, GetStoreCount.
  unfold GetResolvers, nodeGossip in *. cbn. rewrite S0, HR. cbn.
  rewrite HA.
  replace (UnresolvedAddr_eqb _ _) with true; [reflexivity|].
  symmetry. apply UnresolvedAddr_eqb_eq. reflexivity.
Qed.

Lemma start_cannot_join_self_witness :
  let env := mkStartEnv "tcp" "10.0.0.1:26257" "c9" Sample.initialValues
                        (mkDB 0 0 [] []) (Err (ErrCollaborator "unused"))
                        1000 false in
  let n := NewNode (mkStoreContext (mkDB 1 1 [] [])
                      (Sample.gossipOf
                         [mkResolver (Ok (AddrUnresolved Sample.self))]))
                   (mkStopper false [] []) (@rev Store) Sample.route in
  start env [Sample.blank "a"; Sample.blank "b"] [] n
  = Returns (StartMonitorFeed (initDescriptor "tcp" "10.0.0.1:26257" [] n))
            ([Sample.blank "a"; Sample.blank "b"], Some errCannotJoinSelf).
Proof.
  intros env n.
  apply (start_cannot_join_self env [Sample.blank "a"; Sample.blank "b"] []
           n (mkResolver (Ok (AddrUnresolved Sample.self)))).
  - discriminate.
  - repeat constructor.
  - reflexivity.
  - reflexivity.
  - reflexivity.
Defined.

(** What a successful bootstrapCluster leaves in the engines: each one
    is an engine of node 1 of the new cluster, with the store ID of its
    index. *)
Lemma bootstrapEngines_members (cid : string) (iv : list KeyValue)
  (engines : list Engine) :
  forall i c engines' c',
    bootstrapEngines cid iv i engines c = (engines', c', None) ->
    Forall (fun e => failStart e = false /\ failCapacity e = false)
           engines ->
    Forall (memberEngine cid 1) engines'.
Proof.
  induction engines as [|eng rest IH]; simpl;
    intros i c engines' c' H HF.
  - inversion H; constructor.
  - inversion HF as [|? ? (FS & FC) HF']; subst.
    pose proof (bootstrapEngine_kept cid iv i eng c)
      as (_ & _ & KS & _ & _ & KC).
    destruct (bootstrapEngine cid iv i eng c) as [[eng1 c1] [e1|]] eqn:E1;
      [discriminate|].
    destruct (bootstrapEngines cid iv (S i) rest c1)
      as [[rest' c2] err'] eqn:E2.
    inversion H; subst; clear H. simpl in KS, KC.
    apply bootstrapEngine_ok in E1. destruct E1 as (_ & I & _).
    constructor; [|eapply IH; eauto].
    split; [eexists; split; [exact I|split; reflexivity]|].
    split; congruence.
Qed.

Lemma serve_returns (env : StartEnv) (n : Node) :
  envRegisterFails env = false ->
  exists n',
    serve env n = Returns n' None
    /\ ClusterID n' = ClusterID n /\ Descriptor n' = Descriptor n
    /\ stores n' = stores n /\ ctx n' = ctx n
    /\ startedAt n' = envNow env
    /\ feed n' = feed n ++ [StartNode (Descriptor n) (envNow env)]
    /\ workers (stopper n')
       = workers (stopper n) ++ [PublishStatusesLoop; GossipLoop].
Proof.
  intros HR. unfold serve. rewrite HR. eexists.
  split; [reflexivity|]. cbn. rewrite <- app_assoc.
  repeat split; reflexivity.
Qed.

(** X24: start on a new node creates the cluster.  With engines that
    were never formatted, no resolver, and a gossip network that carries
    the generated cluster ID once the stores run, start succeeds: the
    first initStores asks for the bootstrap, bootstrapCluster formats the
    engines, the node becomes its own resolver, and the second initStores
    gives the node the new cluster ID, node ID 1 and one started store
    per engine with the store IDs 1, 2, ... in the order of the engines
    (index + 1 converted to roachpb.StoreID, the number itself below the
    largest StoreID).  The allocator of the node is not asked for any
    ID. *)
Theorem start_creates_cluster (env : StartEnv) (engines : list Engine)
  (attrs : list string) (n : Node) (r : Resolver) :
  engines <> [] ->
  Forall blankEngine engines ->
  Forall (fun e => failCapacity e = false) engines ->
  Z.of_nat (List.length engines) <= max_int64 ->
  envUUID env <> "" ->
  envBootstrapDB env = mkDB 0 0 [] [] ->
  envSelfResolver env = Ok r ->
  envRegisterFails env = false ->
  ClusterID n = "" -> nodeID n = 0 -> storeMap (stores n) = [] ->
  (forall l, Permutation (iterOrder (stores n) l) l) ->
  GetResolvers (nodeGossip n) = [] ->
  gConnected (nodeGossip n) = true ->
  GetInfo (nodeGossip n) = Ok (envUUID env) ->
  failSetStorage (nodeGossip n) = false ->
  failSetNodeDescriptor (nodeGossip n) = false ->
  exists n' engines',
    start env engines attrs n = Returns n' (engines', None)
    /\ ClusterID n' = envUUID env
    /\ nodeID n' = 1
    /\ nodeDB n' = nodeDB n
    /\ GetResolvers (nodeGossip n') = [r]
    /\ storeMap (stores n') = map startedStore engines'
    /\ List.length engines' = List.length engines
    /\ forall i s,
        nth_error (storeMap (stores n')) i = Some s ->
        sStarted s = true
        /\ sIdent s
           = mkStoreIdent (envUUID env) 1 (toStoreID (Z.of_nat i + 1))
        /\ (Z.of_nat i < max_int32 ->
            sIdent s = mkStoreIdent (envUUID env) 1 (Z.of_nat i + 1)).
Proof.
  intros HE HB HCap HM HU HDB HSelf HReg C0 N0 S0 HP HR GC GI FSt FD.
  assert (L : (List.length engines =? 0)%nat = false).
  { destruct engines; [contradiction|reflexivity]. }
  assert (HUn : Forall unformattedEngine engines).
  { eapply Forall_impl; [|exact HB].
    intros e (I & _ & S & _). split; assumption. }
  set (n0 := StartMonitorFeed
               (initDescriptor (envNetwork env) (envAddress env) attrs n)).
  assert (First : initStores engines n0 = Returns n0 (Some errNeedsBootstrap)).
  { unfold initStores. rewrite L.
    rewrite (startEngines_unformatted engines HUn).
    unfold bootstrapCheck, GetStoreCount.
    unfold GetResolvers, nodeGossip in *. unfold n0. cbn.
    rewrite S0, HR. reflexivity. }
  pose proof (bootstrapCluster_succeeds (envUUID env) (envInitialValues env)
                [] engines HB HM) as Boot.
  unfold bootstrapCluster in Boot.
  destruct (bootstrapEngines (envUUID env) (envInitialValues env) 0 engines
              (mkBootstrapCtx (mkDB 0 0 [] []) []))
    as [[engines' c'] [err|]] eqn:BE; [discriminate|]. clear Boot.
  assert (Len : List.length engines' = List.length engines)
    by (eapply bootstrapEngines_length; eauto).
  assert (Mem : Forall (memberEngine (envUUID env) 1) engines').
  { eapply bootstrapEngines_members; [exact BE|].
    rewrite Forall_forall in *. intros e He.
    destruct (HB e He) as (_ & _ & S & _). split; [exact S|].
    apply HCap. exact He. }
  assert (NE : engines' <> []).
  { destruct engines'; [|discriminate]. destruct engines;
      [contradiction|discriminate]. }
  set (n1 := setGossip n0 (SetResolvers (nodeGossip n0) [r])).
  destruct (initStores_members_run (envUUID env) 1 engines' n1)
    as (n2 & R2 & C2 & N2 & D2 & S2 & St2 & F2 & T2 & GR2 & _);
    try assumption; try lia.
  destruct (serve_returns env n2 HReg)
    as (n3 & R3 & C3 & D3 & S3 & X3 & _).
  exists n3, engines'.
  unfold start. fold n0. rewrite First. cbn [bind].
  unfold bootstrapCluster. rewrite HDB, BE, HSelf. fold n1.
  rewrite R2. cbn [bind]. rewrite R3. cbn [bind].
  split; [reflexivity|]. split; [congruence|].
  split; [unfold nodeID in *; congruence|].
  split; [unfold nodeDB in *; rewrite X3; exact D2|].
  split; [unfold GetResolvers, nodeGossip in *; rewrite X3; exact GR2|].
  split; [congruence|]. split; [exact Len|].
  intros i s Hi. rewrite S3, S2 in Hi.
  rewrite nth_error_map in Hi.
  destruct (nth_error engines' i) as [e'|] eqn:E'; [|discriminate].
  cbn in Hi. inversion Hi; subst s; clear Hi.
  assert (In' : In e' engines') by (eapply nth_error_In; eauto).
  rewrite Forall_forall in Mem.
  destruct (startedStore_member _ _ _ (Mem e' In'))
    as (id & EI & -> & _). cbn. split; [reflexivity|].
  assert (Lt : (i < List.length engines)%nat).
  { rewrite <- Len. apply nth_error_Some. congruence. }
  destruct (nth_error engines i) as [e0|] eqn:E0;
    [|apply nth_error_None in E0; lia].
  destruct (bootstrapEngines_ok _ _ _ _ _ _ _ BE i e0 E0)
    as (e1 & N1 & _ & I1 & _).
  rewrite E' in N1. inversion N1; subst e1. cbn [Nat.add] in I1.
  assert (I : id = mkStoreIdent (envUUID env) 1
                                (toStoreID (Z.of_nat i + 1)))
    by congruence.
  split; [exact I|].
  intros R. rewrite I, (toStoreID_index i R). reflexivity.
Qed.

Lemma serve_inv (env : StartEnv) (m n' : Node) (err : option Error) :
  serve env m = Returns n' err ->
  err = None
  /\ envRegisterFails env = false
  /\ Descriptor n' = Descriptor m /\ ClusterID n' = ClusterID m
  /\ ctx n' = ctx m
  /\ startedAt n' = envNow env
  /\ feed n' = feed m ++ [StartNode (Descriptor m) (envNow env)]
  /\ workers (stopper n')
     = workers (stopper m) ++ [PublishStatusesLoop; GossipLoop].
Proof.
  unfold serve. destruct (envRegisterFails env); [discriminate|].
  intros H. inversion H; subst; clear H. cbn. rewrite <- app_assoc.
  repeat split; reflexivity.
Qed.

(** X25: when start returns without error the node is ready to serve:
    the RPC server has accepted the registration, the node has a NodeID
    other than 0 and the cluster ID that gossip carries, gossip stores
    into the registry, the start of the node is the last event on the
    feed, with the descriptor of the node and the time of the clock, and
    the two background workers were handed to the stopper last.  The
    engines are as they were, or as bootstrapCluster left them. *)
Theorem start_succeeded (env : StartEnv) (engines engines' : list Engine)
  (attrs : list string) (n n' : Node) :
  start env engines attrs n = Returns n' (engines', None) ->
  envRegisterFails env = false
  /\ nodeID n' <> 0
  /\ startedAt n' = envNow env
  /\ GetInfo (nodeGossip n') = Ok (ClusterID n')
  /\ gHasStorage (nodeGossip n') = true
  /\ (exists pre, feed n' = pre ++ [StartNode (Descriptor n') (envNow env)])
  /\ (exists ws,
        workers (stopper n') = ws ++ [PublishStatusesLoop; GossipLoop])
  /\ (engines' = engines
      \/ engines' = fst (bootstrapCluster (envUUID env)
                           (envInitialValues env) (envBootstrapDB env)
                           engines)).
Proof.
  assert (Ready : forall es m0 m,
             initStores es m0 = Returns m None ->
             serve env m = Returns n' None ->
             envRegisterFails env = false
             /\ nodeID n' <> 0
             /\ startedAt n' = envNow env
             /\ GetInfo (nodeGossip n') = Ok (ClusterID n')
             /\ gHasStorage (nodeGossip n') = true
             /\ (exists pre,
                    feed n' = pre ++ [StartNode (Descriptor n')
                                                (envNow env)])
             /\ (exists ws,
                    workers (stopper n')
                    = ws ++ [PublishStatusesLoop; GossipLoop])).
  { intros es m0 m I SV.
    destruct (initStores_returns_inv es m0 m I)
      as (_ & NZ & _ & GI & GH & _).
    destruct (serve_inv env m n' None SV)
      as (_ & RF & D & C & X & SA & F & W).
    unfold nodeID, nodeGossip, GetInfo in *. rewrite D, C, X.
    repeat split; auto; eexists; eassumption. }
  unfold start.
  set (n0 := StartMonitorFeed _).
  destruct (initStores engines n0) as [n1 [err|]|n1 h|n1] eqn:I1;
    cbn [bind]; try discriminate.
  - destruct err; try discriminate.
    destruct (bootstrapCluster _ _ _ engines) as [es [cid [e|]]] eqn:BC;
      [discriminate|].
    destruct (envSelfResolver env) as [r|e]; [|discriminate].
    match goal with
    | |- context [initStores es ?m] => set (n2 := m)
    end.
    destruct (initStores es n2) as [n3 [err|]|n3 h|n3] eqn:I2;
      cbn [bind]; try discriminate.
    destruct (serve env n3) as [n4 e4|n4 h|n4] eqn:SV; cbn [bind];
      try discriminate.
    intros H. inversion H; subst; clear H.
    destruct (Ready _ _ _ I2 SV) as (A & B & C & D & E' & F & G).
    repeat split; auto.
  - destruct (serve env n1) as [n4 e4|n4 h|n4] eqn:SV; cbn [bind];
      try discriminate.
    intros H. inversion H; subst; clear H.
    destruct (Ready _ _ _ I1 SV) as (A & B & C & D & E' & F & G).
    repeat split; auto.
Qed.

Lemma start_succeeded_witness :
  let env :=
    mkStartEnv "tcp" "10.0.0.1:26257" "c9" Sample.initialValues
               (mkDB 0 0 [] [])
               (Ok (mkResolver (Ok (AddrUnresolved Sample.self))))
               1000 false in
  let n := NewNode (mkStoreContext (mkDB 5 8 [] [])
                      (Sample.gossipOf
                         [mkResolver (Ok (AddrUnresolved Sample.peer))]))
                   (mkStopper false [] []) (@rev Store) Sample.route in
  let engines := [Sample.formatted "A" (mkStoreIdent "c9" 5 7)] in
  let n' := finalNode (start env engines [] n) in
  nodeID n' <> 0 /\ startedAt n' = 1000
  /\ exists pre, feed n' = pre ++ [StartNode (Descriptor n') 1000].
Proof.
  intros env n engines n'.
  destruct (start_succeeded env engines engines [] n n')
    as (_ & NZ & SA & _ & _ & F & _); [vm_compute; reflexivity|].
  split; [exact NZ|]. split; [exact SA | exact F].
Defined.

Lemma start_creates_cluster_witness :
  let env :=
    mkStartEnv "tcp" "10.0.0.1:26257" "c9" Sample.initialValues
               (mkDB 0 0 [] [])
               (Ok (mkResolver (Ok (AddrUnresolved Sample.self))))
               1000 false in
  let n := NewNode (mkStoreContext (mkDB 1 1 [] []) (Sample.gossipOf []))
                   (mkStopper false [] []) (@rev Store) Sample.route in
  exists n' engines',
    start env [Sample.blank "a"; Sample.blank "b"] [] n
    = Returns n' (engines', None)
    /\ ClusterID n' = "c9" /\ nodeID n' = 1
    /\ nodeDB n' = mkDB 1 1 [] []
    /\ List.length engines' = 2%nat.
Proof.
  intros env n.
  destruct (start_creates_cluster
              env [Sample.blank "a"; Sample.blank "b"] [] n
              (mkResolver (Ok (AddrUnresolved Sample.self))))
    as (n' & engines' & R & C & N & D & _ & _ & L & _);
    try reflexivity; try discriminate.
  - repeat constructor.
  - repeat constructor.
  - intros l. apply Permutation_sym, Permutation_rev.
  - exists n', engines'. auto.
Defined.

(** ** initStores and the asynchronous bootstrap together *)

Lemma startEngines_started (engines : list Engine) :
  forall bootstraps n n1 bootstraps1,
    startEngines engines bootstraps n = (n1, bootstraps1, None) ->
    Forall (fun e => failStart e = false) engines.
Proof.
  induction engines as [|e rest IH]; intros bootstraps n n1 bootstraps1 H;
    [constructor|].
  cbn [startEngines] in H. unfold StoreStart, NewStore in H.
  cbn [sEngine] in H.
  destruct (failStart e) eqn:FS; [discriminate|].
  constructor; [exact FS|].
  destruct (engIdent e) as [id|] eqn:EI.
  - cbn [sIdent] in H.
    destruct ((siClusterID id =? "")%string || (siNodeID id =? 0));
      [discriminate|].
    destruct (StoreCapacity _); [|discriminate].
    eapply IH; eauto.
  - eapply IH; eauto.
Qed.

(** X26: initStores and bootstrapStores together leave no engine out.
    When initStores has succeeded and left the node with a cluster ID,
    the list it handed over for the asynchronous bootstrap holds stores
    without StoreIdent only; if their engines accept Bootstrap and the
    allocator answers, bootstrapStores on that list returns, and then
    the registry has one more store for every engine given to
    initStores. *)
Theorem initStores_then_bootstrapStores_all
  (engines : list Engine) (n n1 n' : Node) (bootstraps : list Store)
  (db : DB) (first : StoreID) :
  initStores engines n = Returns n' None ->
  startEngines engines [] n = (n1, bootstraps, None) ->
  ClusterID n' <> "" ->
  Forall (fun e => failBootstrap e = false) engines ->
  allocateStoreIDs (nodeID n') (Z.of_nat (List.length bootstraps))
                   (nodeDB n')
  = (db, (first, None)) ->
  Forall pendingStore bootstraps
  /\ exists n'',
      bootstrapStores bootstraps n' = Returns n'' tt
      /\ List.length (storeMap (stores n''))
         = (List.length (storeMap (stores n)) + List.length engines)%nat
      /\ ClusterID n'' = ClusterID n' /\ nodeID n'' = nodeID n'.
Proof.
  intros HI HS HC HB HA.
  destruct (initStores_returns_inv engines n n' HI)
    as (_ & _ & _ & _ & _ & n1' & bs' & SE & S & _).
  rewrite HS in SE. inversion SE; subst n1' bs'; clear SE.
  pose proof (startEngines_started _ _ _ _ _ HS) as Started.
  pose proof (startEngines_partition _ _ _ _ _ HS) as (B & S1 & _).
  cbn [app] in B.
  assert (Pending : Forall pendingStore bootstraps).
  { rewrite B. apply Forall_forall. intros s Hs.
    apply in_map_iff in Hs. destruct Hs as (e & <- & He).
    apply filter_In in He. destruct He as (He & NF).
    rewrite Forall_forall in HB, Started.
    unfold formattedEngine in NF. unfold pendingStore, NewStore. cbn.
    destruct (engIdent e); [discriminate|].
    repeat split; auto. }
  split; [exact Pending|].
  apply String.eqb_neq in HC.
  pose proof (allocateStoreIDs_in_int32 _ _ _ _ _ _ HA) as HR.
  unfold bootstrapStores. rewrite HC, HA.
  match goal with
  | |- context [bootstrapPending bootstraps ?i ?m] =>
      destruct (bootstrapPending_ok bootstraps i m Pending HR)
        as (n'' & added & R & M & L & _);
      pose proof (bootstrapPending_frame bootstraps i m) as Fr
  end.
  rewrite R in Fr. cbn in Fr. destruct Fr as (_ & C & D).
  exists n''. split; [exact R|]. split.
  - rewrite M. cbn. rewrite S, S1. cbn.
    rewrite !length_app, L, B, !length_map.
    pose proof (filter_length formattedEngine engines) as FL. lia.
  - unfold nodeID. rewrite D. auto.
Qed.

Lemma initStores_then_bootstrapStores_all_witness :
  let engines := [Sample.formatted "A" (mkStoreIdent "c9" 5 7);
                  Sample.blank "B"; Sample.blank "C"] in
  let n := Sample.node [mkResolver (Ok (AddrUnresolved Sample.peer))]
                       (mkDB 5 7 [] []) Sample.route in
  let n' := finalNode (initStores engines n) in
  exists n'',
    bootstrapStores [NewStore (Sample.blank "B"); NewStore (Sample.blank "C")]
                    n'
    = Returns n'' tt
    /\ List.length (storeMap (stores n'')) = 3%nat.
Proof.
  intros engines n n'.
  destruct (initStores_then_bootstrapStores_all
              engines n (fst (fst (startEngines engines [] n))) n'
              [NewStore (Sample.blank "B"); NewStore (Sample.blank "C")]
              (mkDB 5 9 [] [(StoreIDGenerator, 2)]) 8)
    as (_ & n'' & R & L & _).
  - vm_compute. reflexivity.
  - reflexivity.
  - discriminate.
  - repeat constructor.
  - reflexivity.
  - exists n''. split; [exact R | exact L].
Defined.
